(** * Bird monitoring dashboard: the data pipeline of [22Junestreamlit.py]

    The script loads one table into a pandas frame ([load_data]), derives a
    filtered frame from the sidebar selections ([apply_filters]) and computes
    a handful of aggregates from the filtered frame (top-N species, the
    temperature scatter, the watch-list summary, the year x month pivot and
    the CSV export).

    Frames are objects: [load_data] assigns columns in place, [apply_filters]
    starts from [df.copy()] and rebinds a local name to new frames.  The
    embedding therefore keeps a store of frames addressed by references and
    writes both functions in a state-and-exception monad.  The aggregates
    only read the filtered frame; they are functions of its value. *)

From Stdlib Require Import List ZArith String Ascii Bool Arith Lia.
From Stdlib Require Import Permutation Sorted.
From Stdlib Require DecimalString.
Import ListNotations.

Open Scope string_scope.
Open Scope Z_scope.
Open Scope nat_scope.
Open Scope list_scope.

(** ** Cells, exceptions, results *)

(** One cell of a frame.  [NA] stands for None, NaN and NaT alike; [Ts t] is
    a timestamp, [t] nanoseconds after 1970-01-01T00:00:00. *)
Inductive value : Type :=
| NA
| Str (s : string)
| Num (z : Z)
| Ts (t : Z).

Definition value_eq_dec (a b : value) : {a = b} + {a <> b}.
Proof.
  decide equality; first [apply string_dec | apply Z.eq_dec].
Defined.

Definition value_eqb (a b : value) : bool :=
  if value_eq_dec a b then true else false.

Definition isna (v : value) : bool :=
  match v with NA => true | _ => false end.

Definition notna (v : value) : bool := negb (isna v).

(** A column taken out of a frame (a pandas Series, positions only). *)
Definition series := list value.

(** The Python exceptions the modelled code can raise. *)
Inductive exn : Type :=
| KeyError (key : string)
| ValueError (msg : string)
| TypeError (msg : string)
| AttributeError (msg : string)
| OperationalError (msg : string)
| ReferenceError (msg : string).

Inductive result (A : Type) : Type :=
| Ok (a : A)
| Raise (e : exn).

Arguments Ok {A} a.
Arguments Raise {A} e.

Definition rbind {A B : Type} (r : result A) (k : A -> result B) : result B :=
  match r with
  | Ok a => k a
  | Raise e => Raise e
  end.

Declare Scope result_scope.
Delimit Scope result_scope with result.
Notation "x <-? r ;; k" := (rbind r (fun x => k))
  (at level 61, r at next level, right associativity) : result_scope.

(** [map] with a fallible function, left to right, first failure wins. *)
Fixpoint rmap {A B : Type} (f : A -> result B) (l : list A) : result (list B) :=
  match l with
  | [] => Ok []
  | a :: l' =>
      match f a with
      | Ok b =>
          match rmap f l' with
          | Ok bs => Ok (b :: bs)
          | Raise e => Raise e
          end
      | Raise e => Raise e
      end
  end.

(** ** Calendar arithmetic on timestamps *)

Definition ns_per_day : Z := 86400000000000.

(** Proleptic Gregorian date (year, month, day) of a day number counted from
    1970-01-01. *)
Definition civil_from_days (days : Z) : Z * Z * Z :=
  (let z := days + 719468 in
   let era := z / 146097 in
   let doe := z - era * 146097 in
   let yoe := (doe - doe / 1460 + doe / 36524 - doe / 146096) / 365 in
   let y := yoe + era * 400 in
   let doy := doe - (365 * yoe + yoe / 4 - yoe / 100) in
   let mp := (5 * doy + 2) / 153 in
   let d := doy - (153 * mp + 2) / 5 + 1 in
   let m := if mp <? 10 then mp + 3 else mp - 9 in
   (if m <=? 2 then y + 1 else y, m, d))%Z.

(** Day number of a proleptic Gregorian date. *)
Definition days_from_civil (y m d : Z) : Z :=
  (let y := if m <=? 2 then y - 1 else y in
   let era := y / 400 in
   let yoe := y - era * 400 in
   let mp := if m >? 2 then m - 3 else m + 9 in
   let doy := (153 * mp + 2) / 5 + d - 1 in
   let doe := yoe * 365 + yoe / 4 - yoe / 100 + doy in
   era * 146097 + doe - 719468)%Z.

Definition year_of (t : Z) : Z :=
  let '(y, _, _) := civil_from_days (t / ns_per_day)%Z in y.

Definition month_of (t : Z) : Z :=
  let '(_, m, _) := civil_from_days (t / ns_per_day)%Z in m.

Definition day_of (t : Z) : Z :=
  let '(_, _, d) := civil_from_days (t / ns_per_day)%Z in d.

(** The labels of strftime's %b in the C locale; also the row labels of the
    heatmap pivot. *)
Definition month_abbrs : list string :=
  ["Jan"; "Feb"; "Mar"; "Apr"; "May"; "Jun";
   "Jul"; "Aug"; "Sep"; "Oct"; "Nov"; "Dec"].

Definition month_abbr (m : Z) : string :=
  nth (Z.to_nat (m - 1)) month_abbrs "".

(** [pd.to_datetime] of a [datetime.date]: midnight of that day.  A date is
    its day number. *)
Definition timestamp_of_date (d : Z) : Z := (d * ns_per_day)%Z.

(** ** Frames as values *)

(** A frame: column labels, row labels and the rows, each row holding one
    cell per column. *)
Record DataFrame : Type := mkDF {
  columns : list string;
  index : list nat;
  data : list (list value)
}.

Module DF.

(** Position of a column label. *)
Fixpoint col_index (c : string) (cols : list string) : option nat :=
  match cols with
  | [] => None
  | c' :: cols' =>
      if String.eqb c c' then Some 0
      else option_map S (col_index c cols')
  end.

Definition cell (i : nat) (row : list value) : value := nth i row NA.

(** [df[c]]: the column labelled [c], KeyError when there is none. *)
Definition getitem (df : DataFrame) (c : string) : result series :=
  match col_index c (columns df) with
  | Some i => Ok (map (cell i) (data df))
  | None => Raise (KeyError c)
  end.

(** [c in df.columns]. *)
Definition has_column (df : DataFrame) (c : string) : bool :=
  match col_index c (columns df) with Some _ => true | None => false end.

(** [s.isin(values)]. *)
Definition isin (s : series) (values : list value) : list bool :=
  map (fun v => existsb (value_eqb v) values) s.

(** The entries of [l] at the positions where [mask] is True. *)
Fixpoint pick {A : Type} (mask : list bool) (l : list A) : list A :=
  match mask, l with
  | b :: mask', a :: l' => if b then a :: pick mask' l' else pick mask' l'
  | _, _ => []
  end.

(** [df[mask]] for a boolean mask computed from [df] itself: the rows at the
    True positions, with their labels. *)
Definition select (df : DataFrame) (mask : list bool) : DataFrame :=
  mkDF (columns df) (pick mask (index df)) (pick mask (data df)).

(** [df.reset_index(drop=True)]. *)
Definition reset_index (df : DataFrame) : DataFrame :=
  mkDF (columns df) (seq 0 (List.length (data df))) (data df).

(** [len(df)] and [df.empty]. *)
Definition len (df : DataFrame) : nat := List.length (data df).

Definition empty (df : DataFrame) : bool :=
  match data df with [] => true | _ => false end.

(** Comparison of one cell of a datetime column with a timestamp: NaT
    compares False, a cell that is no datetime is a TypeError. *)
Definition cmp_ts (op : Z -> Z -> bool) (bound : Z) (v : value) : result bool :=
  match v with
  | Ts t => Ok (op t bound)
  | NA => Ok false
  | Str _ | Num _ => Raise (TypeError "Invalid comparison with Timestamp")
  end.

(** [s >= bound] and [s <= bound]. *)
Definition ge_ts (s : series) (bound : Z) : result (list bool) :=
  rmap (cmp_ts Z.geb bound) s.

Definition le_ts (s : series) (bound : Z) : result (list bool) :=
  rmap (cmp_ts Z.leb bound) s.

(** [m1 & m2]. *)
Fixpoint mask_and (m1 m2 : list bool) : list bool :=
  match m1, m2 with
  | a :: m1', b :: m2' => (a && b) :: mask_and m1' m2'
  | _, _ => []
  end.

(** Comparison of a numeric cell with a number.  NaN compares False under
    [>]; a string or a timestamp against a number is a TypeError. *)
Definition gt_num (bound : Z) (v : value) : result bool :=
  match v with
  | Num z => Ok (Z.gtb z bound)
  | NA => Ok false
  | Str _ | Ts _ => Raise (TypeError "'>' not supported")
  end.

(** [!=] never raises: anything that is not that number, NaN included, is
    unequal to it. *)
Definition ne_num (bound : Z) (v : value) : bool :=
  match v with
  | Num z => negb (Z.eqb z bound)
  | _ => true
  end.

(** Replace the cell at position [i] of a row ([row] unchanged when it is
    shorter). *)
Fixpoint set_cell (i : nat) (v : value) (row : list value) : list value :=
  match i, row with
  | O, _ :: row' => v :: row'
  | S i', x :: row' => x :: set_cell i' v row'
  | _, [] => []
  end.

Fixpoint zip_with {A B C : Type} (f : A -> B -> C) (l1 : list A) (l2 : list B)
  : list C :=
  match l1, l2 with
  | a :: l1', b :: l2' => f a b :: zip_with f l1' l2'
  | _, _ => []
  end.

(** [df[c] = s] as a value transformer: the column [c] is overwritten when
    the frame has it and appended as the last column otherwise; a series of
    another length than the frame is a ValueError. *)
Definition setitem (df : DataFrame) (c : string) (s : series) : result DataFrame :=
  if negb (List.length s =? List.length (data df)) then
    Raise (ValueError "Length of values does not match length of index")
  else
    match col_index c (columns df) with
    | Some i =>
        Ok (mkDF (columns df) (index df)
                 (zip_with (fun row v => set_cell i v row) (data df) s))
    | None =>
        Ok (mkDF (columns df ++ [c]) (index df)
                 (zip_with (fun row v => row ++ [v]) (data df) s))
    end.

(** *** Datetime columns *)

(** The [errors] argument of [pd.to_datetime]. *)
Inductive errors_mode : Type := ErrorsRaise | ErrorsCoerce.

(** Timestamps are 64-bit counts of nanoseconds; the least one is NaT. *)
Definition in_bounds (t : Z) : bool :=
  ((-9223372036854775807 <=? t) && (t <=? 9223372036854775807))%Z.

Definition is_datetime (v : value) : bool :=
  match v with NA | Ts _ => true | Str _ | Num _ => false end.

Definition year_cell (v : value) : value :=
  match v with Ts t => Num (year_of t) | _ => NA end.

Definition month_cell (v : value) : value :=
  match v with Ts t => Str (month_abbr (month_of t)) | _ => NA end.

(** The [.dt] accessor exists on datetime columns only. *)
Definition dt (s : series) : result series :=
  if forallb is_datetime s then Ok s
  else Raise (AttributeError "Can only use .dt accessor with datetimelike values").

(** [s.dt.year] and [s.dt.strftime("%b")]; NaT gives NaN in both. *)
Definition dt_year (s : series) : result series :=
  (d <-? dt s ;; Ok (map year_cell d))%result.

Definition dt_strftime_b (s : series) : result series :=
  (d <-? dt s ;; Ok (map month_cell d))%result.

(** *** Counting and ordering *)

Section Tally.

Context {A : Type} (eq_dec : forall a b : A, {a = b} + {a <> b}).

Definition eqb_of (a b : A) : bool := if eq_dec a b then true else false.

(** The distinct entries of a list, in the order of their first
    occurrence. *)
Fixpoint uniq (l : list A) : list A :=
  match l with
  | [] => []
  | a :: l' => a :: filter (fun b => negb (eqb_of b a)) (uniq l')
  end.

(** Each distinct entry with the number of its occurrences. *)
Definition tally (l : list A) : list (A * nat) :=
  map (fun a => (a, count_occ eq_dec l a)) (uniq l).

Definition has_dup (l : list A) : bool :=
  negb (List.length (uniq l) =? List.length l).

End Tally.

Section Sorting.

Context {A : Type} (leb : A -> A -> bool).

(** Insertion before the first entry that does not precede [x]: entries
    that compare equal keep the order they had. *)
Fixpoint insert (x : A) (l : list A) : list A :=
  match l with
  | [] => [x]
  | y :: l' => if leb x y then x :: y :: l' else y :: insert x l'
  end.

Definition isort (l : list A) : list A := fold_right insert [] l.

End Sorting.

(** A series of counts indexed by the counted values. *)
Definition counts := list (value * nat).

Definition count_geb (a b : value * nat) : bool := snd b <=? snd a.

(** Descending by count. *)
Definition sort_desc (c : counts) : counts := isort count_geb c.

(** [s.value_counts()]: nulls are not counted, the most frequent value comes
    first.  Among equal counts pandas leaves the order to its sorting
    routine; here they stay in the order of first occurrence. *)
Definition value_counts (s : series) : counts :=
  sort_desc (tally value_eq_dec (filter notna s)).

(** [c.nlargest(n)], keep='first'. *)
Definition nlargest (n : nat) (c : counts) : counts :=
  firstn n (sort_desc c).

(** [c.reset_index(name=name)] for a series of counts whose index carries
    the label [index_label]: a frame of two columns. *)
Definition reset_index_counts (index_label name : string) (c : counts)
  : DataFrame :=
  mkDF [index_label; name] (seq 0 (List.length c))
       (map (fun vn => [fst vn; Num (Z.of_nat (snd vn))]) c).

(** [df.rename(columns={old: new})]; labels that are absent are skipped. *)
Definition rename (old new : string) (df : DataFrame) : DataFrame :=
  mkDF (map (fun c => if String.eqb c old then new else c) (columns df))
       (index df) (data df).

(** [df.columns = labels]. *)
Definition set_columns (labels : list string) (df : DataFrame) : result DataFrame :=
  if List.length labels =? List.length (columns df) then
    Ok (mkDF labels (index df) (data df))
  else Raise (ValueError "Length mismatch").

(** The order pandas sorts labels by.  The cells of one column of a loaded
    frame are of one kind; across kinds the order is fixed arbitrarily. *)
Definition value_leb (a b : value) : bool :=
  match a, b with
  | NA, _ => true
  | _, NA => false
  | Num x, Num y => (x <=? y)%Z
  | Num _, _ => true
  | _, Num _ => false
  | Ts x, Ts y => (x <=? y)%Z
  | Ts _, _ => true
  | _, Ts _ => false
  | Str x, Str y => String.leb x y
  end.

Fixpoint key_leb (k1 k2 : list value) : bool :=
  match k1, k2 with
  | [], _ => true
  | _ :: _, [] => false
  | a :: k1', b :: k2' =>
      if value_eqb a b then key_leb k1' k2' else value_leb a b
  end.

(** [df[[c1; ...; cn]]]. *)
Definition col_index_exn (cols : list string) (c : string) : result nat :=
  match col_index c cols with
  | Some i => Ok i
  | None => Raise (KeyError c)
  end.

Definition getitems (df : DataFrame) (cs : list string) : result DataFrame :=
  (ixs <-? rmap (col_index_exn (columns df)) cs ;;
   Ok (mkDF cs (index df) (map (fun row => map (fun i => cell i row) ixs) (data df))))%result.

(** [df.dropna()]: the rows without a null. *)
Definition dropna (df : DataFrame) : DataFrame :=
  select df (map (forallb notna) (data df)).

(** [df.groupby(keys).size()]: rows with a null key are left out, groups
    come sorted by key. *)
Definition groupby_size (df : DataFrame) (keys : list string)
  : result (list (list value * nat)) :=
  (ixs <-? rmap (col_index_exn (columns df)) keys ;;
   let ks := filter (forallb notna)
               (map (fun row => map (fun i => cell i row) ixs) (data df)) in
   Ok (isort (fun a b => key_leb (fst a) (fst b))
             (tally (list_eq_dec value_eq_dec) ks)))%result.

(** [g.reset_index(name=name)] for the sizes of a grouping by [keys]. *)
Definition reset_index_groups (keys : list string) (name : string)
  (g : list (list value * nat)) : DataFrame :=
  mkDF (keys ++ [name]) (seq 0 (List.length g))
       (map (fun kn => fst kn ++ [Num (Z.of_nat (snd kn))]) g).

(** *** Pivot tables *)

(** A reshaped table: row labels, column labels, and one row of cells per
    row label. *)
Record Pivot : Type := mkPivot {
  p_index : list value;
  p_columns : list value;
  p_cells : list (list value)
}.

Definition label_pair_eq_dec (a b : value * value) : {a = b} + {a <> b}.
Proof.
  decide equality; apply value_eq_dec.
Defined.

(** The distinct labels of a column, sorted. *)
Definition sorted_labels (s : series) : list value :=
  isort value_leb (uniq value_eq_dec s).

(** The value recorded for the pair of labels [(r, c)], NaN when there is
    none. *)
Fixpoint lookup_entry (r c : value) (entries : list (value * value * value))
  : value :=
  match entries with
  | [] => NA
  | (r', c', v) :: entries' =>
      if value_eqb r r' && value_eqb c c' then v
      else lookup_entry r c entries'
  end.

(** [df.pivot(index=idx, columns=cols, values=vals)]. *)
Definition pivot (df : DataFrame) (idx cols vals : string) : result Pivot :=
  (i <-? getitem df idx ;;
   c <-? getitem df cols ;;
   v <-? getitem df vals ;;
   if has_dup label_pair_eq_dec (combine i c) then
     Raise (ValueError "Index contains duplicate entries, cannot reshape")
   else
     let entries := combine (combine i c) v in
     let rows := sorted_labels i in
     let cs := sorted_labels c in
     Ok (mkPivot rows cs
           (map (fun r => map (fun c => lookup_entry r c entries) cs) rows)))%result.

(** [p.fillna(0)]. *)
Definition fillna0 (p : Pivot) : Pivot :=
  mkPivot (p_index p) (p_columns p)
          (map (map (fun v => if isna v then Num 0 else v)) (p_cells p)).

(** The entry stored under a label, if there is one. *)
Fixpoint find_row {A : Type} (l : value) (labels : list value) (rows : list A)
  : option A :=
  match labels, rows with
  | l' :: labels', row :: rows' =>
      if value_eqb l l' then Some row else find_row l labels' rows'
  | _, _ => None
  end.

(** [p.reindex(labels)]: one row per requested label, in that order; a
    label the table does not have gets a row of NaN. *)
Definition reindex (labels : list value) (p : Pivot) : Pivot :=
  mkPivot labels (p_columns p)
          (map (fun l =>
                  match find_row l (p_index p) (p_cells p) with
                  | Some row => row
                  | None => repeat NA (List.length (p_columns p))
                  end) labels).

(** The cell of a pivot table at a row label and a column label. *)
Definition pivot_cell (p : Pivot) (r c : value) : option value :=
  match find_row r (p_index p) (p_cells p) with
  | Some row => find_row c (p_columns p) row
  | None => None
  end.

(** *** Sampling *)

Fixpoint remove_nth {A : Type} (i : nat) (l : list A) : list A :=
  match i, l with
  | _, [] => []
  | O, _ :: l' => l'
  | S i', a :: l' => a :: remove_nth i' l'
  end.

(** [n] draws without replacement.  The random source is the list [draws]:
    each draw takes the entry at its number modulo what is left. *)
Fixpoint draw {A : Type} (draws : list nat) (n : nat) (l : list A) : list A :=
  match n, l with
  | O, _ => []
  | _, [] => []
  | S n', a :: _ =>
      let r := match draws with
               | [] => 0
               | d :: _ => d mod List.length l
               end in
      nth r l a :: draw (tl draws) n' (remove_nth r l)
  end.

(** [df.sample(n=n)], without replacement: asking for more rows than the
    frame has is a ValueError. *)
Definition sample (draws : list nat) (n : nat) (df : DataFrame)
  : result DataFrame :=
  if List.length (data df) <? n then
    Raise (ValueError "Cannot take a larger sample than population when 'replace=False'")
  else
    let picked := draw draws n (combine (index df) (data df)) in
    Ok (mkDF (columns df) (map fst picked) (map snd picked)).

(** *** CSV export *)

Definition dquote : ascii := ascii_of_nat 34.
Definition newline : ascii := ascii_of_nat 10.
Definition carriage_return : ascii := ascii_of_nat 13.
Definition comma : ascii := ascii_of_nat 44.

Fixpoint string_existsb (f : ascii -> bool) (s : string) : bool :=
  match s with
  | EmptyString => false
  | String a s' => f a || string_existsb f s'
  end.

(** Every quote character written twice. *)
Fixpoint double_quotes (s : string) : string :=
  match s with
  | EmptyString => EmptyString
  | String a s' =>
      if Ascii.eqb a dquote then String a (String a (double_quotes s'))
      else String a (double_quotes s')
  end.

(** Minimal quoting: a field holding a separator, a quote or a line break
    is put between quotes. *)
Definition csv_quote (s : string) : string :=
  if string_existsb
       (fun a => Ascii.eqb a comma || Ascii.eqb a dquote
                 || Ascii.eqb a newline || Ascii.eqb a carriage_return) s
  then String dquote (double_quotes s ++ String dquote EmptyString)%string
  else s.

Section ToCsv.

(** The text pandas writes for a cell that is not null.  It depends on the
    type the frame keeps for the column the cell stands in (a whole number
    prints as [20] in a column of integers and as [20.0] in a column of
    floats) and on the other cells of the column (a column of midnights
    prints as dates), so it is given the label of the column and its cells
    too.  A pandas function, outside the repository. *)
Variable format_cell : string -> series -> value -> string.

(** The cells of the column at position [j]. *)
Definition column_at (df : DataFrame) (j : nat) : series :=
  map (cell j) (data df).

(** The fields of a row: one per column, a null as the empty field
    ([na_rep=""]). *)
Definition csv_row (df : DataFrame) (row : list value) : list string :=
  map (fun cj => let v := cell (snd cj) row in
                 if isna v then ""
                 else format_cell (fst cj) (column_at df (snd cj)) v)
      (combine (columns df) (seq 0 (List.length (columns df)))).

(** The records of [df.to_csv(index=False)]: the column labels, then one
    record per row of the frame. *)
Definition csv_records (df : DataFrame) : list (list string) :=
  columns df :: map (csv_row df) (data df).

(** A record as a line: fields quoted where they must be and separated by
    commas.  A record of one empty field is written as a pair of quotes. *)
Definition csv_line (fields : list string) : string :=
  match fields with
  | [EmptyString] =>
      String dquote (String dquote (String newline EmptyString))
  | _ =>
      (String.concat (String comma EmptyString) (map csv_quote fields)
       ++ String newline EmptyString)%string
  end.

(** [df.to_csv(index=False)]. *)
Definition to_csv (df : DataFrame) : string :=
  String.concat "" (map csv_line (csv_records df)).

End ToCsv.

End DF.

(** ** The store of frames *)

(** A frame object is a reference into the store.  Series and masks are
    temporaries that nothing in the script updates; they stay values. *)
Definition ref : Type := nat.
Definition store : Type := list DataFrame.

(** Computations that read and update the store and may raise. *)
Definition M (A : Type) : Type := store -> result A * store.

Definition ret {A : Type} (a : A) : M A := fun h => (Ok a, h).

Definition raise {A : Type} (e : exn) : M A := fun h => (Raise e, h).

Definition bind {A B : Type} (m : M A) (k : A -> M B) : M B :=
  fun h =>
    match m h with
    | (Ok a, h') => k a h'
    | (Raise e, h') => (Raise e, h')
    end.

Definition lift {A : Type} (r : result A) : M A := fun h => (r, h).

Declare Scope store_scope.
Delimit Scope store_scope with store.
Notation "x <- m ;; k" := (bind m (fun x => k))
  (at level 61, m at next level, right associativity) : store_scope.
Notation "m ;;; k" := (bind m (fun _ => k))
  (at level 61, right associativity) : store_scope.

(** A new object holding [df]. *)
Definition new (df : DataFrame) : M ref :=
  fun h => (Ok (List.length h), h ++ [df]).

Definition deref (r : ref) : M DataFrame :=
  fun h =>
    match nth_error h r with
    | Some df => (Ok df, h)
    | None => (Raise (ReferenceError "no such frame"), h)
    end.

Fixpoint update (r : ref) (df : DataFrame) (h : store) : store :=
  match r, h with
  | _, [] => []
  | O, _ :: h' => df :: h'
  | S r', x :: h' => x :: update r' df h'
  end.

(** Overwrite the object at [r]: every holder of [r] sees the change. *)
Definition assign (r : ref) (df : DataFrame) : M unit :=
  fun h =>
    if r <? List.length h then (Ok tt, update r df h)
    else (Raise (ReferenceError "no such frame"), h).

(** [df.copy()]. *)
Definition copy (df : ref) : M ref :=
  (v <- deref df ;; new v)%store.

(** [df[c]]. *)
Definition getitem (df : ref) (c : string) : M series :=
  (v <- deref df ;; lift (DF.getitem v c))%store.

(** [df[c] = s], in place. *)
Definition setitem (df : ref) (c : string) (s : series) : M unit :=
  (v <- deref df ;;
   v' <- lift (DF.setitem v c s) ;;
   assign df v')%store.

(** [df[mask]]: a new frame. *)
Definition getitem_mask (df : ref) (mask : list bool) : M ref :=
  (v <- deref df ;; new (DF.select v mask))%store.

(** [df.reset_index(drop=True)]: a new frame. *)
Definition reset_index_drop (df : ref) : M ref :=
  (v <- deref df ;; new (DF.reset_index v))%store.

(** ** [load_data] *)

(** The columns the query selects from [bird_monitoring]. *)
Definition select_columns : list string :=
  ["Plot_Name"; "Date"; "Observer"; "Common_Name"; "Scientific_Name";
   "Distance"; "Sex"; "Temperature"; "Humidity"; "Sky"; "Wind";
   "Start_Time"; "End_Time"; "PIF_Watchlist_Status"].

(** [pd.read_sql(query, conn)] against a database that either answers with
    the rows of the table, one cell per selected column, or fails. *)
Definition read_sql (database : result (list (list value))) : M ref :=
  (rows <- lift database ;;
   new (mkDF select_columns (seq 0 (List.length rows)) rows))%store.

Section LoadData.

(** [pd.to_datetime], a pandas function, outside the repository: given the
    [errors] argument and a column it returns the converted column or
    raises.  What it returns is a column of timestamps and NaT, except
    where pandas finds no single type for the result (dates written with
    different UTC offsets): then the column it returns has cells that are
    no timestamps. *)
Variable to_datetime : DF.errors_mode -> series -> result series.

Definition load_data (database : result (list (list value))) : M ref :=
  (df <- read_sql database ;;
   s <- getitem df "Date" ;;
   d <- lift (to_datetime DF.ErrorsCoerce s) ;;
   setitem df "Date" d ;;;
   s <- getitem df "Date" ;;
   y <- lift (DF.dt_year s) ;;
   setitem df "Year" y ;;;
   s <- getitem df "Date" ;;
   m <- lift (DF.dt_strftime_b s) ;;
   setitem df "Month" m ;;;
   ret df)%store.

End LoadData.

(** ** [apply_filters] *)

(** What the date picker can hand over: one date, a tuple of dates, or a
    list of dates.  A date is its day number. *)
Inductive date_input : Type :=
| DateValue (d : Z)
| DateTuple (ds : list Z)
| DateList (ds : list Z).

(** [isinstance(date_range, list) and len(date_range) == 2], with the two
    entries when it holds. *)
Definition list_of_two (date_range : date_input) : option (Z * Z) :=
  match date_range with
  | DateList [d0; d1] => Some (d0, d1)
  | _ => None
  end.

(** Truth value of a Python list. *)
Definition truthy {A : Type} (l : list A) : bool :=
  match l with [] => false | _ :: _ => true end.

Definition apply_filters (df : ref) (observers plots species : list value)
  (date_range : date_input) : M ref :=
  (fdf <- copy df ;;
   fdf <- (if truthy observers then
             s <- getitem fdf "Observer" ;;
             getitem_mask fdf (DF.isin s observers)
           else ret fdf) ;;
   fdf <- (if truthy plots then
             s <- getitem fdf "Plot_Name" ;;
             getitem_mask fdf (DF.isin s plots)
           else ret fdf) ;;
   fdf <- (if truthy species then
             s <- getitem fdf "Common_Name" ;;
             getitem_mask fdf (DF.isin s species)
           else ret fdf) ;;
   fdf <- (match list_of_two date_range with
           | Some (d0, d1) =>
               s0 <- getitem fdf "Date" ;;
               m0 <- lift (DF.ge_ts s0 (timestamp_of_date d0)) ;;
               s1 <- getitem fdf "Date" ;;
               m1 <- lift (DF.le_ts s1 (timestamp_of_date d1)) ;;
               getitem_mask fdf (DF.mask_and m0 m1)
           | None => ret fdf
           end) ;;
   reset_index_drop fdf)%store.

(** *** The filter with one dimension left out

    The reading of "no restriction on that dimension": the same pipeline
    with the step of that dimension taken away, whatever is selected
    there. *)

Inductive dimension : Type :=
| ObserverDim
| PlotDim
| SpeciesDim
| DateDim.

Definition dimension_eqb (a b : dimension) : bool :=
  match a, b with
  | ObserverDim, ObserverDim | PlotDim, PlotDim
  | SpeciesDim, SpeciesDim | DateDim, DateDim => true
  | _, _ => false
  end.

(** Keep the rows whose cell in column [c] is one of [selection]. *)
Definition restrict_isin (c : string) (selection : list value) (fdf : ref)
  : M ref :=
  (s <- getitem fdf c ;; getitem_mask fdf (DF.isin s selection))%store.

(** Keep the rows dated from [d0] to [d1]. *)
Definition restrict_dates (d0 d1 : Z) (fdf : ref) : M ref :=
  (s0 <- getitem fdf "Date" ;;
   m0 <- lift (DF.ge_ts s0 (timestamp_of_date d0)) ;;
   s1 <- getitem fdf "Date" ;;
   m1 <- lift (DF.le_ts s1 (timestamp_of_date d1)) ;;
   getitem_mask fdf (DF.mask_and m0 m1))%store.

Definition apply_filters_without (skip : dimension) (df : ref)
  (observers plots species : list value) (date_range : date_input) : M ref :=
  (fdf <- copy df ;;
   fdf <- (if dimension_eqb skip ObserverDim then ret fdf
           else if truthy observers then restrict_isin "Observer" observers fdf
           else ret fdf) ;;
   fdf <- (if dimension_eqb skip PlotDim then ret fdf
           else if truthy plots then restrict_isin "Plot_Name" plots fdf
           else ret fdf) ;;
   fdf <- (if dimension_eqb skip SpeciesDim then ret fdf
           else if truthy species then restrict_isin "Common_Name" species fdf
           else ret fdf) ;;
   fdf <- (if dimension_eqb skip DateDim then ret fdf
           else match list_of_two date_range with
                | Some (d0, d1) => restrict_dates d0 d1 fdf
                | None => ret fdf
                end) ;;
   reset_index_drop fdf)%store.

(** ** Aggregates of the filtered frame *)

Local Open Scope result_scope.

(** Top 10 species, the data of the pie chart.  [value_counts] leaves the
    index unlabelled, [reset_index] calls it "index", and the renaming gives
    it its name. *)
Definition pie_data (filtered_df : DataFrame) : result DataFrame :=
  s <-? DF.getitem filtered_df "Common_Name" ;;
  Ok (DF.rename "index" "Common_Name"
        (DF.reset_index_counts "index" "Count"
           (DF.nlargest 10 (DF.value_counts s)))).

(** Top 15 species, the data of the bar chart. *)
Definition bar_df (filtered_df : DataFrame) : result DataFrame :=
  s <-? DF.getitem filtered_df "Common_Name" ;;
  DF.set_columns ["Common_Name"; "Count"]
    (DF.reset_index_counts "index" "Common_Name"
       (DF.nlargest 15 (DF.value_counts s))).

(** The sample behind the temperature scatter; [draws] is the random
    source of [sample]. *)
Definition temp_df (draws : list nat) (filtered_df : DataFrame)
  : result DataFrame :=
  sub <-? DF.getitems filtered_df ["Temperature"; "Common_Name"] ;;
  DF.sample draws (Nat.min 1000 (DF.len filtered_df)) (DF.dropna sub).

(** The sample behind the observer bar chart. *)
Definition sb_data (draws : list nat) (filtered_df : DataFrame)
  : result DataFrame :=
  DF.sample draws (Nat.min 1000 (DF.len filtered_df)) filtered_df.

(** What the watch-list block shows. *)
Inductive risk_view : Type :=
| RiskNoColumn
| RiskChart (risk_summary : DataFrame)
| RiskInfo (msg : string).

Definition risk_block (filtered_df : DataFrame) : result risk_view :=
  if DF.has_column filtered_df "PIF_Watchlist_Status" then
    s <-? DF.getitem filtered_df "PIF_Watchlist_Status" ;;
    m <-? rmap (DF.gt_num 0) s ;;
    let risk_df := DF.select filtered_df m in
    if negb (DF.empty risk_df) then
      s' <-? DF.getitem filtered_df "PIF_Watchlist_Status" ;;
      names <-? DF.getitem (DF.select filtered_df (map (DF.ne_num 0) s'))
                  "Common_Name" ;;
      risk_summary <-? DF.set_columns ["Common_Name"; "Count"]
                         (DF.reset_index_counts "index" "Common_Name"
                            (DF.value_counts names)) ;;
      Ok (RiskChart risk_summary)
    else Ok (RiskInfo "No at-risk species in selected data.")
  else Ok RiskNoColumn.

(** The year x month table of the heatmap. *)
Definition heatmap_df (filtered_df : DataFrame) : result DataFrame :=
  g <-? DF.groupby_size filtered_df ["Year"; "Month"] ;;
  Ok (DF.reset_index_groups ["Year"; "Month"] "Observations" g).

Definition pivot (filtered_df : DataFrame) : result DF.Pivot :=
  h <-? heatmap_df filtered_df ;;
  p <-? DF.pivot h "Month" "Year" "Observations" ;;
  Ok (DF.reindex (map Str month_abbrs) (DF.fillna0 p)).

(** The download of the raw-data tab. *)
Definition csv (format_cell : string -> series -> value -> string)
  (filtered_df : DataFrame) : string :=
  DF.to_csv format_cell filtered_df.

Local Close Scope result_scope.

(** ** A converter for the examples, and sample data *)

Definition digit_of (a : ascii) : option Z :=
  let n := nat_of_ascii a in
  if (48 <=? n) && (n <=? 57) then Some (Z.of_nat (n - 48)) else None.

Fixpoint number_of (s : string) (acc : Z) : option Z :=
  match s with
  | EmptyString => Some acc
  | String a s' =>
      match digit_of a with
      | Some d => number_of s' (acc * 10 + d)%Z
      | None => None
      end
  end.

Definition char_is (n : nat) (o : option ascii) : bool :=
  match o with
  | Some a => Ascii.eqb a (ascii_of_nat n)
  | None => false
  end.

Definition is_dash (o : option ascii) : bool := char_is 45 o.

(** A date of the calendar: its day number read back gives the date. *)
Definition valid_date (y m d : Z) : bool :=
  let '(y', m', d') := civil_from_days (days_from_civil y m d) in
  ((y' =? y) && (m' =? m) && (d' =? d))%Z.

(** Dates written YYYY-MM-DD: midnight of that day. *)
Definition parse_iso_date (s : string) : option Z :=
  if (String.length s =? 10) && is_dash (String.get 4 s)
     && is_dash (String.get 7 s) then
    match number_of (substring 0 4 s) 0, number_of (substring 5 2 s) 0,
          number_of (substring 8 2 s) 0 with
    | Some y, Some m, Some d =>
        if valid_date y m d then Some (days_from_civil y m d * ns_per_day)%Z
        else None
    | _, _, _ => None
    end
  else None.

(** Instants written YYYY-MM-DDTHH:MM:SS+HH:MM (or with -HH:MM): the
    instant in nanoseconds, and the UTC offset in seconds. *)
Definition parse_iso_instant (s : string) : option (Z * Z) :=
  if (String.length s =? 25) && char_is 84 (String.get 10 s)
     && char_is 58 (String.get 13 s) && char_is 58 (String.get 16 s)
     && (char_is 43 (String.get 19 s) || char_is 45 (String.get 19 s))
     && char_is 58 (String.get 22 s) then
    match parse_iso_date (substring 0 10 s),
          number_of (substring 11 2 s) 0, number_of (substring 14 2 s) 0,
          number_of (substring 17 2 s) 0,
          number_of (substring 20 2 s) 0, number_of (substring 23 2 s) 0 with
    | Some day, Some hh, Some mi, Some ss, Some oh, Some om =>
        if ((hh <=? 23) && (mi <=? 59) && (ss <=? 59)
            && (oh <=? 23) && (om <=? 59))%Z then
          let sign := if char_is 45 (String.get 19 s) then (-1)%Z else 1%Z in
          let offset := (sign * (oh * 3600 + om * 60))%Z in
          let wall := (day + (hh * 3600 + mi * 60 + ss) * 1000000000)%Z in
          Some ((wall - offset * 1000000000)%Z, offset)
        else None
    | _, _, _, _, _, _ => None
    end
  else None.

(** The two formats the example converter knows: [%Y-%m-%d] and
    [%Y-%m-%dT%H:%M:%S%z]. *)
Inductive iso_format : Type := IsoDate | IsoInstant.

(** What a cell converts to: NaT, a timestamp without zone, or an instant
    with its UTC offset. *)
Inductive converted : Type :=
| CNaT
| CNaive (t : Z)
| CAware (t : Z) (offset : Z).

Definition parse_with (f : iso_format) (s : string) : option converted :=
  match f with
  | IsoDate => option_map CNaive (parse_iso_date s)
  | IsoInstant =>
      option_map (fun p => CAware (fst p) (snd p)) (parse_iso_instant s)
  end.

(** The format of a string, when it is written in one of the two. *)
Definition guess_format (s : string) : option iso_format :=
  match parse_iso_date s with
  | Some _ => Some IsoDate
  | None =>
      match parse_iso_instant s with
      | Some _ => Some IsoInstant
      | None => None
      end
  end.

(** Conversion under the format guessed from the first cell: text has to be
    in that format, and the text of a number is not. *)
Definition convert_with (f : iso_format) (v : value) : option converted :=
  match v with
  | NA => Some CNaT
  | Str s => parse_with f s
  | Num _ => None
  | Ts t => Some (CNaive t)
  end.

(** Conversion of each cell on its own, when no format was guessed; a
    number counts nanoseconds. *)
Definition convert_alone (v : value) : option converted :=
  match v with
  | NA => Some CNaT
  | Str s =>
      match guess_format s with
      | Some f => parse_with f s
      | None => None
      end
  | Num z => Some (CNaive z)
  | Ts t => Some (CNaive t)
  end.

(** What [errors] makes of a cell that did not convert or is out of
    bounds. *)
Definition settle (errors : DF.errors_mode) (c : option converted)
  : result converted :=
  match c with
  | None =>
      match errors with
      | DF.ErrorsCoerce => Ok CNaT
      | DF.ErrorsRaise => Raise (ValueError "Unknown datetime string format")
      end
  | Some CNaT => Ok CNaT
  | Some (CNaive t) =>
      if DF.in_bounds t then Ok (CNaive t)
      else match errors with
           | DF.ErrorsCoerce => Ok CNaT
           | DF.ErrorsRaise =>
               Raise (ValueError "Out of bounds nanosecond timestamp")
           end
  | Some (CAware t o) =>
      if DF.in_bounds t then Ok (CAware t o)
      else match errors with
           | DF.ErrorsCoerce => Ok CNaT
           | DF.ErrorsRaise =>
               Raise (ValueError "Out of bounds nanosecond timestamp")
           end
  end.

Definition offset_of (c : converted) : list Z :=
  match c with CAware _ o => [o] | _ => [] end.

Definition is_naive (c : converted) : bool :=
  match c with CNaive _ => true | _ => false end.

(** The column made of the converted cells.  Without any offset it is a
    column of timestamps.  With one offset throughout it is a column in
    that zone; frames here carry no zone, the column is kept as its
    wall-clock times, from which year and month are derived.  Otherwise
    (different offsets, or offsets beside timestamps without zone) there
    is no single type: the column is a column of objects, whose cells with
    an offset are left as the cell they came from, standing for the
    datetime object. *)
Definition assemble (s : series) (cs : list converted) : series :=
  match flat_map offset_of cs with
  | [] => map (fun c => match c with CNaive t => Ts t | _ => NA end) cs
  | o :: os =>
      if negb (existsb is_naive cs) && forallb (Z.eqb o) os then
        map (fun c => match c with
                      | CAware t o' => Ts (t + o' * 1000000000)%Z
                      | _ => NA
                      end) cs
      else
        DF.zip_with (fun v c => match c with
                                | CNaT => NA
                                | CNaive t => Ts t
                                | CAware _ _ => v
                                end) s cs
  end.

(** One function [to_datetime] can be.  It follows pandas 2 on columns of
    text that is written in one of the two formats above or is no date at
    all: the format is guessed from the first cell that is not null, and
    text that is not in that format does not convert; when that cell has
    no format, each cell is converted on its own.  Dates written in other
    formats, which pandas reads too, are outside what it covers. *)
Definition to_datetime_iso (errors : DF.errors_mode) (s : series)
  : result series :=
  let convert :=
    match filter notna s with
    | Str x :: _ =>
        match guess_format x with
        | Some f => convert_with f
        | None => convert_alone
        end
    | _ => convert_alone
    end in
  rbind (rmap (fun v => settle errors (convert v)) s)
        (fun cs => Ok (assemble s cs)).

(** A row of the table: plot, date, observer, species, watch-list status and
    temperature; the other columns are filled with fixed values. *)
Definition table_row (plot : string) (date : value) (observer species : string)
  (temperature status : value) : list value :=
  [Str plot; date; Str observer; Str species; Str "Sp. sp."; Str "<= 50 m";
   Str "Undetermined"; temperature; Num 70; Str "Clear"; Str "Calm";
   Str "06:00"; Str "06:10"; status].

Definition sample_table : list (list value) :=
  [table_row "A" (Str "2020-01-15") "Ann" "Robin" (Num 20) (Num 0);
   table_row "A" (Str "2020-03-02") "Bob" "Wren" (Num 21) (Num 1);
   table_row "B" (Str "not a date") "Ann" "Robin" NA (Num 0);
   table_row "B" (Str "2021-01-20") "Ann" "Robin" (Num 19) (Num (-1))].


(** The store after loading the sample table into an empty store, and the
    frame loaded. *)
Definition sample_store : store :=
  Eval vm_compute in snd (load_data to_datetime_iso (Ok sample_table) []).

Definition sample_frame : DataFrame := nth 0 sample_store (mkDF [] [] []).

(** ** What loading does to a row *)

(** A row of the table as it stands in the loaded frame, given the cell the
    conversion made of its date: that cell under Date, Year and Month
    appended. *)
Definition dated_row (row : list value) (d : value) : list value :=
  DF.set_cell 1 d row ++ [DF.year_cell d; DF.month_cell d].

(** The query returns one cell per selected column in every row. *)
Definition wf_table (table : list (list value)) : bool :=
  forallb (fun row => List.length row =? 14) table.

(** ** Loaded frames *)

(** The columns of a frame that [load_data] returned. *)
Definition loaded_columns : list string := select_columns ++ ["Year"; "Month"].

Definition loaded_row (row : list value) : bool :=
  (List.length row =? 16) && DF.is_datetime (DF.cell 1 row).

(** The shape [load_data] gives a frame and [apply_filters] keeps: the
    sixteen columns, rows labelled from 0, one cell per column in every row,
    and nothing but timestamps and NaT under Date. *)
Definition loadedb (df : DataFrame) : bool :=
  (if list_eq_dec string_dec (columns df) loaded_columns then true else false)
  && (if list_eq_dec Nat.eq_dec (index df) (seq 0 (List.length (data df)))
      then true else false)
  && forallb loaded_row (data df).

Definition loaded (df : DataFrame) : Prop := loadedb df = true.

(** ** The rows the filter keeps *)

(** Positions of the filter's columns in a loaded frame. *)
Definition plot_pos : nat := 0.
Definition date_pos : nat := 1.
Definition observer_pos : nat := 2.
Definition species_pos : nat := 3.
Definition status_pos : nat := 13.

(** A row passes a selection when nothing is selected or its cell is one of
    the selected values. *)
Definition selected (i : nat) (selection : list value) (row : list value)
  : bool :=
  if truthy selection then existsb (value_eqb (DF.cell i row)) selection
  else true.

(** The row is dated, from midnight of day [d0] to midnight of day [d1],
    both included. *)
Definition date_between (d0 d1 : Z) (row : list value) : bool :=
  match DF.cell date_pos row with
  | Ts t => (t >=? timestamp_of_date d0)%Z && (t <=? timestamp_of_date d1)%Z
  | _ => false
  end.

Definition in_date_range (date_range : date_input) (row : list value) : bool :=
  match list_of_two date_range with
  | Some (d0, d1) => date_between d0 d1 row
  | None => true
  end.

Definition keeps (observers plots species : list value)
  (date_range : date_input) (row : list value) : bool :=
  selected observer_pos observers row && selected plot_pos plots row
  && selected species_pos species row && in_date_range date_range row.

(** The rows kept when the predicate of dimension [skip] is removed. *)
Definition keeps_without (skip : dimension) (observers plots species : list value)
  (date_range : date_input) (row : list value) : bool :=
  (dimension_eqb skip ObserverDim || selected observer_pos observers row)
  && (dimension_eqb skip PlotDim || selected plot_pos plots row)
  && (dimension_eqb skip SpeciesDim || selected species_pos species row)
  && (dimension_eqb skip DateDim || in_date_range date_range row).

(** The store only grows along [h'] when [h'] continues [h]. *)
Definition extends (h h' : store) : Prop := exists tl, h' = h ++ tl.

(** A computation that allocates and reads but never overwrites. *)
Definition alloc_only {A : Type} (m : M A) : Prop :=
  forall h, extends h (snd (m h)).

(** ** The watch-list status column and small sample frames *)

(** A cell of a numeric column: a number or NaN. *)
Definition numeric (v : value) : bool :=
  match v with Num _ | NA => true | Str _ | Ts _ => false end.

(** A status strictly above zero, and one strictly below. *)
Definition positive (v : value) : bool :=
  match v with Num z => Z.gtb z 0 | _ => false end.

Definition negative (v : value) : bool :=
  match v with Num z => Z.ltb z 0 | _ => false end.

Definition no_at_risk : string := "No at-risk species in selected data.".

(** The records of plot B of the sample: one with status 0 and one with
    status -1. *)
Definition sample_plot_b : DataFrame :=
  DF.reset_index (DF.select sample_frame [false; false; true; true]).

(** A single record, of January 2020. *)
Definition single_january : DataFrame :=
  DF.reset_index (DF.select sample_frame [true; false; false; false]).

(** ** The shape of the top-N tables *)

(** The two-column frame of species and counts. *)
Definition counts_frame (c : DF.counts) : DataFrame :=
  mkDF ["Common_Name"; "Count"] (seq 0 (List.length c))
       (map (fun vn => [fst vn; Num (Z.of_nat (snd vn))]) c).

(** Counts never go up along the table. *)
Definition descending (c : DF.counts) : Prop :=
  StronglySorted (fun a b => snd b <= snd a) c.

(** ** The text of a cell, for the examples *)

Definition string_of_Z (z : Z) : string :=
  DecimalString.NilZero.string_of_int (Z.to_int z).

Fixpoint zeros (n : nat) : string :=
  match n with
  | O => EmptyString
  | S n' => String (ascii_of_nat 48) (zeros n')
  end.

(** A number that is not negative, in at least [width] digits. *)
Definition pad (width : nat) (z : Z) : string :=
  let s := string_of_Z z in
  (zeros (width - String.length s) ++ s)%string.

(** Nanoseconds since midnight, and the part of them below the second. *)
Definition time_of_day (t : Z) : Z := (t mod ns_per_day)%Z.
Definition below_second (t : Z) : Z := (t mod 1000000000)%Z.

Definition timestamps (s : series) : list Z :=
  flat_map (fun v => match v with Ts t => [t] | _ => [] end) s.

(** The digits pandas writes after the seconds of a column of timestamps:
    none, three, six or nine, by the finest instant of the column. *)
Definition fraction_digits (ts : list Z) : nat :=
  if existsb (fun t => negb (below_second t mod 1000 =? 0)%Z) ts then 9
  else if existsb (fun t => negb (below_second t mod 1000000 =? 0)%Z) ts then 6
  else if existsb (fun t => negb (below_second t =? 0)%Z) ts then 3
  else 0.

Definition date_text (t : Z) : string :=
  (string_of_Z (year_of t) ++ "-" ++ pad 2 (month_of t) ++ "-"
   ++ pad 2 (day_of t))%string.

Definition clock_text (digits : nat) (t : Z) : string :=
  let secs := (time_of_day t / 1000000000)%Z in
  let frac := below_second t in
  (pad 2 (secs / 3600) ++ ":" ++ pad 2 ((secs / 60) mod 60)%Z ++ ":"
   ++ pad 2 (secs mod 60)%Z
   ++ match digits with
      | 9 => "." ++ pad 9 frac
      | 6 => "." ++ pad 6 (frac / 1000)%Z
      | 3 => "." ++ pad 3 (frac / 1000000)%Z
      | _ => ""
      end)%string.

(** One function [format_cell] can be, after pandas 2, given the labels
    [floats] of the columns the frame keeps as floats (the columns of
    numbers that had a null when they were read or derived).  Text is
    written as it is.  A whole number is written with [.0] in a column of
    floats and plainly otherwise.  In a column of timestamps a timestamp
    is written as its date when every timestamp of the column is a
    midnight, and with the time of day otherwise; in any other column it
    is written with the time of day.  Whole numbers of sixteen digits and
    more, which a float holds only roughly, are outside what it covers. *)
Definition format_cell_pandas (floats : list string) (label : string)
  (column : series) (v : value) : string :=
  match v with
  | NA => ""
  | Str s => s
  | Num z =>
      if existsb (String.eqb label) floats
      then (string_of_Z z ++ ".0")%string
      else string_of_Z z
  | Ts t =>
      if forallb DF.is_datetime column then
        if forallb (fun t' => (time_of_day t' =? 0)%Z) (timestamps column)
        then date_text t
        else (date_text t ++ " "
              ++ clock_text (fraction_digits (timestamps column)) t)%string
      else (date_text t ++ " " ++ clock_text (fraction_digits [t]) t)%string
  end.

(** The columns of the sample frame that are columns of floats: the
    temperature, read with a null, and the year, derived with one. *)
Definition sample_floats : list string := ["Temperature"; "Year"].

(** ** Reading CSV text back

    The export is text.  To say what records it holds, the text is read
    the way a CSV reader reads it: fields end at a comma, records at a line
    break; a field that starts with a quote runs to its closing quote, and
    a doubled quote inside it is one quote. *)

Inductive csv_mode : Type := FieldStart | InPlain | InQuoted | AfterQuote.

(** The records and the fields of the current record read so far, last
    first, the characters of the current field, last first, and where in a
    field the reader is. *)
Record csv_state : Type := mkCsv {
  done_records : list (list string);
  done_fields : list string;
  pending : list ascii;
  mode : csv_mode
}.

Definition text_of (chars : list ascii) : string :=
  string_of_list_ascii (rev chars).

Definition end_field (st : csv_state) : csv_state :=
  mkCsv (done_records st) (text_of (pending st) :: done_fields st) []
        FieldStart.

Definition end_record (st : csv_state) : csv_state :=
  mkCsv (rev (text_of (pending st) :: done_fields st) :: done_records st)
        [] [] FieldStart.

Definition push (a : ascii) (m : csv_mode) (st : csv_state) : csv_state :=
  mkCsv (done_records st) (done_fields st) (a :: pending st) m.

Definition enter (m : csv_mode) (st : csv_state) : csv_state :=
  mkCsv (done_records st) (done_fields st) (pending st) m.

Definition csv_step (a : ascii) (st : csv_state) : csv_state :=
  match mode st with
  | FieldStart =>
      if Ascii.eqb a DF.dquote then enter InQuoted st
      else if Ascii.eqb a DF.comma then end_field st
      else if Ascii.eqb a DF.newline then end_record st
      else push a InPlain st
  | InPlain =>
      if Ascii.eqb a DF.comma then end_field st
      else if Ascii.eqb a DF.newline then end_record st
      else push a InPlain st
  | InQuoted =>
      if Ascii.eqb a DF.dquote then enter AfterQuote st
      else push a InQuoted st
  | AfterQuote =>
      if Ascii.eqb a DF.dquote then push a InQuoted st
      else if Ascii.eqb a DF.comma then end_field st
      else if Ascii.eqb a DF.newline then end_record st
      else push a InPlain st
  end.

Fixpoint csv_run (s : string) (st : csv_state) : csv_state :=
  match s with
  | EmptyString => st
  | String a s' => csv_run s' (csv_step a st)
  end.

(** The records of a text; a last line without its line break counts. *)
Definition csv_read (s : string) : list (list string) :=
  let st := csv_run s (mkCsv [] [] [] FieldStart) in
  match done_fields st, pending st, mode st with
  | [], [], FieldStart => rev (done_records st)
  | _, _, _ => rev (done_records (end_record st))
  end.

(** ** The sidebar, the indicators and the remaining tables *)

Local Open Scope result_scope.

(** Two cells Python's [<] compares without a TypeError. *)
Definition same_kind (a b : value) : bool :=
  match a, b with
  | NA, NA | Str _, Str _ | Num _, Num _ | Ts _, Ts _ => true
  | _, _ => false
  end.

(** [sorted(l)]: entries of different kinds cannot be ordered. *)
Definition py_sorted (l : list value) : result (list value) :=
  match l with
  | [] => Ok []
  | a :: l' =>
      if forallb (same_kind a) l' then Ok (DF.isort DF.value_leb l)
      else Raise (TypeError "'<' not supported between instances")
  end.

(** [s.dropna().unique()]: the distinct non-null values, in the order of
    their first occurrence. *)
Definition dropna_unique (s : series) : list value :=
  DF.uniq value_eq_dec (filter notna s).

(** [sorted(df[c].dropna().unique())], the choices a sidebar selector
    offers. *)
Definition options (df : DataFrame) (c : string) : result (list value) :=
  s <-? DF.getitem df c ;; py_sorted (dropna_unique s).

(** [s.nunique()]. *)
Definition nunique (s : series) : nat := List.length (dropna_unique s).

(** The three indicators above the tabs. *)
Record kpis : Type := mkKpis {
  unique_species : nat;
  total_observations : nat;
  unique_plots : nat
}.

Definition metrics (filtered_df : DataFrame) : result kpis :=
  s <-? DF.getitem filtered_df "Common_Name" ;;
  p <-? DF.getitem filtered_df "Plot_Name" ;;
  Ok (mkKpis (nunique s) (DF.len filtered_df) (nunique p)).

(** The table shown in the raw-data tab. *)
Definition preview (draws : list nat) (filtered_df : DataFrame)
  : result DataFrame :=
  DF.sample draws (Nat.min (DF.len filtered_df) 500) filtered_df.

(** Species per observer, counted on the sample [sb_data]. *)
Definition bar_data (draws : list nat) (filtered_df : DataFrame)
  : result DataFrame :=
  sb <-? sb_data draws filtered_df ;;
  g <-? DF.groupby_size sb ["Observer"; "Common_Name"] ;;
  Ok (DF.reset_index_groups ["Observer"; "Common_Name"] "Count" g).

(** The non-null cells of a column are of one kind. *)
Definition homogeneous (s : series) : bool :=
  match filter notna s with
  | [] => true
  | a :: l => forallb (same_kind a) l
  end.

(** Nulls go last, whatever the direction. *)
Definition na_last (leb : value -> value -> bool) (a b : value) : bool :=
  match a, b with
  | _, NA => true
  | NA, _ => false
  | _, _ => leb a b
  end.

Definition direction (ascending : bool) (a b : value) : bool :=
  if ascending then DF.value_leb a b else DF.value_leb b a.

(** [df.sort_values(by=c, ascending=...)]: rows keep their labels.  The
    order among rows with equal cells is left to the sorting routine of
    pandas; here they keep the order they had. *)
Definition sort_values (c : string) (ascending : bool) (df : DataFrame)
  : result DataFrame :=
  i <-? DF.col_index_exn (columns df) c ;;
  if homogeneous (map (DF.cell i) (data df)) then
    let rows :=
      DF.isort (fun a b => na_last (direction ascending)
                             (DF.cell i (snd a)) (DF.cell i (snd b)))
        (combine (index df) (data df)) in
    Ok (mkDF (columns df) (map fst rows) (map snd rows))
  else Raise (TypeError "'<' not supported between instances").

(** [df.head(n)] and [df.tail(n)]. *)
Definition head (n : nat) (df : DataFrame) : DataFrame :=
  mkDF (columns df) (firstn n (index df)) (firstn n (data df)).

Definition tail (n : nat) (df : DataFrame) : DataFrame :=
  mkDF (columns df) (skipn (List.length (index df) - n) (index df))
       (skipn (List.length (data df) - n) (data df)).

(** The hundred most frequent pairs of plot and species. *)
Definition bubble_df (filtered_df : DataFrame) : result DataFrame :=
  g <-? DF.groupby_size filtered_df ["Plot_Name"; "Common_Name"] ;;
  sorted <-? sort_values "Count" false
               (DF.reset_index_groups ["Plot_Name"; "Common_Name"] "Count" g) ;;
  Ok (head 100 sorted).

(** [df.groupby(key)[c].count()]: one group per non-null key, sorted by key,
    with the number of its rows whose cell under [c] is not null. *)
Definition groupby_count (df : DataFrame) (key c : string)
  : result DF.counts :=
  k <-? DF.getitem df key ;;
  s <-? DF.getitem df c ;;
  Ok (map (fun g =>
             (g, List.length
                   (filter (fun ks => value_eqb (fst ks) g && notna (snd ks))
                      (combine k s))))
          (DF.isort DF.value_leb (dropna_unique k))).

(** Observations per humidity reading. *)
Definition humidity_df (filtered_df : DataFrame) : result DataFrame :=
  g <-? groupby_count filtered_df "Humidity" "Common_Name" ;;
  sort_values "Humidity" true
    (DF.reset_index_counts "Humidity" "Observations" g).

(** The species offered in the trends tab. *)
Definition species_list (filtered_df : DataFrame) : result (list value) :=
  s <-? DF.getitem filtered_df "Common_Name" ;; Ok (dropna_unique s).

Definition select_species : string := "Select species to view trend charts.".

(** What the trends tab shows. *)
Inductive trend_view : Type :=
| TrendCharts (yearly datewise : DataFrame)
| TrendInfo (msg : string).

Definition species_trends (filtered_df : DataFrame)
  (selected_species : list value) : result trend_view :=
  if truthy selected_species then
    s <-? DF.getitem filtered_df "Common_Name" ;;
    let trend_df := DF.select filtered_df (DF.isin s selected_species) in
    g <-? DF.groupby_size trend_df ["Year"; "Common_Name"] ;;
    let yearly := DF.reset_index_groups ["Year"; "Common_Name"] "Count" g in
    by_date <-? sort_values "Date" true trend_df ;;
    g' <-? DF.groupby_size by_date ["Date"; "Common_Name"] ;;
    datewise <-? sort_values "Date" true
                   (DF.reset_index_groups ["Date"; "Common_Name"] "Count" g') ;;
    Ok (TrendCharts yearly (tail 1000 datewise))
  else Ok (TrendInfo select_species).

Local Close Scope result_scope.

(** Labels in ascending order. *)
Definition ascending (l : list value) : Prop :=
  StronglySorted (fun a b => DF.value_leb a b = true) l.

(** A cell of a column of text: a string or a null. *)
Definition text (v : value) : bool :=
  match v with NA | Str _ => true | Num _ | Ts _ => false end.

(** The rows of a frame with their labels. *)
Definition labelled_rows (df : DataFrame) : list (nat * list value) :=
  combine (index df) (data df).

(** The sum of a list of counts. *)
Definition total (l : list nat) : nat := fold_right Nat.add 0 l.

(** The cells of a row under the columns at positions [ixs]. *)
Definition project (ixs : list nat) (row : list value) : list value :=
  map (fun i => DF.cell i row) ixs.

(** The rows of a frame whose cells at [ixs] are [k]. *)
Definition rows_with (ixs : list nat) (k : list value) (df : DataFrame)
  : list (list value) :=
  filter (fun row =>
            if list_eq_dec value_eq_dec (project ixs row) k then true else false)
    (data df).

(** Year, month and size of a group of the heatmap table, and the entry
    the pivot files it under. *)
Definition year_key (kn : list value * nat) : value := DF.cell 0 (fst kn).
Definition month_key (kn : list value * nat) : value := DF.cell 1 (fst kn).
Definition size_cell (kn : list value * nat) : value := Num (Z.of_nat (snd kn)).

Definition entry_of (kn : list value * nat) : value * value * value :=
  (month_key kn, year_key kn, size_cell kn).

(** The number in the last of three cells of a row, the count of a row of
    the bubble table. *)
Definition count_of (row : list value) : Z :=
  match DF.cell 2 row with Num z => z | _ => 0%Z end.

(** The row a group makes in the table of a grouping. *)
Definition group_row (kn : list value * nat) : list value :=
  fst kn ++ [Num (Z.of_nat (snd kn))].

(** The rows whose cell at [i] is [h] and whose cell at [j] is not null. *)
Definition counted_rows (i j : nat) (h : value) (df : DataFrame)
  : list (list value) :=
  filter (fun row => value_eqb (DF.cell i row) h && notna (DF.cell j row))
    (data df).

(** The row a count makes in a table of counts. *)
Definition count_row (vn : value * nat) : list value :=
  [fst vn; Num (Z.of_nat (snd vn))].

(** Groups in ascending order of their keys. *)
Definition ascending_keys {B : Type} (g : list (list value * B)) : Prop :=
  StronglySorted (fun a b => DF.key_leb (fst a) (fst b) = true) g.

(** The grouping behind the observer chart, taken on the whole frame. *)
Definition bar_data_exact (filtered_df : DataFrame) : result DataFrame :=
  rbind (DF.groupby_size filtered_df ["Observer"; "Common_Name"])
    (fun g => Ok (DF.reset_index_groups ["Observer"; "Common_Name"] "Count" g)).

(** * Properties *)

(** ** Lists, masks and the store *)

Lemma pick_map_filter {A : Type} (f : A -> bool) (l : list A) :
  DF.pick (map f l) l = filter f l.
Proof.
  induction l as [| a l IH]; simpl; [reflexivity |].
  rewrite IH. reflexivity.
Qed.

Lemma pick_length_le {A : Type} (mask : list bool) (l : list A) :
  List.length (DF.pick mask l) <= List.length l.
Proof.
  revert l. induction mask as [| b mask IH]; intros [| a l]; simpl; try lia.
  destruct b; simpl; specialize (IH l); lia.
Qed.

Lemma filter_andb {A : Type} (f g : A -> bool) (l : list A) :
  filter (fun a => f a && g a) l = filter g (filter f l).
Proof.
  induction l as [| a l IH]; simpl; [reflexivity |].
  destruct (f a); simpl; [destruct (g a) |]; rewrite IH; reflexivity.
Qed.

Lemma filter_idem {A : Type} (f : A -> bool) (l : list A) :
  filter f (filter f l) = filter f l.
Proof.
  induction l as [| a l IH]; simpl; [reflexivity |].
  destruct (f a) eqn:E; simpl; [rewrite E |]; rewrite IH; reflexivity.
Qed.

Lemma forallb_filter {A : Type} (p f : A -> bool) (l : list A) :
  forallb p l = true -> forallb p (filter f l) = true.
Proof.
  induction l as [| a l IH]; simpl; [reflexivity |].
  intros H. apply andb_true_iff in H as [Ha Hl].
  destruct (f a); simpl; [rewrite Ha |]; auto.
Qed.

Lemma extends_refl h : extends h h.
Proof. exists []. now rewrite app_nil_r. Qed.

Lemma extends_trans h1 h2 h3 : extends h1 h2 -> extends h2 h3 -> extends h1 h3.
Proof.
  intros [t1 ->] [t2 ->]. exists (t1 ++ t2). now rewrite app_assoc.
Qed.

Lemma extends_nth_error h h' r v :
  extends h h' -> nth_error h r = Some v -> nth_error h' r = Some v.
Proof.
  intros [tl ->] H. rewrite nth_error_app1; [assumption |].
  apply nth_error_Some. congruence.
Qed.

Lemma extends_firstn h h' : extends h h' -> firstn (List.length h) h' = h.
Proof.
  intros [tl ->]. rewrite firstn_app, Nat.sub_diag, firstn_all. simpl.
  now rewrite app_nil_r.
Qed.

Lemma extends_length h h' : extends h h' -> List.length h <= List.length h'.
Proof. intros [tl ->]. rewrite length_app. lia. Qed.

Lemma alloc_only_ret {A : Type} (a : A) : alloc_only (ret a).
Proof. intros h. apply extends_refl. Qed.

Lemma alloc_only_lift {A : Type} (r : result A) : alloc_only (lift r).
Proof. intros h. apply extends_refl. Qed.

Lemma alloc_only_new df : alloc_only (new df).
Proof. intros h. now exists [df]. Qed.

Lemma alloc_only_deref r : alloc_only (deref r).
Proof.
  intros h. unfold deref. destruct (nth_error h r); apply extends_refl.
Qed.

Lemma alloc_only_bind {A B : Type} (m : M A) (k : A -> M B) :
  alloc_only m -> (forall a, alloc_only (k a)) -> alloc_only (bind m k).
Proof.
  intros Hm Hk h. unfold bind. specialize (Hm h).
  destruct (m h) as [[a | e] h1]; simpl in *; [| assumption].
  eapply extends_trans; [eassumption | apply Hk].
Qed.

Create HintDb frames.

#[local] Hint Resolve alloc_only_ret alloc_only_lift alloc_only_new
  alloc_only_deref : frames.

Ltac alloc_only_tac :=
  repeat first
    [ apply alloc_only_bind; [| intros ? ]
    | solve [ auto with frames ]
    | match goal with
      | |- alloc_only (if ?b then _ else _) => destruct b
      | |- alloc_only (match ?o with Some _ => _ | None => _ end) =>
          destruct o as [[? ?] |]
      end ].

Lemma alloc_only_copy r : alloc_only (copy r).
Proof. unfold copy. alloc_only_tac. Qed.

Lemma alloc_only_getitem r c : alloc_only (getitem r c).
Proof. unfold getitem. alloc_only_tac. Qed.

Lemma alloc_only_getitem_mask r m : alloc_only (getitem_mask r m).
Proof. unfold getitem_mask. alloc_only_tac. Qed.

Lemma alloc_only_reset_index_drop r : alloc_only (reset_index_drop r).
Proof. unfold reset_index_drop. alloc_only_tac. Qed.

#[local] Hint Resolve alloc_only_copy alloc_only_getitem
  alloc_only_getitem_mask alloc_only_reset_index_drop : frames.

Lemma alloc_only_apply_filters df o p s dr :
  alloc_only (apply_filters df o p s dr).
Proof. unfold apply_filters. alloc_only_tac. Qed.

Lemma bind_ok {A B : Type} (m : M A) (k : A -> M B) h a h1 :
  m h = (Ok a, h1) -> bind m k h = k a h1.
Proof. intros H. unfold bind. now rewrite H. Qed.

Lemma bind_inv {A B : Type} (m : M A) (k : A -> M B) h b h' :
  bind m k h = (Ok b, h') ->
  exists a h1, m h = (Ok a, h1) /\ k a h1 = (Ok b, h').
Proof.
  unfold bind. destruct (m h) as [[a | e] h1]; intros H; [| discriminate].
  now exists a, h1.
Qed.

Lemma alloc_only_run {A : Type} (m : M A) h r h' :
  alloc_only m -> m h = (r, h') -> extends h h'.
Proof. intros Hm H. specialize (Hm h). now rewrite H in Hm. Qed.

Lemma reset_index_drop_inv r h out h' :
  reset_index_drop r h = (Ok out, h') ->
  out = List.length h /\
  exists v, nth_error h r = Some v /\ h' = h ++ [DF.reset_index v].
Proof.
  unfold reset_index_drop, bind, deref, new.
  destruct (nth_error h r) as [v |]; intros H; inversion H; subst.
  split; [reflexivity | now exists v].
Qed.

(** The frame [apply_filters] returns is an object that was not in the
    store before the call. *)
Lemma apply_filters_fresh df o p s dr h out h' :
  apply_filters df o p s dr h = (Ok out, h') ->
  List.length h <= out < List.length h'.
Proof.
  unfold apply_filters. intros H.
  apply bind_inv in H as (f0 & h0 & H0 & H).
  apply bind_inv in H as (f1 & h1 & H1 & H).
  apply bind_inv in H as (f2 & h2 & H2 & H).
  apply bind_inv in H as (f3 & h3 & H3 & H).
  apply bind_inv in H as (f4 & h4 & H4 & H).
  apply reset_index_drop_inv in H as (-> & v & _ & ->).
  assert (E0 : extends h h0) by (eapply alloc_only_run; [| exact H0]; auto with frames).
  assert (E1 : extends h0 h1) by (eapply alloc_only_run; [| exact H1]; alloc_only_tac).
  assert (E2 : extends h1 h2) by (eapply alloc_only_run; [| exact H2]; alloc_only_tac).
  assert (E3 : extends h2 h3) by (eapply alloc_only_run; [| exact H3]; alloc_only_tac).
  assert (E4 : extends h3 h4) by (eapply alloc_only_run; [| exact H4]; alloc_only_tac).
  apply extends_length in E0, E1, E2, E3, E4.
  rewrite length_app. simpl. lia.
Qed.

(** ** The filter on loaded frames *)

Lemma loaded_columns_of df : loaded df -> columns df = loaded_columns.
Proof.
  unfold loaded, loadedb. intros H.
  apply andb_true_iff in H as [H _]. apply andb_true_iff in H as [H _].
  now destruct (list_eq_dec string_dec (columns df) loaded_columns).
Qed.

Lemma loaded_index_of df :
  loaded df -> index df = seq 0 (List.length (data df)).
Proof.
  unfold loaded, loadedb. intros H.
  apply andb_true_iff in H as [H _]. apply andb_true_iff in H as [_ H].
  now destruct (list_eq_dec Nat.eq_dec (index df) (seq 0 (List.length (data df)))).
Qed.

Lemma loaded_rows_of df : loaded df -> forallb loaded_row (data df) = true.
Proof.
  unfold loaded, loadedb. intros H. now apply andb_true_iff in H as [_ H].
Qed.

Lemma loaded_intro cols rows :
  cols = loaded_columns -> forallb loaded_row rows = true ->
  loaded (mkDF cols (seq 0 (List.length rows)) rows).
Proof.
  intros -> H. unfold loaded, loadedb. simpl. rewrite H.
  destruct (list_eq_dec string_dec loaded_columns loaded_columns); [| congruence].
  destruct (list_eq_dec Nat.eq_dec (seq 0 (List.length rows)) (seq 0 (List.length rows)));
    [reflexivity | congruence].
Qed.

Lemma rmap_cmp_ts op bound (s : series) :
  forallb DF.is_datetime s = true ->
  rmap (DF.cmp_ts op bound) s
  = Ok (map (fun v => match v with Ts t => op t bound | _ => false end) s).
Proof.
  induction s as [| v s IH]; simpl; [reflexivity |].
  intros H. apply andb_true_iff in H as [Hv Hs].
  rewrite (IH Hs). destruct v; simpl in *; try discriminate; reflexivity.
Qed.

Lemma mask_and_map {A : Type} (f g : A -> bool) (l : list A) :
  DF.mask_and (map f l) (map g l) = map (fun a => f a && g a) l.
Proof. induction l as [| a l IH]; simpl; [| rewrite IH]; reflexivity. Qed.

Lemma datetime_column rows :
  forallb loaded_row rows = true ->
  forallb DF.is_datetime (map (DF.cell date_pos) rows) = true.
Proof.
  induction rows as [| r rows IH]; simpl; [reflexivity |].
  intros H. apply andb_true_iff in H as [Hr Hs].
  unfold loaded_row in Hr. apply andb_true_iff in Hr as [_ Hr].
  unfold date_pos in *. rewrite Hr. simpl. auto.
Qed.

Lemma deref_run h r v : nth_error h r = Some v -> deref r h = (Ok v, h).
Proof. intros H. unfold deref. now rewrite H. Qed.

Lemma getitem_run h r v c s :
  nth_error h r = Some v -> DF.getitem v c = Ok s ->
  getitem r c h = (Ok s, h).
Proof.
  intros Hr Hs. unfold getitem.
  rewrite (bind_ok _ _ _ _ _ (deref_run _ _ _ Hr)). unfold lift. now rewrite Hs.
Qed.

Lemma getitem_mask_run h r v m :
  nth_error h r = Some v ->
  getitem_mask r m h = (Ok (List.length h), h ++ [DF.select v m]).
Proof.
  intros Hr. unfold getitem_mask.
  now rewrite (bind_ok _ _ _ _ _ (deref_run _ _ _ Hr)).
Qed.

Lemma copy_run h r v :
  nth_error h r = Some v -> copy r h = (Ok (List.length h), h ++ [v]).
Proof.
  intros Hr. unfold copy. now rewrite (bind_ok _ _ _ _ _ (deref_run _ _ _ Hr)).
Qed.

Lemma reset_index_drop_run h r v :
  nth_error h r = Some v ->
  reset_index_drop r h = (Ok (List.length h), h ++ [DF.reset_index v]).
Proof.
  intros Hr. unfold reset_index_drop.
  now rewrite (bind_ok _ _ _ _ _ (deref_run _ _ _ Hr)).
Qed.

Lemma lift_run {A : Type} (a : A) h : lift (Ok a) h = (Ok a, h).
Proof. reflexivity. Qed.

Lemma nth_error_last {A : Type} (l : list A) (a : A) :
  nth_error (l ++ [a]) (List.length l) = Some a.
Proof. rewrite nth_error_app2, Nat.sub_diag by lia. reflexivity. Qed.

Lemma getitem_col v c i :
  DF.col_index c (columns v) = Some i ->
  DF.getitem v c = Ok (map (DF.cell i) (data v)).
Proof. intros H. unfold DF.getitem. now rewrite H. Qed.

Lemma filter_true {A : Type} (l : list A) : filter (fun _ => true) l = l.
Proof. induction l as [| a l IH]; simpl; congruence. Qed.

(** One membership step of the filter, run on a frame that has the
    column. *)
Lemma isin_step h r v c i sel :
  nth_error h r = Some v ->
  DF.col_index c (columns v) = Some i ->
  exists r' h' v',
    (if truthy sel then
       bind (getitem r c) (fun s => getitem_mask r (DF.isin s sel))
     else ret r) h = (Ok r', h')
    /\ extends h h' /\ nth_error h' r' = Some v'
    /\ columns v' = columns v
    /\ data v' = filter (selected i sel) (data v).
Proof.
  intros Hr Hc. unfold selected. destruct (truthy sel).
  - exists (List.length h).
    exists (h ++ [DF.select v (DF.isin (map (DF.cell i) (data v)) sel)]).
    eexists. split; [| split; [| split; [| split]]].
    + rewrite (bind_ok _ _ _ _ _ (getitem_run _ _ _ _ _ Hr (getitem_col _ _ _ Hc))).
      exact (getitem_mask_run _ _ _ _ Hr).
    + now eexists.
    + apply nth_error_last.
    + reflexivity.
    + simpl. unfold DF.isin. rewrite map_map. apply pick_map_filter.
  - exists r, h, v. repeat split; auto using extends_refl.
    symmetry. apply filter_true.
Qed.

(** The date step, run on a frame whose Date column is a datetime column. *)
Lemma date_step h r v dr :
  nth_error h r = Some v ->
  DF.col_index "Date" (columns v) = Some date_pos ->
  forallb loaded_row (data v) = true ->
  exists r' h' v',
    match list_of_two dr with
    | Some (d0, d1) => restrict_dates d0 d1 r
    | None => ret r
    end h = (Ok r', h')
    /\ extends h h' /\ nth_error h' r' = Some v'
    /\ columns v' = columns v
    /\ data v' = filter (in_date_range dr) (data v).
Proof.
  intros Hr Hc Hrows. unfold in_date_range.
  pose proof (getitem_run _ _ _ _ _ Hr (getitem_col _ _ _ Hc)) as Hg.
  pose proof (datetime_column _ Hrows) as Hdt.
  destruct (list_of_two dr) as [[d0 d1] |].
  - exists (List.length h). eexists. eexists.
    split; [| split; [| split; [| split]]].
    + unfold restrict_dates, DF.ge_ts, DF.le_ts.
      rewrite (bind_ok _ _ _ _ _ Hg), (rmap_cmp_ts _ _ _ Hdt).
      rewrite (bind_ok _ _ _ _ _ (lift_run _ _)).
      rewrite (bind_ok _ _ _ _ _ Hg), (rmap_cmp_ts _ _ _ Hdt).
      rewrite (bind_ok _ _ _ _ _ (lift_run _ _)).
      exact (getitem_mask_run _ _ _ _ Hr).
    + now eexists.
    + apply nth_error_last.
    + reflexivity.
    + simpl. rewrite mask_and_map, map_map.
      rewrite pick_map_filter. apply filter_ext. intros row.
      unfold date_between. now destruct (DF.cell date_pos row).
  - exists r, h, v. repeat split; auto using extends_refl.
    symmetry. apply filter_true.
Qed.

Lemma keeps_filter o p s dr (rows : list (list value)) :
  filter (in_date_range dr)
    (filter (selected species_pos s)
       (filter (selected plot_pos p)
          (filter (selected observer_pos o) rows)))
  = filter (keeps o p s dr) rows.
Proof.
  unfold keeps. now rewrite !filter_andb.
Qed.

(** What [apply_filters] does to a loaded frame: it returns a new frame
    with the same columns, the rows that pass every selection, in their
    order, labelled from 0. *)
Lemma apply_filters_run h df v o p s dr :
  nth_error h df = Some v -> loaded v ->
  exists out h',
    apply_filters df o p s dr h = (Ok out, h')
    /\ extends h h'
    /\ nth_error h' out
       = Some (mkDF loaded_columns
                 (seq 0 (List.length (filter (keeps o p s dr) (data v))))
                 (filter (keeps o p s dr) (data v))).
Proof.
  intros Hdf Hl.
  pose proof (loaded_columns_of _ Hl) as Hcols.
  pose proof (loaded_rows_of _ Hl) as Hrows.
  unfold apply_filters.
  rewrite (bind_ok _ _ _ _ _ (copy_run _ _ _ Hdf)).
  assert (H0 : nth_error (h ++ [v]) (List.length h) = Some v)
    by apply nth_error_last.
  destruct (isin_step _ _ _ "Observer" observer_pos o H0)
    as (r1 & h1 & v1 & E1 & X1 & N1 & C1 & D1);
    [rewrite Hcols; reflexivity |].
  rewrite (bind_ok _ _ _ _ _ E1).
  destruct (isin_step _ _ _ "Plot_Name" plot_pos p N1)
    as (r2 & h2 & v2 & E2 & X2 & N2 & C2 & D2);
    [rewrite C1, Hcols; reflexivity |].
  rewrite (bind_ok _ _ _ _ _ E2).
  destruct (isin_step _ _ _ "Common_Name" species_pos s N2)
    as (r3 & h3 & v3 & E3 & X3 & N3 & C3 & D3);
    [rewrite C2, C1, Hcols; reflexivity |].
  rewrite (bind_ok _ _ _ _ _ E3).
  destruct (date_step _ _ _ dr N3)
    as (r4 & h4 & v4 & E4 & X4 & N4 & C4 & D4).
  { rewrite C3, C2, C1, Hcols. reflexivity. }
  { rewrite D3, D2, D1. now repeat apply forallb_filter. }
  unfold restrict_dates in E4.
  rewrite (bind_ok _ _ _ _ _ E4).
  rewrite (reset_index_drop_run _ _ _ N4).
  exists (List.length h4), (h4 ++ [DF.reset_index v4]).
  split; [reflexivity | split].
  - assert (X0 : extends h (h ++ [v])) by now eexists.
    assert (X5 : extends h4 (h4 ++ [DF.reset_index v4])) by now eexists.
    eapply extends_trans; [exact X0 |].
    eapply extends_trans; [exact X1 |].
    eapply extends_trans; [exact X2 |].
    eapply extends_trans; [exact X3 |].
    eapply extends_trans; [exact X4 | exact X5].
  - rewrite nth_error_last. unfold DF.reset_index.
    rewrite C4, C3, C2, C1, Hcols, D4, D3, D2, D1, keeps_filter.
    reflexivity.
Qed.

(** ** The claims about [apply_filters] *)

(** C1.  On a loaded frame [apply_filters] returns, for every selection of
    observers, plots and species and every date-range value, a frame with
    the columns of the loaded frame whose rows are all rows of the loaded
    frame; applied again with the same selections to its own output it
    returns a frame equal to that output. *)
Theorem C1_filter_subset_idempotent h df v observers plots species date_range :
  nth_error h df = Some v -> loaded v ->
  exists out h' fv,
    apply_filters df observers plots species date_range h = (Ok out, h')
    /\ nth_error h' out = Some fv
    /\ columns fv = columns v
    /\ incl (data fv) (data v)
    /\ exists out2 h2,
         apply_filters out observers plots species date_range h' = (Ok out2, h2)
         /\ nth_error h2 out2 = Some fv.
Proof.
  intros Hdf Hl.
  destruct (apply_filters_run h df v observers plots species date_range Hdf Hl)
    as (out & h' & E & _ & N).
  set (rows := filter (keeps observers plots species date_range) (data v)) in *.
  exists out, h', (mkDF loaded_columns (seq 0 (List.length rows)) rows).
  split; [exact E | split; [exact N | split; [| split]]].
  - simpl. symmetry. now apply loaded_columns_of.
  - simpl. intros row Hrow. now apply filter_In in Hrow.
  - assert (Hl' : loaded (mkDF loaded_columns (seq 0 (List.length rows)) rows)).
    { apply loaded_intro; [reflexivity |].
      apply forallb_filter. now apply loaded_rows_of. }
    destruct (apply_filters_run h' out _ observers plots species date_range N Hl')
      as (out2 & h2 & E2 & _ & N2).
    exists out2, h2. split; [exact E2 |].
    rewrite N2. simpl. unfold rows. now rewrite filter_idem.
Qed.

Lemma C1_filter_subset_idempotent_witness :
  nth_error sample_store 0 = Some sample_frame /\ loaded sample_frame /\
  exists out h' fv,
    apply_filters 0 [Str "Ann"] [Str "B"] [] (DateValue 0) sample_store
    = (Ok out, h')
    /\ nth_error h' out = Some fv
    /\ columns fv = columns sample_frame
    /\ incl (data fv) (data sample_frame)
    /\ exists out2 h2,
         apply_filters out [Str "Ann"] [Str "B"] [] (DateValue 0) h'
         = (Ok out2, h2)
         /\ nth_error h2 out2 = Some fv.
Proof.
  split; [reflexivity | split; [vm_compute; reflexivity |]].
  apply (C1_filter_subset_idempotent sample_store 0 sample_frame);
    [reflexivity | vm_compute; reflexivity].
Defined.

Lemma apply_filters_rows h df v o p s dr :
  nth_error h df = Some v -> loaded v ->
  exists out h' fv,
    apply_filters df o p s dr h = (Ok out, h')
    /\ nth_error h' out = Some fv
    /\ data fv = filter (keeps o p s dr) (data v).
Proof.
  intros Hdf Hl.
  destruct (apply_filters_run h df v o p s dr Hdf Hl) as (out & h' & E & _ & Hout).
  exists out, h'. eexists. split; [exact E |]. split; [exact Hout | reflexivity].
Qed.

(** C2.  With nothing selected for observers, for plots or for species,
    [apply_filters] gives what the pipeline without that dimension's step
    gives, on every store and whatever the other inputs are; and on a
    loaded frame it returns the rows that pass the remaining predicates,
    whatever their cell in the dimension left empty. *)
Theorem C2_empty_selection_no_restriction h df v observers plots species date_range :
  nth_error h df = Some v -> loaded v ->
  (apply_filters df [] plots species date_range h
   = apply_filters_without ObserverDim df observers plots species date_range h
   /\ apply_filters df observers [] species date_range h
      = apply_filters_without PlotDim df observers plots species date_range h
   /\ apply_filters df observers plots [] date_range h
      = apply_filters_without SpeciesDim df observers plots species date_range h)
  /\ (exists out h' fv,
        apply_filters df [] plots species date_range h = (Ok out, h')
        /\ nth_error h' out = Some fv
        /\ data fv
           = filter (keeps_without ObserverDim observers plots species date_range)
               (data v))
  /\ (exists out h' fv,
        apply_filters df observers [] species date_range h = (Ok out, h')
        /\ nth_error h' out = Some fv
        /\ data fv
           = filter (keeps_without PlotDim observers plots species date_range)
               (data v))
  /\ (exists out h' fv,
        apply_filters df observers plots [] date_range h = (Ok out, h')
        /\ nth_error h' out = Some fv
        /\ data fv
           = filter (keeps_without SpeciesDim observers plots species date_range)
               (data v)).
Proof.
  intros Hdf Hl.
  split; [repeat split; reflexivity |].
  split; [| split].
  - destruct (apply_filters_rows h df v [] plots species date_range Hdf Hl)
      as (out & h' & fv & E & Hout & Hd).
    exists out, h', fv. split; [exact E |]. split; [exact Hout |].
    rewrite Hd. apply filter_ext. intros row. reflexivity.
  - destruct (apply_filters_rows h df v observers [] species date_range Hdf Hl)
      as (out & h' & fv & E & Hout & Hd).
    exists out, h', fv. split; [exact E |]. split; [exact Hout |].
    rewrite Hd. apply filter_ext. intros row.
    unfold keeps, keeps_without.
    change (selected plot_pos [] row) with true.
    cbn [dimension_eqb orb]. reflexivity.
  - destruct (apply_filters_rows h df v observers plots [] date_range Hdf Hl)
      as (out & h' & fv & E & Hout & Hd).
    exists out, h', fv. split; [exact E |]. split; [exact Hout |].
    rewrite Hd. apply filter_ext. intros row.
    unfold keeps, keeps_without.
    change (selected species_pos [] row) with true.
    cbn [dimension_eqb orb]. reflexivity.
Qed.

Lemma C2_empty_selection_no_restriction_witness :
  exists out h' fv,
    apply_filters 0 [] [Str "B"] [] (DateValue 0) sample_store = (Ok out, h')
    /\ nth_error h' out = Some fv
    /\ data fv
       = filter (keeps_without ObserverDim [Str "Ann"] [Str "B"] [] (DateValue 0))
           (data sample_frame).
Proof.
  destruct (C2_empty_selection_no_restriction sample_store 0 sample_frame
              [Str "Ann"] [Str "B"] [] (DateValue 0)) as (_ & H & _).
  - reflexivity.
  - vm_compute. reflexivity.
  - exact H.
Defined.

Lemma list_of_two_Some date_range d0 d1 :
  list_of_two date_range = Some (d0, d1) <-> date_range = DateList [d0; d1].
Proof.
  split; [| intros ->; reflexivity].
  destruct date_range as [d | ds | ds]; simpl; try discriminate.
  destruct ds as [| a [| b [| c ds]]]; try discriminate.
  intros H. now inversion H.
Qed.

Lemma apply_filters_no_date df o p s dr h :
  list_of_two dr = None ->
  apply_filters df o p s dr h = apply_filters_without DateDim df o p s dr h.
Proof.
  intros H. unfold apply_filters, apply_filters_without. rewrite H. reflexivity.
Qed.

Lemma apply_filters_without_date_eq df o p s dr h :
  apply_filters_without DateDim df o p s dr h
  = apply_filters df o p s (DateValue 0) h.
Proof. reflexivity. Qed.

(** C3, as the code has it.  A date range that is not a Python list of
    exactly two dates (one date, a tuple of any length, a list of another
    length) is ignored: the output is that of the pipeline without the date
    step.  For a list of exactly two dates the output holds exactly the rows
    of that date-free output whose Date lies between midnight of the first
    and midnight of the second, both included; rows without a date go. *)
Theorem C3_date_range_list_of_two h df v observers plots species date_range :
  nth_error h df = Some v -> loaded v ->
  (forall d0 d1,
      list_of_two date_range = Some (d0, d1) <-> date_range = DateList [d0; d1])
  /\ match list_of_two date_range with
     | None =>
         apply_filters df observers plots species date_range h
         = apply_filters_without DateDim df observers plots species date_range h
     | Some (d0, d1) =>
         exists out h' fv out0 h0 fv0,
           apply_filters df observers plots species date_range h = (Ok out, h')
           /\ nth_error h' out = Some fv
           /\ apply_filters_without DateDim df observers plots species
                date_range h = (Ok out0, h0)
           /\ nth_error h0 out0 = Some fv0
           /\ data fv = filter (date_between d0 d1) (data fv0)
     end.
Proof.
  intros Hdf Hl. split; [intros; apply list_of_two_Some |].
  destruct (list_of_two date_range) as [[d0 d1] |] eqn:E.
  - destruct (apply_filters_run h df v observers plots species date_range Hdf Hl)
      as (out & h' & E1 & _ & N1).
    destruct (apply_filters_run h df v observers plots species (DateValue 0) Hdf Hl)
      as (out0 & h0 & E0 & _ & N0).
    do 6 eexists.
    split; [exact E1 | split; [exact N1 | split; [| split; [exact N0 |]]]].
    + rewrite apply_filters_without_date_eq. exact E0.
    + simpl. rewrite <- filter_andb. apply filter_ext. intros row.
      unfold keeps, in_date_range. rewrite E. simpl.
      now rewrite andb_true_r.
  - now apply apply_filters_no_date.
Qed.

Lemma C3_date_range_list_of_two_witness :
  nth_error sample_store 0 = Some sample_frame /\ loaded sample_frame /\
  exists out h' fv out0 h0 fv0,
    apply_filters 0 [] [] [] (DateList [18262; 18300]%Z) sample_store
    = (Ok out, h')
    /\ nth_error h' out = Some fv
    /\ apply_filters_without DateDim 0 [] [] [] (DateList [18262; 18300]%Z)
         sample_store = (Ok out0, h0)
    /\ nth_error h0 out0 = Some fv0
    /\ data fv = filter (date_between 18262 18300) (data fv0).
Proof.
  split; [reflexivity | split; [vm_compute; reflexivity |]].
  apply (C3_date_range_list_of_two sample_store 0 sample_frame [] [] []
           (DateList [18262; 18300]%Z));
    [reflexivity | vm_compute; reflexivity].
Defined.

(** C3 as stated fails for a range of two endpoints that comes as a tuple,
    the form the date picker hands over: between 2020-01-01 and 2020-02-08
    the filter still keeps the record of 2020-03-02. *)
Lemma C3_counterexample_two_endpoint_tuple :
  exists out h' fv row,
    apply_filters 0 [] [] [] (DateTuple [18262; 18300]%Z) sample_store
    = (Ok out, h')
    /\ nth_error h' out = Some fv
    /\ In row (data fv)
    /\ DF.cell date_pos row = Ts 1583107200000000000
    /\ date_between 18262 18300 row = false.
Proof.
  eexists. eexists. eexists. exists (nth 1 (data sample_frame) []).
  split; [vm_compute; reflexivity |].
  split; [vm_compute; reflexivity |].
  split; [right; left; vm_compute; reflexivity |].
  split; vm_compute; reflexivity.
Qed.

(** C8.  Whatever the store and the inputs, [apply_filters] leaves every
    frame that was in the store as it was, the frame it was given in
    particular; the frame it returns is a new object. *)
Theorem C8_source_not_mutated df observers plots species date_range h :
  nth_error (snd (apply_filters df observers plots species date_range h)) df
  = nth_error h df
  /\ firstn (List.length h)
       (snd (apply_filters df observers plots species date_range h)) = h
  /\ match fst (apply_filters df observers plots species date_range h) with
     | Ok out => List.length h <= out
     | Raise _ => True
     end.
Proof.
  pose proof (alloc_only_apply_filters df observers plots species date_range h)
    as X.
  split; [| split].
  - destruct (nth_error h df) as [v |] eqn:E.
    + eapply extends_nth_error; eassumption.
    + unfold apply_filters, copy.
      unfold bind at 1. unfold bind at 1. unfold deref. rewrite E. simpl.
      exact E.
  - now apply extends_firstn.
  - destruct (apply_filters df observers plots species date_range h)
      as [[out | e] h'] eqn:E; simpl; [| exact I].
    apply apply_filters_fresh in E. lia.
Qed.

(** Assignment to a column, by contrast, changes the object it is applied
    to: the store does record mutation. *)
Example setitem_mutates :
  let h := [mkDF ["a"] [0] [[Num 1]]] in
  setitem 0 "a" [Num 2] h = (Ok tt, [mkDF ["a"] [0] [[Num 2]]]).
Proof. reflexivity. Qed.

(** ** [load_data] *)

Lemma zip_with_map {A B C : Type} (f : A -> B -> C) (g : A -> B) (l : list A) :
  DF.zip_with f l (map g l) = map (fun a => f a (g a)) l.
Proof. induction l as [| a l IH]; simpl; [| rewrite IH]; reflexivity. Qed.

Lemma update_last (h : store) v v' :
  update (List.length h) v' (h ++ [v]) = h ++ [v'].
Proof. induction h as [| x h IH]; simpl; [| rewrite IH]; reflexivity. Qed.

Lemma setitem_run h r v c s v' :
  nth_error h r = Some v -> DF.setitem v c s = Ok v' ->
  setitem r c s h = (Ok tt, update r v' h).
Proof.
  intros Hr Hs. unfold setitem.
  rewrite (bind_ok _ _ _ _ _ (deref_run _ _ _ Hr)). rewrite Hs.
  rewrite (bind_ok _ _ _ _ _ (lift_run _ _)).
  unfold assign.
  assert (L : r < List.length h) by (apply nth_error_Some; congruence).
  apply Nat.ltb_lt in L. now rewrite L.
Qed.

Lemma read_sql_run table h :
  read_sql (Ok table) h
  = (Ok (List.length h),
     h ++ [mkDF select_columns (seq 0 (List.length table)) table]).
Proof. reflexivity. Qed.

Ltac destruct_row row H :=
  do 14 (destruct row as [| ? row]; [discriminate H |]);
  destruct row; [| discriminate H].

Lemma map_ext_forallb {A B : Type} (p : A -> bool) (f g : A -> B) (l : list A) :
  forallb p l = true -> (forall a, p a = true -> f a = g a) ->
  map f l = map g l.
Proof.
  intros H Hfg. induction l as [| a l IH]; simpl in *; [reflexivity |].
  apply andb_true_iff in H as [Ha Hl]. now rewrite Hfg, IH.
Qed.

Lemma length_14 (row : list value) : (List.length row =? 14) = true -> List.length row = 14.
Proof. apply Nat.eqb_eq. Qed.

Lemma setitem_existing cols idx rows c i (s : series) :
  DF.col_index c cols = Some i -> List.length s = List.length rows ->
  DF.setitem (mkDF cols idx rows) c s
  = Ok (mkDF cols idx (DF.zip_with (fun row v => DF.set_cell i v row) rows s)).
Proof.
  intros Hc Hl. unfold DF.setitem. cbn [data columns index].
  now rewrite Hl, Nat.eqb_refl, Hc.
Qed.

Lemma setitem_new cols idx rows c (s : series) :
  DF.col_index c cols = None -> List.length s = List.length rows ->
  DF.setitem (mkDF cols idx rows) c s
  = Ok (mkDF (cols ++ [c]) idx (DF.zip_with (fun row v => row ++ [v]) rows s)).
Proof.
  intros Hc Hl. unfold DF.setitem. cbn [data columns index].
  now rewrite Hl, Nat.eqb_refl, Hc.
Qed.


(** The three assignments of [load_data], row by row: the Date cell
    replaced, then Year and Month appended. *)
Lemma load_steps table (d : series) :
  wf_table table = true -> List.length d = List.length table ->
  let rows1 := DF.zip_with (fun row v => DF.set_cell 1 v row) table d in
  let rows2 := DF.zip_with (fun row v => row ++ [v]) rows1 (map DF.year_cell d) in
  let rows3 := DF.zip_with (fun row v => row ++ [v]) rows2 (map DF.month_cell d) in
  List.length rows1 = List.length table
  /\ List.length rows2 = List.length table
  /\ map (DF.cell 1) rows1 = d
  /\ map (DF.cell 1) rows2 = d
  /\ rows3 = DF.zip_with dated_row table d.
Proof.
  revert d. induction table as [| row table IH]; intros [| v d] Hwf Hlen;
    try discriminate Hlen; [now repeat split |].
  simpl in Hwf. apply andb_true_iff in Hwf as [Hrow Hwf].
  injection Hlen as Hlen.
  destruct (IH d Hwf Hlen) as (L1 & L2 & D1 & D2 & R3).
  apply length_14 in Hrow. destruct_row row Hrow.
  cbn zeta in *. cbn [DF.zip_with map List.length].
  rewrite L1, L2, D1, D2, R3. repeat split.
Qed.

(** What [load_data] does with the column the conversion returns: with a
    column of timestamps it returns the frame of the dated rows; with
    another column the [.dt] accessor of the next line raises, after the
    Date column has been assigned. *)
Lemma load_data_run conv table h (d : series) :
  wf_table table = true ->
  conv DF.ErrorsCoerce (map (DF.cell 1) table) = Ok d ->
  List.length d = List.length table ->
  load_data conv (Ok table) h
  = if forallb DF.is_datetime d then
      (Ok (List.length h),
       h ++ [mkDF loaded_columns (seq 0 (List.length table))
               (DF.zip_with dated_row table d)])
    else
      (Raise (AttributeError "Can only use .dt accessor with datetimelike values"),
       h ++ [mkDF select_columns (seq 0 (List.length table))
               (DF.zip_with (fun row v => DF.set_cell 1 v row) table d)]).
Proof.
  intros Hwf Hconv Hlen. unfold load_data.
  destruct (load_steps table d Hwf Hlen) as (L1 & L2 & Hd1 & Hd2 & R3).
  set (idx := seq 0 (List.length table)).
  set (v0 := mkDF select_columns idx table).
  set (rows1 := DF.zip_with (fun row v => DF.set_cell 1 v row) table d) in *.
  set (v1 := mkDF select_columns idx rows1).
  set (rows2 := DF.zip_with (fun row v => row ++ [v]) rows1 (map DF.year_cell d)) in *.
  set (v2 := mkDF (select_columns ++ ["Year"]) idx rows2).
  rewrite (bind_ok _ _ _ _ _ (read_sql_run table h)).
  assert (N0 : nth_error (h ++ [v0]) (List.length h) = Some v0)
    by apply nth_error_last.
  rewrite (bind_ok _ _ _ _ _ (getitem_run _ _ _ "Date" _ N0 eq_refl)).
  simpl data. rewrite Hconv.
  rewrite (bind_ok _ _ _ _ _ (lift_run _ _)).
  assert (S1 : DF.setitem v0 "Date" d = Ok v1)
    by (unfold v0; now rewrite (setitem_existing _ _ _ _ 1)).
  rewrite (bind_ok _ _ _ _ _ (setitem_run _ _ _ _ _ _ N0 S1)).
  rewrite update_last.
  assert (N1 : nth_error (h ++ [v1]) (List.length h) = Some v1)
    by apply nth_error_last.
  rewrite (bind_ok _ _ _ _ _ (getitem_run _ _ _ "Date" _ N1 eq_refl)).
  simpl data. rewrite Hd1.
  unfold DF.dt_year, DF.dt_strftime_b, DF.dt.
  destruct (forallb DF.is_datetime d) eqn:Hdt; [| reflexivity].
  simpl rbind.
  rewrite (bind_ok _ _ _ _ _ (lift_run _ _)).
  assert (S2 : DF.setitem v1 "Year" (map DF.year_cell d) = Ok v2).
  { unfold v1. rewrite setitem_new; [reflexivity | reflexivity |].
    now rewrite length_map, L1. }
  rewrite (bind_ok _ _ _ _ _ (setitem_run _ _ _ _ _ _ N1 S2)).
  rewrite update_last.
  assert (N2 : nth_error (h ++ [v2]) (List.length h) = Some v2)
    by apply nth_error_last.
  rewrite (bind_ok _ _ _ _ _ (getitem_run _ _ _ "Date" _ N2 eq_refl)).
  simpl data. rewrite Hd2, Hdt. simpl rbind.
  rewrite (bind_ok _ _ _ _ _ (lift_run _ _)).
  assert (S3 : DF.setitem v2 "Month" (map DF.month_cell d)
               = Ok (mkDF loaded_columns idx (DF.zip_with dated_row table d))).
  { unfold v2. rewrite setitem_new; [| reflexivity |].
    - now rewrite R3.
    - now rewrite length_map, L2. }
  rewrite (bind_ok _ _ _ _ _ (setitem_run _ _ _ _ _ _ N2 S3)).
  rewrite update_last. reflexivity.
Qed.


Lemma zip_with_length {A B C : Type} (f : A -> B -> C) l1 l2 :
  List.length l1 = List.length l2 ->
  List.length (DF.zip_with f l1 l2) = List.length l1.
Proof.
  revert l2. induction l1 as [| x l1 IH]; intros [| y l2] H; simpl in *;
    try discriminate; [reflexivity |]. f_equal. apply IH. lia.
Qed.

Lemma dated_rows_loaded table (d : series) :
  wf_table table = true -> forallb DF.is_datetime d = true ->
  forallb loaded_row (DF.zip_with dated_row table d) = true.
Proof.
  revert d. induction table as [| row table IH]; intros [| v d] Hwf Hd;
    try reflexivity.
  simpl in Hwf, Hd. apply andb_true_iff in Hwf as [Hrow Hwf].
  apply andb_true_iff in Hd as [Hv Hd].
  cbn [DF.zip_with forallb]. rewrite (IH d Hwf Hd), andb_true_r.
  apply length_14 in Hrow. destruct_row row Hrow.
  unfold loaded_row, dated_row. simpl. exact Hv.
Qed.




(** With [errors="raise"] the sample column would stop the load: its third
    row holds no date. *)
Example to_datetime_raise_fails :
  to_datetime_iso DF.ErrorsRaise (map (DF.cell 1) sample_table)
  = Raise (ValueError "Unknown datetime string format").
Proof. vm_compute. reflexivity. Qed.

(** A store that cannot be reached fails the load and leaves nothing
    behind. *)
Lemma load_data_unreachable parse e h :
  load_data parse (Raise e) h = (Raise e, h).
Proof. reflexivity. Qed.

(** ** Insertion sort *)

Section SortingFacts.

Context {A : Type} (leb : A -> A -> bool).

Hypothesis leb_total : forall a b, leb a b = true \/ leb b a = true.
Hypothesis leb_trans :
  forall a b c, leb a b = true -> leb b c = true -> leb a c = true.

Lemma insert_perm x l : Permutation (DF.insert leb x l) (x :: l).
Proof.
  induction l as [| y l IH]; simpl; [reflexivity |].
  destruct (leb x y); [reflexivity |].
  rewrite IH. apply perm_swap.
Qed.

Lemma isort_perm l : Permutation (DF.isort leb l) l.
Proof.
  induction l as [| x l IH]; simpl; [reflexivity |].
  rewrite insert_perm. now constructor.
Qed.

Lemma insert_sorted x l :
  StronglySorted (fun a b => leb a b = true) l ->
  StronglySorted (fun a b => leb a b = true) (DF.insert leb x l).
Proof.
  induction 1 as [| y l Hs IH Hy]; simpl.
  - repeat constructor.
  - destruct (leb x y) eqn:E.
    + constructor; [now constructor |].
      constructor; [exact E |].
      eapply Forall_impl; [| exact Hy]. intros b Hb. eauto.
    + constructor; [exact IH |].
      eapply Permutation_Forall; [symmetry; apply insert_perm |].
      constructor; [| exact Hy].
      destruct (leb_total x y) as [H | H]; [congruence | exact H].
Qed.

Lemma isort_sorted l :
  StronglySorted (fun a b => leb a b = true) (DF.isort leb l).
Proof.
  induction l as [| x l IH]; simpl; [constructor | now apply insert_sorted].
Qed.

End SortingFacts.

Lemma In_firstn {A : Type} n (l : list A) a : In a (firstn n l) -> In a l.
Proof.
  intros H. rewrite <- (firstn_skipn n l). apply in_or_app. now left.
Qed.

Lemma StronglySorted_firstn {A : Type} (R : A -> A -> Prop) n l :
  StronglySorted R l -> StronglySorted R (firstn n l).
Proof.
  intros H. revert n. induction H as [| a l Hs IH Ha]; intros [| n]; simpl;
    try constructor; auto.
  rewrite Forall_forall in *. intros b Hb. apply Ha.
  now apply (In_firstn n l b).
Qed.

Lemma StronglySorted_app_inv {A : Type} (R : A -> A -> Prop) l1 l2 a b :
  StronglySorted R (l1 ++ l2) -> In a l1 -> In b l2 -> R a b.
Proof.
  induction l1 as [| x l1 IH]; simpl; [contradiction |].
  intros H Ha Hb. apply StronglySorted_inv in H as [Hs Hx].
  destruct Ha as [-> | Ha]; [| now apply IH].
  rewrite Forall_forall in Hx. apply Hx, in_or_app. now right.
Qed.

Lemma sort_desc_descending c : descending (DF.sort_desc c).
Proof.
  unfold descending, DF.sort_desc.
  assert (H : StronglySorted (fun a b => DF.count_geb a b = true)
                (DF.isort DF.count_geb c)).
  { apply isort_sorted; unfold DF.count_geb; intros.
    - destruct (Nat.leb_spec (snd b) (snd a)); [now left | right].
      apply Nat.leb_le. lia.
    - apply Nat.leb_le. apply Nat.leb_le in H, H0. lia. }
  induction H as [| a l Hs IH Ha]; constructor; [exact IH |].
  eapply Forall_impl; [| exact Ha]. intros b Hb.
  now apply Nat.leb_le in Hb.
Qed.

Lemma sort_desc_perm c : Permutation (DF.sort_desc c) c.
Proof. apply isort_perm. Qed.

(** ** Counting *)

Section TallyFacts.

Context {A : Type} (eq_dec : forall a b : A, {a = b} + {a <> b}).

Lemma eqb_of_true a b : DF.eqb_of eq_dec a b = true <-> a = b.
Proof. unfold DF.eqb_of. destruct (eq_dec a b); split; congruence. Qed.

Lemma uniq_In l a : In a (DF.uniq eq_dec l) <-> In a l.
Proof.
  induction l as [| x l IH]; simpl; [reflexivity |].
  rewrite filter_In, IH, negb_true_iff.
  destruct (eq_dec x a) as [-> | Hne]; [tauto |].
  split; [tauto |]. intros [H | H]; [tauto | right]. split; [exact H |].
  apply not_true_is_false. rewrite eqb_of_true. congruence.
Qed.

Lemma uniq_NoDup l : NoDup (DF.uniq eq_dec l).
Proof.
  induction l as [| x l IH]; simpl; constructor.
  - rewrite filter_In, negb_true_iff. intros [_ H].
    apply not_true_iff_false in H. apply H. now apply eqb_of_true.
  - now apply NoDup_filter.
Qed.

Lemma tally_keys l : map fst (DF.tally eq_dec l) = DF.uniq eq_dec l.
Proof.
  unfold DF.tally. rewrite map_map. simpl. apply map_id.
Qed.

Lemma tally_In l a k :
  In (a, k) (DF.tally eq_dec l) <-> In a l /\ k = count_occ eq_dec l a.
Proof.
  unfold DF.tally. rewrite in_map_iff. split.
  - intros (x & E & Hx). inversion E; subst. now rewrite <- uniq_In.
  - intros [Ha ->]. exists a. now rewrite uniq_In.
Qed.

End TallyFacts.

Lemma count_occ_notna (s : series) v :
  v <> NA ->
  count_occ value_eq_dec (filter notna s) v = count_occ value_eq_dec s v.
Proof.
  intros Hv. induction s as [| x s IH]; [reflexivity |].
  cbn [filter]. destruct (notna x) eqn:Hx.
  - cbn [count_occ]. rewrite IH. reflexivity.
  - destruct x; try discriminate Hx. cbn [count_occ].
    destruct (value_eq_dec NA v) as [E | _]; [congruence | exact IH].
Qed.

Lemma notna_In (s : series) v : In v (filter notna s) <-> In v s /\ v <> NA.
Proof.
  rewrite filter_In. unfold notna, isna.
  destruct v; simpl; split; intros [H H']; split;
    solve [assumption | reflexivity | discriminate | congruence].
Qed.

(** Every row of [value_counts]: a value that occurs and is no null, with
    the number of its occurrences. *)
Lemma value_counts_In (s : series) v k :
  In (v, k) (DF.value_counts s) <->
  In v s /\ v <> NA /\ k = count_occ value_eq_dec s v.
Proof.
  unfold DF.value_counts.
  split.
  - intros H. apply (Permutation_in _ (sort_desc_perm _)) in H.
    apply tally_In in H as [Hin ->]. apply notna_In in Hin as [Hin Hv].
    now rewrite count_occ_notna.
  - intros (Hin & Hv & ->).
    apply (Permutation_in _ (Permutation_sym (sort_desc_perm _))).
    apply tally_In. rewrite count_occ_notna by assumption.
    split; [now apply notna_In | reflexivity].
Qed.

Lemma value_counts_NoDup (s : series) : NoDup (map fst (DF.value_counts s)).
Proof.
  unfold DF.value_counts.
  eapply Permutation_NoDup;
    [apply Permutation_map, Permutation_sym, sort_desc_perm |].
  rewrite tally_keys. apply uniq_NoDup.
Qed.

Lemma NoDup_firstn {A : Type} n (l : list A) : NoDup l -> NoDup (firstn n l).
Proof.
  intros H. rewrite <- (firstn_skipn n l) in H.
  now apply NoDup_app_remove_r in H.
Qed.

(** The [n] largest of a series of counts: at most [n] rows, counts never
    going up, every row one of the series, and no row left out that counts
    more than a row kept. *)
Lemma nlargest_spec n (c : DF.counts) :
  List.length (DF.nlargest n c) <= n
  /\ descending (DF.nlargest n c)
  /\ incl (DF.nlargest n c) c
  /\ (NoDup (map fst c) -> NoDup (map fst (DF.nlargest n c)))
  /\ (forall a b, In a c -> ~ In a (DF.nlargest n c) ->
                  In b (DF.nlargest n c) -> snd a <= snd b).
Proof.
  unfold DF.nlargest. split; [apply firstn_le_length |].
  split; [apply StronglySorted_firstn, sort_desc_descending |].
  split; [| split].
  - intros a Ha. apply In_firstn in Ha.
    now apply (Permutation_in _ (sort_desc_perm _)).
  - intros H. rewrite <- firstn_map. apply NoDup_firstn.
    eapply Permutation_NoDup;
      [apply Permutation_map, Permutation_sym, sort_desc_perm | exact H].
  - intros a b Ha Hna Hb.
    apply (Permutation_in _ (Permutation_sym (sort_desc_perm c))) in Ha.
    rewrite <- (firstn_skipn n (DF.sort_desc c)) in Ha.
    apply in_app_or in Ha as [Ha | Ha]; [contradiction |].
    pose proof (sort_desc_descending c) as Hs. unfold descending in Hs.
    rewrite <- (firstn_skipn n (DF.sort_desc c)) in Hs.
    exact (StronglySorted_app_inv _ _ _ _ _ Hs Hb Ha).
Qed.

Lemma pie_data_run df s :
  DF.getitem df "Common_Name" = Ok s ->
  pie_data df = Ok (counts_frame (DF.nlargest 10 (DF.value_counts s))).
Proof. intros H. unfold pie_data. rewrite H. reflexivity. Qed.

Lemma bar_df_run df s :
  DF.getitem df "Common_Name" = Ok s ->
  bar_df df = Ok (counts_frame (DF.nlargest 15 (DF.value_counts s))).
Proof. intros H. unfold bar_df. rewrite H. reflexivity. Qed.

(** The rows of a top-[n] table of a series [s]. *)
Lemma top_rows n (s : series) :
  let c := DF.nlargest n (DF.value_counts s) in
  List.length c <= n
  /\ descending c
  /\ NoDup (map fst c)
  /\ (forall v k, In (v, k) c ->
        In v s /\ v <> NA /\ k = count_occ value_eq_dec s v)
  /\ (forall v w k, In v s -> v <> NA -> ~ In v (map fst c) ->
        In (w, k) c -> count_occ value_eq_dec s v <= k).
Proof.
  intros c.
  destruct (nlargest_spec n (DF.value_counts s)) as (Hlen & Hd & Hin & Hnd & Htop).
  fold c in Hlen, Hd, Hin, Hnd, Htop.
  split; [exact Hlen |]. split; [exact Hd |].
  split; [apply Hnd, value_counts_NoDup |]. split.
  - intros v k H. apply Hin in H. now apply value_counts_In in H.
  - intros v w k Hv Hna Hout Hw.
    assert (Hvc : In (v, count_occ value_eq_dec s v) (DF.value_counts s))
      by (apply value_counts_In; auto).
    apply (Htop _ (w, k) Hvc); [| exact Hw].
    intros Hc. apply Hout. apply in_map_iff. now exists (v, count_occ value_eq_dec s v).
Qed.

(** C4. On every frame that has the species column, the pie data and the
    bar data are tables of species and counts with at most 10 and at most
    15 rows, counts never increasing down the table. Each row is a
    non-null species of the column with its number of occurrences, no
    species appears twice, and a species left out never counts more than
    one kept. Both tables are a function of the species column alone, so
    evaluating again on the same input gives the same rows in the same
    order. *)
Theorem C4_top_n_species df s :
  DF.getitem df "Common_Name" = Ok s ->
  exists c10 c15,
    pie_data df = Ok (counts_frame c10)
    /\ bar_df df = Ok (counts_frame c15)
    /\ List.length c10 <= 10 /\ List.length c15 <= 15
    /\ DF.len (counts_frame c10) <= 10 /\ DF.len (counts_frame c15) <= 15
    /\ descending c10 /\ descending c15
    /\ NoDup (map fst c10) /\ NoDup (map fst c15)
    /\ (forall v k, In (v, k) c10 \/ In (v, k) c15 ->
          In v s /\ v <> NA /\ k = count_occ value_eq_dec s v)
    /\ (forall v w k, In v s -> v <> NA ->
          (~ In v (map fst c10) /\ In (w, k) c10)
          \/ (~ In v (map fst c15) /\ In (w, k) c15) ->
          count_occ value_eq_dec s v <= k)
    /\ (forall df', DF.getitem df' "Common_Name" = Ok s ->
          pie_data df' = pie_data df /\ bar_df df' = bar_df df).
Proof.
  intros H.
  exists (DF.nlargest 10 (DF.value_counts s)), (DF.nlargest 15 (DF.value_counts s)).
  destruct (top_rows 10 s) as (L10 & D10 & N10 & R10 & T10).
  destruct (top_rows 15 s) as (L15 & D15 & N15 & R15 & T15).
  split; [now apply pie_data_run |]. split; [now apply bar_df_run |].
  split; [exact L10 |]. split; [exact L15 |].
  split; [unfold DF.len, counts_frame; simpl; now rewrite length_map |].
  split; [unfold DF.len, counts_frame; simpl; now rewrite length_map |].
  split; [exact D10 |]. split; [exact D15 |].
  split; [exact N10 |]. split; [exact N15 |]. split; [| split].
  - intros v k [Hin | Hin]; [now apply R10 | now apply R15].
  - intros v w k Hv Hna [[Hout Hw] | [Hout Hw]];
      [now apply (T10 v w k) | now apply (T15 v w k)].
  - intros df' H'.
    rewrite (pie_data_run _ _ H), (pie_data_run _ _ H').
    rewrite (bar_df_run _ _ H), (bar_df_run _ _ H'). now split.
Qed.

Lemma C4_top_n_species_witness :
  exists c10 c15,
    pie_data sample_frame = Ok (counts_frame c10)
    /\ bar_df sample_frame = Ok (counts_frame c15)
    /\ List.length c10 <= 10 /\ List.length c15 <= 15
    /\ descending c10 /\ descending c15.
Proof.
  destruct (C4_top_n_species sample_frame
              [Str "Robin"; Str "Wren"; Str "Robin"; Str "Robin"])
    as (c10 & c15 & P & B & L10 & L15 & _ & _ & D10 & D15 & _).
  - vm_compute. reflexivity.
  - exists c10, c15. repeat split; assumption.
Defined.

(** ** The year x month table *)

Lemma pivot_twelve_rows df p :
  pivot df = Ok p ->
  DF.p_index p = map Str month_abbrs /\ List.length (DF.p_cells p) = 12.
Proof.
  unfold pivot. destruct (heatmap_df df) as [h | e]; simpl; [| discriminate].
  destruct (DF.pivot h "Month" "Year" "Observations") as [q | e]; simpl;
    [| discriminate].
  intros E. inversion E; subst. unfold DF.reindex. simpl.
  split; reflexivity.
Qed.

(** C5. The pivot of the four sample records (January and March 2020,
    January 2021, one record without a date) has the twelve rows Jan to
    Dec and the columns 2020 and 2021. March 2021, a month that occurs in
    the data under another year, holds zero; but February 2020, a month
    with no record at all, holds NaN: the zero fill runs before the
    re-indexing that adds the missing months. The same on a single record
    of January 2020: every row but Jan is NaN. *)
Theorem C5_pivot_missing_month_not_zero :
  DF.empty sample_frame = false
  /\ DF.empty single_january = false
  /\ exists p q,
      pivot sample_frame = Ok p
      /\ pivot single_january = Ok q
      /\ DF.p_index p = map Str month_abbrs
      /\ List.length (DF.p_cells p) = 12
      /\ DF.p_columns p = [Num 2020; Num 2021]
      /\ DF.pivot_cell p (Str "Jan") (Num 2020) = Some (Num 1)
      /\ DF.pivot_cell p (Str "Mar") (Num 2021) = Some (Num 0)
      /\ DF.pivot_cell p (Str "Feb") (Num 2020) = Some NA
      /\ DF.pivot_cell p (Str "Dec") (Num 2021) = Some NA
      /\ DF.p_columns q = [Num 2020]
      /\ DF.p_cells q = [Num 1] :: repeat [NA] 11.
Proof.
  split; [reflexivity |]. split; [reflexivity |].
  eexists. eexists.
  split; [vm_compute; reflexivity |].
  split; [vm_compute; reflexivity |].
  repeat split.
Qed.

(** ** Sampling *)

Lemma sample_too_large draws n df :
  List.length (data df) < n ->
  DF.sample draws n df
  = Raise (ValueError "Cannot take a larger sample than population when 'replace=False'").
Proof.
  intros H. unfold DF.sample.
  apply Nat.ltb_lt in H. now rewrite H.
Qed.

Lemma sample_fits draws n df :
  n <= List.length (data df) -> exists out, DF.sample draws n df = Ok out.
Proof.
  intros H. unfold DF.sample.
  destruct (List.length (data df) <? n) eqn:E.
  - apply Nat.ltb_lt in E. lia.
  - eexists. reflexivity.
Qed.

(** The sample behind the observer bar chart asks for no more rows than
    the frame it samples has. *)
Lemma sb_data_succeeds draws df : exists out, sb_data draws df = Ok out.
Proof.
  unfold sb_data. apply sample_fits. unfold DF.len. apply Nat.le_min_r.
Qed.

(** The temperature sample fails as soon as the frame has at most 1000
    rows and [dropna] removes one of them. *)
Lemma temp_df_raises draws df sub :
  DF.getitems df ["Temperature"; "Common_Name"] = Ok sub ->
  DF.len df <= 1000 ->
  DF.len (DF.dropna sub) < DF.len df ->
  temp_df draws df
  = Raise (ValueError "Cannot take a larger sample than population when 'replace=False'").
Proof.
  intros Hs Hle Hlt. unfold temp_df. rewrite Hs. unfold rbind.
  apply sample_too_large. rewrite Nat.min_r by exact Hle. exact Hlt.
Qed.

(** C7. On the four sample records, one of which has no temperature, the
    temperature sample raises ValueError whatever the random draws: the
    column pair keeps three rows after [dropna], and the sample asks for
    [min(1000, 4) = 4] rows, the length of the frame before the drop. The
    sample of the observer chart, which sizes itself by the frame it
    samples, succeeds on the same frame. *)
Theorem C7_temp_sample_raises draws :
  DF.empty sample_frame = false
  /\ (exists sub,
        DF.getitems sample_frame ["Temperature"; "Common_Name"] = Ok sub
        /\ DF.len sub = 4 /\ DF.len (DF.dropna sub) = 3)
  /\ Nat.min 1000 (DF.len sample_frame) = 4
  /\ temp_df draws sample_frame
     = Raise (ValueError "Cannot take a larger sample than population when 'replace=False'")
  /\ exists out, sb_data draws sample_frame = Ok out.
Proof.
  split; [reflexivity |].
  split; [eexists; split; [vm_compute; reflexivity | split; reflexivity] |].
  split; [reflexivity |].
  split; [| apply sb_data_succeeds].
  eapply temp_df_raises; [vm_compute; reflexivity | |]; vm_compute; lia.
Qed.

(** ** The watch-list block *)

Lemma rmap_gt_num (s : series) :
  forallb numeric s = true ->
  rmap (DF.gt_num 0) s = Ok (map positive s).
Proof.
  induction s as [| v s IH]; simpl; [reflexivity |].
  intros H. apply andb_true_iff in H as [Hv Hs].
  rewrite (IH Hs). destruct v; simpl in *; try discriminate; reflexivity.
Qed.

Lemma select_map_data df (f : list value -> bool) :
  data (DF.select df (map f (data df))) = filter f (data df).
Proof. unfold DF.select. simpl. apply pick_map_filter. Qed.

Lemma empty_filter df (f : list value -> bool) :
  DF.empty (DF.select df (map f (data df))) = negb (existsb f (data df)).
Proof.
  unfold DF.empty. rewrite select_map_data.
  induction (data df) as [| r rows IH]; simpl; [reflexivity |].
  destruct (f r); simpl; [reflexivity | exact IH].
Qed.

Lemma positive_ne_num v : positive v = true -> DF.ne_num 0 v = true.
Proof.
  destruct v; simpl; try discriminate. intros H.
  apply negb_true_iff, Z.eqb_neq. apply Z.gtb_lt in H. lia.
Qed.

Lemma negative_ne_num v : negative v = true -> DF.ne_num 0 v = true.
Proof.
  destruct v; simpl; try discriminate. intros H.
  apply negb_true_iff, Z.eqb_neq. apply Z.ltb_lt in H. lia.
Qed.

Lemma forallb_map_comp {A B : Type} (f : B -> bool) (g : A -> B) (l : list A) :
  forallb f (map g l) = forallb (fun a => f (g a)) l.
Proof. induction l as [| a l IH]; simpl; [| rewrite IH]; reflexivity. Qed.

(** What the block computes, on a frame with a numeric status column at
    position [i] and the species column at position [j]. *)
Lemma risk_block_run df i j :
  DF.col_index "PIF_Watchlist_Status" (columns df) = Some i ->
  DF.col_index "Common_Name" (columns df) = Some j ->
  forallb (fun row => numeric (DF.cell i row)) (data df) = true ->
  risk_block df
  = Ok (if existsb (fun row => positive (DF.cell i row)) (data df)
        then RiskChart
               (counts_frame
                  (DF.value_counts
                     (map (DF.cell j)
                        (filter (fun row => DF.ne_num 0 (DF.cell i row))
                           (data df)))))
        else RiskInfo no_at_risk).
Proof.
  intros Hi Hj Hnum. unfold risk_block, DF.has_column. rewrite Hi.
  rewrite (getitem_col _ _ _ Hi). unfold rbind at 1.
  rewrite rmap_gt_num by (now rewrite forallb_map_comp).
  unfold rbind at 1. rewrite !map_map, empty_filter, negb_involutive.
  destruct (existsb _ (data df)); [| reflexivity].
  unfold rbind at 1.
  rewrite (getitem_col (DF.select df _) "Common_Name" j) by exact Hj.
  rewrite map_map, select_map_data. reflexivity.
Qed.


(** * Further properties of the script *)

(** ** The order of labels *)

Lemma string_leb_trans s1 s2 s3 :
  String.leb s1 s2 = true -> String.leb s2 s3 = true -> String.leb s1 s3 = true.
Proof.
  unfold String.leb. revert s2 s3.
  induction s1 as [| c1 s1 IH]; intros [| c2 s2] [| c3 s3]; simpl;
    try congruence.
  unfold Ascii.compare.
  destruct (N.compare_spec (N_of_ascii c1) (N_of_ascii c2)) as [E12 | L12 | G12],
           (N.compare_spec (N_of_ascii c2) (N_of_ascii c3)) as [E23 | L23 | G23],
           (N.compare_spec (N_of_ascii c1) (N_of_ascii c3)) as [E13 | L13 | G13];
    try congruence; try lia.
  apply IH.
Qed.

Lemma value_leb_total a b : DF.value_leb a b = true \/ DF.value_leb b a = true.
Proof.
  destruct a, b; simpl; auto.
  - apply String.leb_total.
  - destruct (Z.leb_spec z z0); [now left | right; apply Z.leb_le; lia].
  - destruct (Z.leb_spec t t0); [now left | right; apply Z.leb_le; lia].
Qed.

Lemma value_leb_trans a b c :
  DF.value_leb a b = true -> DF.value_leb b c = true -> DF.value_leb a c = true.
Proof.
  destruct a, b, c; simpl; try congruence.
  - apply string_leb_trans.
  - rewrite !Z.leb_le. lia.
  - rewrite !Z.leb_le. lia.
Qed.

Lemma value_leb_antisym a b :
  DF.value_leb a b = true -> DF.value_leb b a = true -> a = b.
Proof.
  destruct a, b; simpl; try congruence.
  - intros H1 H2. f_equal. now apply String.leb_antisym.
  - rewrite !Z.leb_le. intros. f_equal. lia.
  - rewrite !Z.leb_le. intros. f_equal. lia.
Qed.

Lemma value_eqb_eq a b : value_eqb a b = true <-> a = b.
Proof. unfold value_eqb. destruct (value_eq_dec a b); split; congruence. Qed.

Lemma value_eqb_refl a : value_eqb a a = true.
Proof. now apply value_eqb_eq. Qed.

Lemma value_leb_refl a : DF.value_leb a a = true.
Proof. destruct (value_leb_total a a); assumption. Qed.

Lemma key_leb_total k1 k2 : DF.key_leb k1 k2 = true \/ DF.key_leb k2 k1 = true.
Proof.
  revert k2. induction k1 as [| a k1 IH]; intros [| b k2]; simpl; auto.
  destruct (value_eqb a b) eqn:E.
  - apply value_eqb_eq in E. subst. rewrite value_eqb_refl. apply IH.
  - destruct (value_eqb b a) eqn:E'.
    + apply value_eqb_eq in E'. subst. rewrite value_eqb_refl in E. discriminate.
    + apply value_leb_total.
Qed.

Lemma key_leb_antisym k1 k2 :
  DF.key_leb k1 k2 = true -> DF.key_leb k2 k1 = true -> k1 = k2.
Proof.
  revert k2. induction k1 as [| a k1 IH]; intros [| b k2]; simpl;
    try congruence.
  destruct (value_eqb a b) eqn:E.
  - apply value_eqb_eq in E. subst. rewrite value_eqb_refl.
    intros H1 H2. f_equal. now apply IH.
  - destruct (value_eqb b a) eqn:E'.
    + apply value_eqb_eq in E'. subst. rewrite value_eqb_refl in E. discriminate.
    + intros H1 H2. pose proof (value_leb_antisym _ _ H1 H2). subst.
      rewrite value_eqb_refl in E. discriminate.
Qed.

Lemma key_leb_trans k1 k2 k3 :
  DF.key_leb k1 k2 = true -> DF.key_leb k2 k3 = true -> DF.key_leb k1 k3 = true.
Proof.
  revert k2 k3. induction k1 as [| a k1 IH]; intros [| b k2] [| c k3]; simpl;
    try congruence.
  destruct (value_eqb a b) eqn:Eab.
  - apply value_eqb_eq in Eab. subst b.
    destruct (value_eqb a c) eqn:Eac; [apply IH | auto].
  - destruct (value_eqb b c) eqn:Ebc.
    + apply value_eqb_eq in Ebc. subst c. rewrite Eab. auto.
    + intros H1 H2. destruct (value_eqb a c) eqn:Eac.
      * apply value_eqb_eq in Eac. subst c.
        pose proof (value_leb_antisym _ _ H1 H2). subst.
        rewrite value_eqb_refl in Eab. discriminate.
      * now apply (value_leb_trans a b c).
Qed.

(** ** The sidebar choices *)

Lemma dropna_unique_In s v : In v (dropna_unique s) <-> In v s /\ v <> NA.
Proof. unfold dropna_unique. now rewrite uniq_In, notna_In. Qed.

Lemma dropna_unique_NoDup s : NoDup (dropna_unique s).
Proof. apply uniq_NoDup. Qed.

Lemma same_kind_refl a : same_kind a a = true.
Proof. now destruct a. Qed.

(** The test [sorted] makes on the distinct values is the test on the
    column. *)
Lemma py_sorted_homogeneous s :
  py_sorted (dropna_unique s)
  = if homogeneous s then Ok (DF.isort DF.value_leb (dropna_unique s))
    else Raise (TypeError "'<' not supported between instances").
Proof.
  unfold homogeneous, dropna_unique.
  destruct (filter notna s) as [| a l]; [reflexivity |].
  cbn [DF.uniq py_sorted].
  replace (forallb (same_kind a)
             (filter (fun b => negb (DF.eqb_of value_eq_dec b a))
                (DF.uniq value_eq_dec l)))
    with (forallb (same_kind a) l); [reflexivity |].
  apply eq_true_iff_eq. rewrite !forallb_forall. split.
  - intros H x Hx. apply filter_In in Hx as [Hx _].
    apply H. now apply uniq_In in Hx.
  - intros H x Hx. destruct (value_eq_dec x a) as [-> | Hne];
      [apply same_kind_refl |].
    apply H, filter_In. split; [now apply uniq_In |].
    apply negb_true_iff, not_true_is_false. now rewrite eqb_of_true.
Qed.

(** X1. The choices of a sidebar selector, for a column whose non-null
    cells are of one kind: in ascending order, without repetition, and
    exactly the non-null values of the column. A column that mixes kinds
    makes [sorted] raise TypeError. *)
Theorem options_sorted_distinct df c s :
  DF.getitem df c = Ok s ->
  (homogeneous s = true ->
   exists l, options df c = Ok l
             /\ ascending l /\ NoDup l
             /\ forall v, In v l <-> In v s /\ v <> NA)
  /\ (homogeneous s = false ->
      options df c = Raise (TypeError "'<' not supported between instances")).
Proof.
  intros Hs. unfold options. rewrite Hs. unfold rbind.
  rewrite py_sorted_homogeneous. split; intros ->; [| reflexivity].
  eexists. split; [reflexivity |].
  pose proof (isort_perm DF.value_leb (dropna_unique s)) as Hp.
  split; [apply isort_sorted; [apply value_leb_total | apply value_leb_trans] |].
  split.
  - eapply Permutation_NoDup; [symmetry; exact Hp | apply dropna_unique_NoDup].
  - intros v. rewrite <- dropna_unique_In. split; intros H.
    + now apply (Permutation_in _ Hp).
    + now apply (Permutation_in _ (Permutation_sym Hp)).
Qed.

Lemma options_sorted_distinct_witness :
  options sample_frame "Observer" = Ok [Str "Ann"; Str "Bob"].
Proof.
  destruct (options_sorted_distinct sample_frame "Observer"
              [Str "Ann"; Str "Bob"; Str "Ann"; Str "Ann"]) as [H _].
  - vm_compute. reflexivity.
  - destruct (H eq_refl) as (l & E & _). rewrite E. f_equal.
    vm_compute in E. now inversion E.
Defined.

Lemma options_members df c s l :
  DF.getitem df c = Ok s -> options df c = Ok l ->
  forall v, In v l <-> In v s /\ v <> NA.
Proof.
  intros Hs. unfold options. rewrite Hs. unfold rbind.
  rewrite py_sorted_homogeneous. destruct (homogeneous s); [| discriminate].
  intros E v. inversion E; subst. rewrite <- dropna_unique_In.
  pose proof (isort_perm DF.value_leb (dropna_unique s)) as Hp. split; intros H.
  - now apply (Permutation_in _ Hp).
  - now apply (Permutation_in _ (Permutation_sym Hp)).
Qed.

Lemma existsb_value_eqb v l : existsb (value_eqb v) l = true <-> In v l.
Proof.
  rewrite existsb_exists. split.
  - intros (x & Hx & E). apply value_eqb_eq in E. now subst.
  - intros H. exists v. split; [exact H | apply value_eqb_refl].
Qed.

(** ** The filter *)

Lemma filtered_loaded v (f : list value -> bool) :
  loaded v ->
  loaded (mkDF loaded_columns (seq 0 (List.length (filter f (data v))))
            (filter f (data v))).
Proof.
  intros Hl. apply loaded_intro; [reflexivity |].
  apply forallb_filter. now apply loaded_rows_of.
Qed.

(** X2. On a loaded frame [apply_filters] succeeds and allocates a new
    frame with the same columns, whose rows are exactly the rows of the
    source that pass the four predicates, in the order of the source,
    labelled from 0; the result is again a loaded frame. *)
Theorem apply_filters_exact h df v observers plots species date_range :
  nth_error h df = Some v -> loaded v ->
  exists out h' fv,
    apply_filters df observers plots species date_range h = (Ok out, h')
    /\ nth_error h' out = Some fv
    /\ List.length h <= out
    /\ columns fv = columns v
    /\ data fv = filter (keeps observers plots species date_range) (data v)
    /\ index fv = seq 0 (DF.len fv)
    /\ DF.len fv <= DF.len v
    /\ loaded fv.
Proof.
  intros Hdf Hl.
  destruct (apply_filters_run h df v observers plots species date_range Hdf Hl)
    as (out & h' & E & _ & Hout).
  exists out, h'. eexists. split; [exact E |]. split; [exact Hout |].
  split; [apply (apply_filters_fresh _ _ _ _ _ _ _ _ E) |].
  split; [now rewrite (loaded_columns_of _ Hl) |].
  split; [reflexivity |]. split; [reflexivity |].
  split; [apply filter_length_le | now apply filtered_loaded].
Qed.

Lemma apply_filters_exact_witness :
  exists out h' fv,
    apply_filters 0 [Str "Ann"] [] [] (DateList [18262; 18300]%Z) sample_store
    = (Ok out, h')
    /\ nth_error h' out = Some fv
    /\ data fv
       = filter (keeps [Str "Ann"] [] [] (DateList [18262; 18300]%Z))
           (data sample_frame).
Proof.
  destruct (apply_filters_exact sample_store 0 sample_frame
              [Str "Ann"] [] [] (DateList [18262; 18300]%Z))
    as (out & h' & fv & E & Hout & _ & _ & Hd & _).
  - reflexivity.
  - vm_compute. reflexivity.
  - exists out, h', fv. repeat split; assumption.
Defined.

(** X3. Selecting every choice a selector offers is not the same as
    selecting none: with all observers of a loaded frame selected (and at
    least one on offer) the records without an observer are dropped, and
    only those. *)
Theorem select_all_drops_nulls h df v obs plots species date_range :
  nth_error h df = Some v -> loaded v ->
  options v "Observer" = Ok obs -> obs <> [] ->
  exists out h' fv,
    apply_filters df obs plots species date_range h = (Ok out, h')
    /\ nth_error h' out = Some fv
    /\ data fv
       = filter (fun row => notna (DF.cell observer_pos row)
                            && keeps [] plots species date_range row)
           (data v).
Proof.
  intros Hdf Hl Hopt Hne.
  destruct (apply_filters_run h df v obs plots species date_range Hdf Hl)
    as (out & h' & E & _ & Hout).
  exists out, h'. eexists. split; [exact E |]. split; [exact Hout |].
  cbn [data]. apply filter_ext_in. intros row Hrow.
  assert (Hcol : DF.getitem v "Observer"
                 = Ok (map (DF.cell observer_pos) (data v))).
  { apply getitem_col. now rewrite (loaded_columns_of _ Hl). }
  pose proof (options_members _ _ _ _ Hcol Hopt (DF.cell observer_pos row)) as Hm.
  unfold keeps. change (selected observer_pos [] row) with true.
  cbn [andb]. rewrite <- !andb_assoc. f_equal.
  unfold selected. destruct obs as [| o obs]; [congruence |]. cbn [truthy].
  apply eq_true_iff_eq. rewrite existsb_value_eqb, Hm. unfold notna.
  split.
  - intros [_ Hna]. destruct (DF.cell observer_pos row); [congruence | | |];
      reflexivity.
  - intros Hna. split; [now apply in_map |].
    intros E0. rewrite E0 in Hna. discriminate.
Qed.

Lemma select_all_drops_nulls_witness :
  exists out h' fv,
    apply_filters 0 [Str "Ann"; Str "Bob"] [] [] (DateValue 0) sample_store
    = (Ok out, h')
    /\ nth_error h' out = Some fv
    /\ data fv
       = filter (fun row => notna (DF.cell observer_pos row)
                            && keeps [] [] [] (DateValue 0) row)
           (data sample_frame).
Proof.
  apply (select_all_drops_nulls sample_store 0 sample_frame).
  - reflexivity.
  - vm_compute. reflexivity.
  - vm_compute. reflexivity.
  - discriminate.
Defined.

Lemma apply_filters_frame h df v o p s dr :
  nth_error h df = Some v -> loaded v ->
  exists out h',
    apply_filters df o p s dr h = (Ok out, h')
    /\ nth_error h' out
       = Some (mkDF loaded_columns
                 (seq 0 (List.length (filter (keeps o p s dr) (data v))))
                 (filter (keeps o p s dr) (data v))).
Proof.
  intros Hdf Hl.
  destruct (apply_filters_run h df v o p s dr Hdf Hl) as (out & h' & E & _ & Hout).
  now exists out, h'.
Qed.

Lemma two_passes h df v o1 p1 s1 dr1 o2 p2 s2 dr2 :
  nth_error h df = Some v -> loaded v ->
  exists out1 h1 out2 h2,
    apply_filters df o1 p1 s1 dr1 h = (Ok out1, h1)
    /\ apply_filters out1 o2 p2 s2 dr2 h1 = (Ok out2, h2)
    /\ nth_error h2 out2
       = Some (mkDF loaded_columns
                 (seq 0 (List.length
                           (filter (fun row => keeps o1 p1 s1 dr1 row
                                               && keeps o2 p2 s2 dr2 row)
                              (data v))))
                 (filter (fun row => keeps o1 p1 s1 dr1 row
                                     && keeps o2 p2 s2 dr2 row)
                    (data v))).
Proof.
  intros Hdf Hl.
  destruct (apply_filters_frame h df v o1 p1 s1 dr1 Hdf Hl)
    as (out1 & h1 & E1 & Hout1).
  destruct (apply_filters_frame h1 out1 _ o2 p2 s2 dr2 Hout1
              (filtered_loaded v _ Hl)) as (out2 & h2 & E2 & Hout2).
  exists out1, h1, out2, h2. split; [exact E1 |]. split; [exact E2 |].
  cbn [data] in Hout2. now rewrite filter_andb.
Qed.

(** X4. Filtering the result of a filter: the second pass keeps the rows
    that pass both sets of predicates, and the two passes can be made in
    either order, the frame obtained is the same. *)
Theorem apply_filters_two_passes h df v o1 p1 s1 dr1 o2 p2 s2 dr2 :
  nth_error h df = Some v -> loaded v ->
  exists fv,
    data fv = filter (fun row => keeps o1 p1 s1 dr1 row
                                 && keeps o2 p2 s2 dr2 row) (data v)
    /\ (exists out1 h1 out2 h2,
          apply_filters df o1 p1 s1 dr1 h = (Ok out1, h1)
          /\ apply_filters out1 o2 p2 s2 dr2 h1 = (Ok out2, h2)
          /\ nth_error h2 out2 = Some fv)
    /\ (exists out1 h1 out2 h2,
          apply_filters df o2 p2 s2 dr2 h = (Ok out1, h1)
          /\ apply_filters out1 o1 p1 s1 dr1 h1 = (Ok out2, h2)
          /\ nth_error h2 out2 = Some fv).
Proof.
  intros Hdf Hl.
  destruct (two_passes h df v o1 p1 s1 dr1 o2 p2 s2 dr2 Hdf Hl)
    as (a1 & g1 & a2 & g2 & Ea1 & Ea2 & Ha).
  destruct (two_passes h df v o2 p2 s2 dr2 o1 p1 s1 dr1 Hdf Hl)
    as (b1 & k1 & b2 & k2 & Eb1 & Eb2 & Hb).
  exists (mkDF loaded_columns
            (seq 0 (List.length
                      (filter (fun row => keeps o1 p1 s1 dr1 row
                                          && keeps o2 p2 s2 dr2 row)
                         (data v))))
            (filter (fun row => keeps o1 p1 s1 dr1 row
                                && keeps o2 p2 s2 dr2 row)
               (data v))).
  split; [| split].
  - reflexivity.
  - exists a1, g1, a2, g2. split; [exact Ea1 |]. split; [exact Ea2 | exact Ha].
  - exists b1, k1, b2, k2. split; [exact Eb1 |]. split; [exact Eb2 |].
    rewrite Hb.
    rewrite (filter_ext (fun row => keeps o2 p2 s2 dr2 row && keeps o1 p1 s1 dr1 row)
               (fun row => keeps o1 p1 s1 dr1 row && keeps o2 p2 s2 dr2 row));
      [reflexivity |].
    intros row. apply andb_comm.
Qed.

Lemma apply_filters_two_passes_witness :
  exists fv,
    data fv = filter (fun row => keeps [Str "Ann"] [] [] (DateValue 0) row
                                 && keeps [] [Str "B"] [] (DateValue 0) row)
                (data sample_frame)
    /\ (exists out1 h1 out2 h2,
          apply_filters 0 [Str "Ann"] [] [] (DateValue 0) sample_store
          = (Ok out1, h1)
          /\ apply_filters out1 [] [Str "B"] [] (DateValue 0) h1 = (Ok out2, h2)
          /\ nth_error h2 out2 = Some fv)
    /\ (exists out1 h1 out2 h2,
          apply_filters 0 [] [Str "B"] [] (DateValue 0) sample_store
          = (Ok out1, h1)
          /\ apply_filters out1 [Str "Ann"] [] [] (DateValue 0) h1 = (Ok out2, h2)
          /\ nth_error h2 out2 = Some fv).
Proof.
  apply (apply_filters_two_passes sample_store 0 sample_frame).
  - reflexivity.
  - vm_compute. reflexivity.
Defined.

Lemma filter_length_imp {A : Type} (f g : A -> bool) (l : list A) :
  (forall a, f a = true -> g a = true) ->
  List.length (filter f l) <= List.length (filter g l).
Proof.
  intros Himp. induction l as [| a l IH]; simpl; [lia |].
  destruct (f a) eqn:F.
  - rewrite (Himp a F). simpl. lia.
  - destruct (g a); simpl; lia.
Qed.

Lemma selected_widen i sel sel' row :
  sel <> [] -> incl sel sel' ->
  selected i sel row = true -> selected i sel' row = true.
Proof.
  intros Hne Hincl. unfold selected.
  destruct sel as [| a sel]; [congruence |]. cbn [truthy].
  destruct (truthy sel'); [| reflexivity].
  rewrite !existsb_value_eqb. apply Hincl.
Qed.

(** X5. Widening a selection that is not empty never removes a record:
    with more observers, plots and species selected, every row the filter
    kept is still kept. *)
Theorem apply_filters_monotone h df v o p s o' p' s' dr :
  nth_error h df = Some v -> loaded v ->
  o <> [] -> p <> [] -> s <> [] ->
  incl o o' -> incl p p' -> incl s s' ->
  exists out h1 fv out' h1' fv',
    apply_filters df o p s dr h = (Ok out, h1)
    /\ nth_error h1 out = Some fv
    /\ apply_filters df o' p' s' dr h = (Ok out', h1')
    /\ nth_error h1' out' = Some fv'
    /\ incl (data fv) (data fv')
    /\ DF.len fv <= DF.len fv'.
Proof.
  intros Hdf Hl Ho Hp Hs Io Ip Is.
  destruct (apply_filters_frame h df v o p s dr Hdf Hl) as (out & h1 & E & Hout).
  destruct (apply_filters_frame h df v o' p' s' dr Hdf Hl)
    as (out' & h1' & E' & Hout').
  assert (Himp : forall row, keeps o p s dr row = true ->
                             keeps o' p' s' dr row = true).
  { intros row. unfold keeps. rewrite !andb_true_iff.
    intros [[[H1 H2] H3] H4].
    repeat split; [eapply selected_widen; [exact Ho | exact Io | exact H1]
                  | eapply selected_widen; [exact Hp | exact Ip | exact H2]
                  | eapply selected_widen; [exact Hs | exact Is | exact H3]
                  | exact H4]. }
  exists out, h1. eexists. exists out', h1'. eexists.
  split; [exact E |]. split; [exact Hout |].
  split; [exact E' |]. split; [exact Hout' |].
  unfold DF.len. cbn [data]. split.
  - intros row Hrow. apply filter_In in Hrow as [Hin Hk].
    apply filter_In. split; [exact Hin | now apply Himp].
  - now apply filter_length_imp.
Qed.

Lemma apply_filters_monotone_witness :
  exists out h1 fv out' h1' fv',
    apply_filters 0 [Str "Bob"] [Str "A"] [Str "Wren"] (DateValue 0) sample_store
    = (Ok out, h1)
    /\ nth_error h1 out = Some fv
    /\ apply_filters 0 [Str "Bob"; Str "Ann"] [Str "A"; Str "B"]
         [Str "Wren"; Str "Robin"] (DateValue 0) sample_store
       = (Ok out', h1')
    /\ nth_error h1' out' = Some fv'
    /\ incl (data fv) (data fv')
    /\ DF.len fv <= DF.len fv'.
Proof.
  apply (apply_filters_monotone sample_store 0 sample_frame).
  - reflexivity.
  - vm_compute. reflexivity.
  - discriminate.
  - discriminate.
  - discriminate.
  - intros x [<- | []]. now left.
  - intros x [<- | []]. now left.
  - intros x [<- | []]. now left.
Defined.

Lemma bind_raise {A B : Type} (m : M A) (k : A -> M B) h e h1 :
  m h = (Raise e, h1) -> bind m k h = (Raise e, h1).
Proof. intros H. unfold bind. now rewrite H. Qed.

Lemma getitem_missing h r v c :
  nth_error h r = Some v -> DF.col_index c (columns v) = None ->
  getitem r c h = (Raise (KeyError c), h).
Proof.
  intros Hr Hc. unfold getitem.
  rewrite (bind_ok _ _ _ _ _ (deref_run _ _ _ Hr)).
  unfold lift, DF.getitem. now rewrite Hc.
Qed.

(** X6. A selection on a column the frame does not have is a KeyError:
    with observers selected and no Observer column, [apply_filters] raises
    KeyError for that label, whatever the other inputs; the copy it made
    is all it leaves in the store. With no observer selected the missing
    column goes unnoticed. *)
Theorem apply_filters_missing_column h df v observers plots species date_range :
  nth_error h df = Some v ->
  DF.col_index "Observer" (columns v) = None ->
  (observers <> [] ->
   apply_filters df observers plots species date_range h
   = (Raise (KeyError "Observer"), h ++ [v]))
  /\ exists out h',
       apply_filters df [] [] [] (DateValue 0) h = (Ok out, h')
       /\ nth_error h' out = Some (DF.reset_index v).
Proof.
  intros Hdf Hc. split.
  - intros Hne. unfold apply_filters.
    rewrite (bind_ok _ _ _ _ _ (copy_run _ _ _ Hdf)).
    destruct observers as [| o observers]; [congruence |]. cbn [truthy].
    apply bind_raise, bind_raise.
    apply (getitem_missing _ _ v); [apply nth_error_last | exact Hc].
  - unfold apply_filters.
    rewrite (bind_ok _ _ _ _ _ (copy_run _ _ _ Hdf)). cbn [truthy list_of_two].
    unfold bind at 1 2 3 4, ret.
    rewrite (reset_index_drop_run _ _ v (nth_error_last h v)).
    eexists. eexists. split; [reflexivity |].
    rewrite <- (nth_error_last (h ++ [v]) (DF.reset_index v)).
    reflexivity.
Qed.

Lemma apply_filters_missing_column_witness :
  apply_filters 0 [Str "Ann"] [] [] (DateValue 0)
    [mkDF ["Plot_Name"; "Common_Name"] [0] [[Str "A"; Str "Robin"]]]
  = (Raise (KeyError "Observer"),
     [mkDF ["Plot_Name"; "Common_Name"] [0] [[Str "A"; Str "Robin"]]]
     ++ [mkDF ["Plot_Name"; "Common_Name"] [0] [[Str "A"; Str "Robin"]]]).
Proof.
  destruct (apply_filters_missing_column
              [mkDF ["Plot_Name"; "Common_Name"] [0] [[Str "A"; Str "Robin"]]]
              0 (mkDF ["Plot_Name"; "Common_Name"] [0] [[Str "A"; Str "Robin"]])
              [Str "Ann"] [] [] (DateValue 0)) as [H _].
  - reflexivity.
  - reflexivity.
  - apply H. discriminate.
Defined.

(** ** Loading and the store *)

(** Reading a column and assigning one touch nothing but the last frame of
    the store. *)
Lemma last_only_getitem (r : ref) c h x :
  exists res x', getitem r c (h ++ [x]) = (res, h ++ [x']).
Proof.
  unfold getitem, bind, deref, lift.
  destruct (nth_error (h ++ [x]) r); eexists; eexists; reflexivity.
Qed.

Lemma last_only_setitem (h0 : store) c s h x :
  List.length h = List.length h0 ->
  exists res x', setitem (List.length h0) c s (h ++ [x]) = (res, h ++ [x']).
Proof.
  intros L. unfold setitem, bind, deref, lift, assign. rewrite <- L.
  rewrite nth_error_last.
  destruct (DF.setitem x c s) as [v' | e]; [| eexists; eexists; reflexivity].
  rewrite length_app. simpl.
  replace (List.length h <? List.length h + 1) with true
    by (symmetry; apply Nat.ltb_lt; lia).
  rewrite update_last. eexists. eexists. reflexivity.
Qed.

Lemma load_data_last_only parse table h :
  exists r x, load_data parse (Ok table) h = (r, h ++ [x]).
Proof.
  unfold load_data. rewrite (bind_ok _ _ _ _ _ (read_sql_run table h)).
  set (x0 := mkDF select_columns (seq 0 (List.length table)) table).
  assert (G : forall (k : store) (x : DataFrame),
             List.length k = List.length h ->
             exists r x',
               (bind (getitem (List.length h) "Date") (fun s =>
                bind (lift (parse DF.ErrorsCoerce s)) (fun d =>
                bind (setitem (List.length h) "Date" d) (fun _ =>
                bind (getitem (List.length h) "Date") (fun s =>
                bind (lift (DF.dt_year s)) (fun y =>
                bind (setitem (List.length h) "Year" y) (fun _ =>
                bind (getitem (List.length h) "Date") (fun s =>
                bind (lift (DF.dt_strftime_b s)) (fun m =>
                bind (setitem (List.length h) "Month" m) (fun _ =>
                ret (List.length h))))))))))) (k ++ [x])
               = (r, k ++ [x'])).
  { intros k x L.
    destruct (last_only_getitem (List.length h) "Date" k x) as (r1 & x1 & E1).
    unfold bind at 1. rewrite E1. destruct r1 as [s1 | e]; [| eauto].
    unfold bind at 1, lift at 1.
    destruct (parse DF.ErrorsCoerce s1) as [d | e]; [| eauto].
    destruct (last_only_setitem h "Date" d k x1 L) as (r2 & x2 & E2).
    unfold bind at 1. rewrite E2. destruct r2 as [[] | e]; [| eauto].
    destruct (last_only_getitem (List.length h) "Date" k x2) as (r3 & x3 & E3).
    unfold bind at 1. rewrite E3. destruct r3 as [s3 | e]; [| eauto].
    unfold bind at 1, lift at 1.
    destruct (DF.dt_year s3) as [y | e]; [| eauto].
    destruct (last_only_setitem h "Year" y k x3 L) as (r4 & x4 & E4).
    unfold bind at 1. rewrite E4. destruct r4 as [[] | e]; [| eauto].
    destruct (last_only_getitem (List.length h) "Date" k x4) as (r5 & x5 & E5).
    unfold bind at 1. rewrite E5. destruct r5 as [s5 | e]; [| eauto].
    unfold bind at 1, lift at 1.
    destruct (DF.dt_strftime_b s5) as [m | e]; [| eauto].
    destruct (last_only_setitem h "Month" m k x5 L) as (r6 & x6 & E6).
    unfold bind at 1. rewrite E6. destruct r6 as [[] | e]; [| eauto].
    unfold ret. eauto. }
  exact (G h x0 eq_refl).
Qed.

(** X7. Whatever the database answers, and whatever the store holds,
    [load_data] leaves every frame that was in the store as it was: its
    in-place column assignments reach only the frame it has just read.
    When the database fails the exception goes through and nothing is
    allocated; otherwise exactly one frame is added. *)
Theorem load_data_preserves_store parse database h :
  exists r tl,
    load_data parse database h = (r, h ++ tl)
    /\ (forall i v, nth_error h i = Some v -> nth_error (h ++ tl) i = Some v)
    /\ match database with
       | Raise e => r = Raise e /\ tl = []
       | Ok _ => List.length tl = 1
       end.
Proof.
  assert (P : forall tl i v, nth_error h i = Some v ->
                             nth_error (h ++ tl) i = Some v).
  { intros tl i v H. rewrite nth_error_app1; [exact H |].
    apply nth_error_Some. congruence. }
  destruct database as [table | e].
  - destruct (load_data_last_only parse table h) as (r & x & E).
    exists r, [x]. split; [exact E |]. split; [apply P | reflexivity].
  - exists (Raise e), []. rewrite app_nil_r.
    split; [reflexivity |]. split; [auto | now split].
Qed.

(** ** Counts and the indicators *)

Lemma total_map_add {A : Type} (f g : A -> nat) (l : list A) :
  total (map (fun a => f a + g a) l) = total (map f l) + total (map g l).
Proof. induction l as [| a l IH]; simpl; [reflexivity | rewrite IH; lia]. Qed.

Lemma total_perm l l' : Permutation l l' -> total l = total l'.
Proof. induction 1; simpl; lia. Qed.

Lemma total_app l l' : total (l ++ l') = total l + total l'.
Proof. induction l as [| a l IH]; simpl; [reflexivity | rewrite IH; lia]. Qed.

Section CountFacts.

Context {A : Type} (eq_dec : forall a b : A, {a = b} + {a <> b}).

Lemma total_indicator a (u : list A) :
  NoDup u -> In a u ->
  total (map (fun b => if eq_dec a b then 1 else 0) u) = 1.
Proof.
  induction 1 as [| x u Hx Hu IH]; simpl; [contradiction |].
  intros [-> | Hin].
  - destruct (eq_dec a a) as [_ | N]; [| congruence].
    assert (Z0 : total (map (fun b => if eq_dec a b then 1 else 0) u) = 0).
    { clear IH Hu. induction u as [| y u IHu]; simpl; [reflexivity |].
      destruct (eq_dec a y) as [-> | _]; [elim Hx; now left |].
      apply IHu. intros H. apply Hx. now right. }
    lia.
  - destruct (eq_dec a x) as [-> | _]; [contradiction |]. now apply IH.
Qed.

(** The occurrences of the members of a duplicate-free list that covers
    [l] add up to the length of [l]. *)
Lemma total_count_occ (u l : list A) :
  NoDup u -> incl l u ->
  total (map (count_occ eq_dec l) u) = List.length l.
Proof.
  intros Hu. induction l as [| a l IH]; intros Hincl.
  - simpl. clear Hu Hincl. induction u as [| x u IHu]; simpl; auto.
  - rewrite (map_ext (count_occ eq_dec (a :: l))
               (fun b => (if eq_dec a b then 1 else 0) + count_occ eq_dec l b)).
    + rewrite total_map_add, total_indicator, IH; [reflexivity | | exact Hu |].
      * intros x Hx. apply Hincl. now right.
      * apply Hincl. now left.
    + intros b. simpl. destruct (eq_dec a b); reflexivity.
Qed.

Lemma uniq_length_le (l : list A) :
  List.length (DF.uniq eq_dec l) <= List.length l.
Proof.
  induction l as [| a l IH]; simpl; [lia |].
  pose proof (filter_length_le (fun b => negb (DF.eqb_of eq_dec b a))
                (DF.uniq eq_dec l)).
  lia.
Qed.

Lemma tally_total (l : list A) :
  total (map snd (DF.tally eq_dec l)) = List.length l.
Proof.
  unfold DF.tally. rewrite map_map. cbn [snd].
  apply total_count_occ; [apply uniq_NoDup |].
  intros x Hx. now apply uniq_In.
Qed.

Lemma tally_length (l : list A) :
  List.length (DF.tally eq_dec l) = List.length (DF.uniq eq_dec l).
Proof. unfold DF.tally. apply length_map. Qed.

End CountFacts.

Lemma value_counts_length s : List.length (DF.value_counts s) = nunique s.
Proof.
  unfold DF.value_counts, nunique, dropna_unique.
  rewrite (Permutation_length (sort_desc_perm _)). apply tally_length.
Qed.

Lemma value_counts_total s :
  total (map snd (DF.value_counts s)) = List.length (filter notna s).
Proof.
  unfold DF.value_counts.
  rewrite (total_perm _ _ (Permutation_map snd (sort_desc_perm _))).
  apply tally_total.
Qed.

Lemma nunique_le s : nunique s <= List.length s.
Proof.
  unfold nunique, dropna_unique.
  pose proof (uniq_length_le value_eq_dec (filter notna s)).
  pose proof (filter_length_le notna s). lia.
Qed.

Lemma nlargest_length n c :
  List.length (DF.nlargest n c) = Nat.min n (List.length c).
Proof.
  unfold DF.nlargest. rewrite length_firstn.
  now rewrite (Permutation_length (sort_desc_perm c)).
Qed.

Lemma nlargest_all n c :
  List.length c <= n -> Permutation (DF.nlargest n c) c.
Proof.
  intros H. unfold DF.nlargest.
  rewrite firstn_all2; [apply sort_desc_perm |].
  now rewrite (Permutation_length (sort_desc_perm c)).
Qed.

Lemma getitem_length df c s :
  DF.getitem df c = Ok s -> List.length s = DF.len df.
Proof.
  unfold DF.getitem. destruct (DF.col_index c (columns df)); [| discriminate].
  intros E. inversion E. apply length_map.
Qed.

(** X8. The indicators and the species tables agree: the pie data has
    [min(10, Unique Species)] rows and the bar data
    [min(15, Unique Species)]; neither indicator of distinct values
    exceeds Total Observations; and when the pie shows every species, its
    counts add up to the number of records that have a species. *)
Theorem metrics_match_tables df k s :
  metrics df = Ok k -> DF.getitem df "Common_Name" = Ok s ->
  exists c10 c15,
    pie_data df = Ok (counts_frame c10)
    /\ bar_df df = Ok (counts_frame c15)
    /\ List.length c10 = Nat.min 10 (unique_species k)
    /\ List.length c15 = Nat.min 15 (unique_species k)
    /\ unique_species k <= total_observations k
    /\ unique_plots k <= total_observations k
    /\ (unique_species k <= 10 ->
        total (map snd c10) = List.length (filter notna s))
    /\ (unique_species k <= 15 ->
        total (map snd c15) = List.length (filter notna s)).
Proof.
  intros Hm Hs. unfold metrics in Hm. rewrite Hs in Hm. unfold rbind in Hm.
  destruct (DF.getitem df "Plot_Name") as [p |] eqn:Hp; [| discriminate].
  inversion Hm; subst k; clear Hm. cbn [unique_species total_observations unique_plots].
  exists (DF.nlargest 10 (DF.value_counts s)), (DF.nlargest 15 (DF.value_counts s)).
  split; [now apply pie_data_run |]. split; [now apply bar_df_run |].
  rewrite !nlargest_length, value_counts_length.
  split; [reflexivity |]. split; [reflexivity |].
  split; [rewrite <- (getitem_length _ _ _ Hs); apply nunique_le |].
  split; [rewrite <- (getitem_length _ _ _ Hp); apply nunique_le |].
  split; intros H; rewrite <- value_counts_total;
    apply total_perm, Permutation_map, nlargest_all;
    now rewrite value_counts_length.
Qed.

Lemma metrics_match_tables_witness :
  exists c10 c15,
    pie_data sample_frame = Ok (counts_frame c10)
    /\ bar_df sample_frame = Ok (counts_frame c15)
    /\ List.length c10 = Nat.min 10 2
    /\ List.length c15 = Nat.min 15 2.
Proof.
  destruct (metrics_match_tables sample_frame (mkKpis 2 4 2)
              [Str "Robin"; Str "Wren"; Str "Robin"; Str "Robin"])
    as (c10 & c15 & P & B & L10 & L15 & _).
  - vm_compute. reflexivity.
  - vm_compute. reflexivity.
  - exists c10, c15. repeat split; assumption.
Defined.

(** ** Sampling without replacement *)

Lemma remove_nth_perm {A : Type} (r : nat) (l : list A) (d : A) :
  r < List.length l -> Permutation l (nth r l d :: DF.remove_nth r l).
Proof.
  revert r. induction l as [| a l IH]; intros [| r] H; simpl in *; try lia.
  - reflexivity.
  - rewrite perm_swap. constructor. apply IH. lia.
Qed.

Lemma draw_spec {A : Type} (draws : list nat) (n : nat) (l : list A) :
  n <= List.length l ->
  List.length (DF.draw draws n l) = n
  /\ exists rest, Permutation l (DF.draw draws n l ++ rest).
Proof.
  revert draws l. induction n as [| n IH]; intros draws l Hn.
  - simpl. split; [reflexivity |]. now exists l.
  - destruct l as [| a l]; [simpl in Hn; lia |].
    cbn [DF.draw].
    set (r := match draws with
              | [] => 0
              | d :: _ => d mod List.length (a :: l)
              end).
    assert (Hr : r < List.length (a :: l)).
    { subst r. destruct draws; [simpl; lia |].
      apply Nat.mod_upper_bound. simpl. lia. }
    pose proof (remove_nth_perm r (a :: l) a Hr) as Hp.
    assert (Hlen : n <= List.length (DF.remove_nth r (a :: l))).
    { apply Permutation_length in Hp. simpl in Hp, Hn. simpl. lia. }
    destruct (IH (tl draws) _ Hlen) as (L & rest & Hrest).
    split; [simpl; now rewrite L |].
    exists rest. eapply Permutation_trans; [exact Hp |].
    simpl. now constructor.
Qed.

Lemma combine_fst_snd {A B : Type} (l : list (A * B)) :
  combine (map fst l) (map snd l) = l.
Proof.
  induction l as [| [a b] l IH]; simpl; [| rewrite IH]; reflexivity.
Qed.

Lemma sample_run draws n df :
  n <= DF.len df ->
  DF.sample draws n df
  = Ok (mkDF (columns df)
          (map fst (DF.draw draws n (labelled_rows df)))
          (map snd (DF.draw draws n (labelled_rows df)))).
Proof.
  intros H. unfold DF.sample, DF.len in *.
  replace (List.length (data df) <? n) with false; [reflexivity |].
  symmetry. apply Nat.ltb_ge. exact H.
Qed.

Lemma labelled_rows_length df :
  List.length (index df) = List.length (data df) ->
  List.length (labelled_rows df) = DF.len df.
Proof.
  intros H. unfold labelled_rows, DF.len. rewrite length_combine. lia.
Qed.

(** A sample of [n] rows of a frame that has them: [n] rows of the frame
    with their labels, none taken twice. *)
Lemma sample_spec draws n df :
  List.length (index df) = List.length (data df) ->
  n <= DF.len df ->
  exists out rest,
    DF.sample draws n df = Ok out
    /\ columns out = columns df
    /\ DF.len out = n
    /\ List.length (index out) = List.length (data out)
    /\ Permutation (labelled_rows df) (labelled_rows out ++ rest).
Proof.
  intros Hix Hn.
  assert (Hn' : n <= List.length (labelled_rows df))
    by now rewrite labelled_rows_length.
  destruct (draw_spec draws n (labelled_rows df) Hn') as (L & rest & Hp).
  exists (mkDF (columns df)
            (map fst (DF.draw draws n (labelled_rows df)))
            (map snd (DF.draw draws n (labelled_rows df)))), rest.
  split; [now apply sample_run |]. split; [reflexivity |].
  unfold DF.len. cbn [data index]. rewrite !length_map.
  split; [exact L |]. split; [reflexivity |].
  unfold labelled_rows at 2. cbn [data index]. now rewrite combine_fst_snd.
Qed.

(** X9. The table of the raw-data tab never fails: it holds
    [min(len, 500)] rows of the filtered frame under its columns, each
    with the label it has in the frame, and no row of the frame twice. *)
Theorem preview_rows draws df :
  List.length (index df) = List.length (data df) ->
  exists out rest,
    preview draws df = Ok out
    /\ columns out = columns df
    /\ DF.len out = Nat.min (DF.len df) 500
    /\ Permutation (labelled_rows df) (labelled_rows out ++ rest)
    /\ (DF.len df <= 500 -> rest = []).
Proof.
  intros Hix. unfold preview.
  destruct (sample_spec draws (Nat.min (DF.len df) 500) df Hix
              (Nat.le_min_l _ _)) as (out & rest & E & Hc & Hl & Hlo & Hp).
  exists out, rest. split; [exact E |]. split; [exact Hc |].
  split; [exact Hl |]. split; [exact Hp |].
  intros Hsmall. apply Permutation_length in Hp.
  rewrite length_app, !labelled_rows_length in Hp by assumption.
  rewrite Hl, Nat.min_l in Hp by exact Hsmall.
  destruct rest; [reflexivity | simpl in Hp; lia].
Qed.

Lemma preview_rows_witness :
  exists out rest,
    preview [3; 1] sample_frame = Ok out
    /\ columns out = columns sample_frame
    /\ DF.len out = Nat.min (DF.len sample_frame) 500
    /\ Permutation (labelled_rows sample_frame) (labelled_rows out ++ rest)
    /\ (DF.len sample_frame <= 500 -> rest = []).
Proof.
  apply (preview_rows [3; 1] sample_frame). reflexivity.
Defined.

(** ** Groups *)

Lemma filter_perm {A : Type} (f : A -> bool) (l l' : list A) :
  Permutation l l' -> Permutation (filter f l) (filter f l').
Proof.
  induction 1 as [| x l l' H IH | x y l | l l' l'' H1 IH1 H2 IH2]; simpl.
  - constructor.
  - destruct (f x); [now constructor | exact IH].
  - destruct (f x), (f y); try reflexivity. apply perm_swap.
  - now transitivity (filter f l').
Qed.

(** Two sorted arrangements of the same entries are the same list, when
    the order tells the entries apart. *)
Lemma sorted_perm_eq {A : Type} (R : A -> A -> Prop) (l l' : list A) :
  (forall a b, In a l -> In b l -> R a b -> R b a -> a = b) ->
  StronglySorted R l -> StronglySorted R l' -> Permutation l l' -> l = l'.
Proof.
  intros Hanti Hs. revert l' Hanti.
  induction Hs as [| a l Hs IH Ha]; intros l' Hanti Hs' Hp.
  - apply Permutation_nil in Hp. now subst.
  - destruct l' as [| b l'];
      [apply Permutation_sym, Permutation_nil in Hp; discriminate |].
    apply StronglySorted_inv in Hs' as [Hs' Hb].
    rewrite Forall_forall in Ha, Hb.
    assert (E : a = b).
    { assert (Ia : In a (b :: l')) by (apply (Permutation_in _ Hp); now left).
      assert (Ib : In b (a :: l))
        by (apply (Permutation_in _ (Permutation_sym Hp)); now left).
      destruct Ia as [-> | Ia]; [reflexivity |].
      destruct Ib as [-> | Ib]; [reflexivity |].
      apply Hanti; [now left | now right | now apply Ha | now apply Hb]. }
    subst b. f_equal. apply IH; [| exact Hs' | now apply Permutation_cons_inv in Hp].
    intros x y Hx Hy. apply Hanti; now right.
Qed.

Section TallyPerm.

Context {A : Type} (eq_dec : forall a b : A, {a = b} + {a <> b}).

Lemma tally_NoDup (l : list A) : NoDup (DF.tally eq_dec l).
Proof.
  apply (NoDup_map_inv fst). rewrite tally_keys. apply uniq_NoDup.
Qed.

Lemma tally_perm (l l' : list A) :
  Permutation l l' -> Permutation (DF.tally eq_dec l) (DF.tally eq_dec l').
Proof.
  intros Hp. apply NoDup_Permutation; try apply tally_NoDup.
  intros [a k]. rewrite !tally_In.
  rewrite (proj1 (Permutation_count_occ eq_dec l l') Hp a).
  split; intros [Hin E]; split; try exact E.
  - now apply (Permutation_in _ Hp).
  - now apply (Permutation_in _ (Permutation_sym Hp)).
Qed.

Lemma tally_fst_inj (l : list A) x y :
  In x (DF.tally eq_dec l) -> In y (DF.tally eq_dec l) -> fst x = fst y -> x = y.
Proof.
  destruct x as [a k], y as [b n]. rewrite !tally_In. simpl.
  intros [_ ->] [_ ->] ->. reflexivity.
Qed.

End TallyPerm.

Lemma groups_sorted (t : list (list value * nat)) :
  ascending_keys (DF.isort (fun a b => DF.key_leb (fst a) (fst b)) t).
Proof.
  unfold ascending_keys.
  apply (isort_sorted (fun a b => DF.key_leb (fst a) (fst b))).
  - intros a b. apply key_leb_total.
  - intros a b c. apply key_leb_trans.
Qed.

(** The groups do not depend on the order of the rows. *)
Lemma groupby_size_perm df df' keys :
  columns df = columns df' -> Permutation (data df) (data df') ->
  DF.groupby_size df keys = DF.groupby_size df' keys.
Proof.
  intros Hc Hp. unfold DF.groupby_size. rewrite Hc.
  destruct (rmap (DF.col_index_exn (columns df')) keys) as [ixs | e];
    [| reflexivity].
  unfold rbind. f_equal.
  set (ks := filter (forallb notna) (map _ (data df))).
  set (ks' := filter (forallb notna) (map _ (data df'))).
  assert (Hk : Permutation ks ks')
    by (apply filter_perm, Permutation_map, Hp).
  set (ord := fun a b : list value * nat => DF.key_leb (fst a) (fst b)).
  apply (sorted_perm_eq (fun a b => ord a b = true)).
  - intros a b Ia Ib Hab Hba.
    apply (Permutation_in _ (isort_perm ord _)) in Ia, Ib.
    apply (tally_fst_inj (list_eq_dec value_eq_dec) ks); try assumption.
    now apply key_leb_antisym.
  - apply groups_sorted.
  - apply groups_sorted.
  - rewrite !isort_perm. now apply tally_perm.
Qed.

Lemma labelled_rows_data df :
  List.length (index df) = List.length (data df) ->
  map snd (labelled_rows df) = data df.
Proof.
  unfold labelled_rows. intros H.
  revert H. generalize (index df). induction (data df) as [| r rows IH];
    intros [| i ixs] H; simpl in *; try lia; [reflexivity |].
  f_equal. apply IH. lia.
Qed.

(** X10. Up to 1000 records the sample of the observer chart is the whole
    filtered frame in another order, so the chart's counts are those of
    the whole frame and do not depend on the random draws. *)
Theorem bar_data_exact_below_1000 draws df :
  List.length (index df) = List.length (data df) ->
  DF.len df <= 1000 ->
  (exists sb, sb_data draws df = Ok sb
              /\ columns sb = columns df
              /\ Permutation (labelled_rows df) (labelled_rows sb))
  /\ bar_data draws df = bar_data_exact df.
Proof.
  intros Hix Hlen. unfold sb_data, bar_data, bar_data_exact, sb_data.
  rewrite (Nat.min_r _ _ Hlen).
  destruct (sample_spec draws (DF.len df) df Hix (le_n _))
    as (sb & rest & E & Hc & Hl & Hlo & Hp).
  assert (Hrest : rest = []).
  { apply Permutation_length in Hp.
    rewrite length_app, !labelled_rows_length in Hp by assumption.
    destruct rest; [reflexivity | simpl in Hp; lia]. }
  subst rest. rewrite app_nil_r in Hp. rewrite E. split.
  - exists sb. split; [reflexivity |]. split; [exact Hc | exact Hp].
  - unfold rbind at 1.
    rewrite (groupby_size_perm sb df); [reflexivity | exact Hc |].
    rewrite <- (labelled_rows_data sb Hlo), <- (labelled_rows_data df Hix).
    apply Permutation_map, Permutation_sym, Hp.
Qed.

Lemma bar_data_exact_below_1000_witness :
  bar_data [3; 1; 2] sample_frame = bar_data_exact sample_frame.
Proof.
  apply (bar_data_exact_below_1000 [3; 1; 2] sample_frame).
  - reflexivity.
  - vm_compute. lia.
Defined.

Section CountMap.

Context {A B : Type} (eq_dec : forall a b : B, {a = b} + {a <> b}).

Lemma count_occ_filter (P : B -> bool) (l : list B) k :
  P k = true -> count_occ eq_dec (filter P l) k = count_occ eq_dec l k.
Proof.
  intros Hk. induction l as [| x l IH]; simpl; [reflexivity |].
  destruct (P x) eqn:Px; simpl; destruct (eq_dec x k) as [-> | _];
    try congruence.
Qed.

Lemma count_occ_map_filter (f : A -> B) (l : list A) k :
  count_occ eq_dec (map f l) k
  = List.length (filter (fun x => if eq_dec (f x) k then true else false) l).
Proof.
  induction l as [| x l IH]; simpl; [reflexivity |].
  destruct (eq_dec (f x) k); simpl; now rewrite IH.
Qed.

Lemma filter_map_comm (P : B -> bool) (f : A -> B) (l : list A) :
  filter P (map f l) = map f (filter (fun x => P (f x)) l).
Proof.
  induction l as [| x l IH]; simpl; [reflexivity |].
  destruct (P (f x)); simpl; now rewrite IH.
Qed.

End CountMap.

(** What a grouping by the columns at positions [ixs] holds: groups in
    ascending order of their keys, no key twice, no null in a key; each
    with the number of the rows that carry its key, and only keys that some
    row carries.  The sizes add up to the rows without a null key. *)
Lemma grouping_spec df ixs :
  let g := DF.isort (fun a b => DF.key_leb (fst a) (fst b))
             (DF.tally (list_eq_dec value_eq_dec)
                (filter (forallb notna) (map (project ixs) (data df)))) in
  ascending_keys g
  /\ NoDup (map fst g)
  /\ (forall k n, In (k, n) g <->
        forallb notna k = true
        /\ n = List.length (rows_with ixs k df) /\ 1 <= n)
  /\ total (map snd g)
     = List.length (filter (fun row => forallb notna (project ixs row)) (data df)).
Proof.
  intros g.
  set (ks := filter (forallb notna) (map (project ixs) (data df))) in *.
  pose proof (isort_perm (fun a b : list value * nat => DF.key_leb (fst a) (fst b))
                (DF.tally (list_eq_dec value_eq_dec) ks)) as Hp.
  fold g in Hp.
  split; [apply groups_sorted |]. split; [| split].
  - eapply Permutation_NoDup; [apply Permutation_map, Permutation_sym, Hp |].
    rewrite tally_keys. apply uniq_NoDup.
  - intros k n.
    assert (Hcount : forallb notna k = true ->
                     count_occ (list_eq_dec value_eq_dec) ks k
                     = List.length (rows_with ixs k df)).
    { intros Hk. unfold ks. rewrite count_occ_filter by exact Hk.
      apply count_occ_map_filter. }
    split.
    + intros H. apply (Permutation_in _ Hp) in H. apply tally_In in H as [Hin ->].
      assert (Hk : forallb notna k = true)
        by (unfold ks in Hin; now apply filter_In in Hin).
      split; [exact Hk |]. split; [now apply Hcount |].
      apply (count_occ_In (list_eq_dec value_eq_dec)) in Hin. lia.
    + intros (Hk & -> & Hn).
      apply (Permutation_in _ (Permutation_sym Hp)), tally_In.
      rewrite <- (Hcount Hk) in *. split; [| reflexivity].
      apply (count_occ_In (list_eq_dec value_eq_dec)). lia.
  - rewrite (total_perm _ _ (Permutation_map snd Hp)), tally_total.
    unfold ks. now rewrite filter_map_comm, length_map.
Qed.

Lemma groupby_size_run df keys ixs :
  rmap (DF.col_index_exn (columns df)) keys = Ok ixs ->
  DF.groupby_size df keys
  = Ok (DF.isort (fun a b => DF.key_leb (fst a) (fst b))
          (DF.tally (list_eq_dec value_eq_dec)
             (filter (forallb notna) (map (project ixs) (data df))))).
Proof. intros H. unfold DF.groupby_size. rewrite H. reflexivity. Qed.

Lemma two_columns df c1 c2 i j :
  DF.col_index c1 (columns df) = Some i ->
  DF.col_index c2 (columns df) = Some j ->
  rmap (DF.col_index_exn (columns df)) [c1; c2] = Ok [i; j].
Proof.
  intros H1 H2. simpl. unfold DF.col_index_exn. now rewrite H1, H2.
Qed.

(** X11. The table behind the heatmap, on a frame with Year and Month
    columns: one row per pair of year and month that some record has, in
    ascending order of year then month label, no pair twice, each with the
    number of its records. Records without a year or a month, those whose
    date could not be read, are in no group: the observations add up to
    the records that have both. *)
Theorem heatmap_df_counts df i j :
  DF.col_index "Year" (columns df) = Some i ->
  DF.col_index "Month" (columns df) = Some j ->
  exists g,
    heatmap_df df
    = Ok (DF.reset_index_groups ["Year"; "Month"] "Observations" g)
    /\ ascending_keys g
    /\ NoDup (map fst g)
    /\ (forall k n, In (k, n) g <->
          forallb notna k = true
          /\ n = List.length (rows_with [i; j] k df) /\ 1 <= n)
    /\ total (map snd g)
       = List.length (filter (fun row => notna (DF.cell i row)
                                         && notna (DF.cell j row)) (data df)).
Proof.
  intros Hi Hj. unfold heatmap_df.
  rewrite (groupby_size_run _ _ _ (two_columns _ _ _ _ _ Hi Hj)).
  destruct (grouping_spec df [i; j]) as (Hs & Hn & Hin & Ht).
  eexists. split; [reflexivity |]. split; [exact Hs |].
  split; [exact Hn |]. split; [exact Hin |].
  rewrite Ht. f_equal. apply filter_ext. intros row. simpl.
  now rewrite andb_true_r.
Qed.

Lemma heatmap_df_counts_witness :
  exists g,
    heatmap_df sample_frame
    = Ok (DF.reset_index_groups ["Year"; "Month"] "Observations" g)
    /\ total (map snd g) = 3.
Proof.
  destruct (heatmap_df_counts sample_frame 14 15) as (g & E & _ & _ & _ & T).
  - reflexivity.
  - reflexivity.
  - exists g. split; [exact E |]. rewrite T. reflexivity.
Defined.

(** ** The pivot of the heatmap *)

Lemma NoDup_map_in {A B : Type} (f : A -> B) (l : list A) :
  NoDup l ->
  (forall x y, In x l -> In y l -> f x = f y -> x = y) ->
  NoDup (map f l).
Proof.
  induction 1 as [| a l Ha Hl IH]; intros Hinj; simpl; constructor.
  - intros H. apply in_map_iff in H as (x & E & Hx).
    apply Ha. rewrite <- (Hinj x a); [exact Hx | now right | now left | exact E].
  - apply IH. intros x y Hx Hy. apply Hinj; now right.
Qed.

Lemma NoDup_map_eq {A B : Type} (f : A -> B) (l : list A) x y :
  NoDup (map f l) -> In x l -> In y l -> f x = f y -> x = y.
Proof.
  induction l as [| a l IH]; simpl; [contradiction |].
  intros Hn Hx Hy E. inversion Hn as [| ? ? Ha Hl]; subst.
  destruct Hx as [-> | Hx], Hy as [-> | Hy]; auto.
  - elim Ha. rewrite E. now apply in_map.
  - elim Ha. rewrite <- E. now apply in_map.
Qed.

Lemma uniq_NoDup_id {A : Type} (eq_dec : forall a b : A, {a = b} + {a <> b})
  (l : list A) :
  NoDup l -> DF.uniq eq_dec l = l.
Proof.
  induction 1 as [| a l Ha Hl IH]; simpl; [reflexivity |].
  rewrite IH. f_equal.
  rewrite (filter_ext_in _ (fun _ => true)); [apply filter_true |].
  intros b Hb. apply negb_true_iff, not_true_is_false.
  rewrite eqb_of_true. intros ->. contradiction.
Qed.

Lemma has_dup_NoDup {A : Type} (eq_dec : forall a b : A, {a = b} + {a <> b})
  (l : list A) :
  NoDup l -> DF.has_dup eq_dec l = false.
Proof.
  intros H. unfold DF.has_dup. rewrite (uniq_NoDup_id eq_dec l H).
  now rewrite Nat.eqb_refl.
Qed.

Lemma combine_map {A B C : Type} (f : A -> B) (g : A -> C) (l : list A) :
  combine (map f l) (map g l) = map (fun a => (f a, g a)) l.
Proof. induction l as [| a l IH]; simpl; [| rewrite IH]; reflexivity. Qed.

(** The keys of a grouping by two columns are pairs of cells of a row. *)
Lemma grouping_keys df ixs k n :
  In (k, n)
    (DF.isort (fun a b => DF.key_leb (fst a) (fst b))
       (DF.tally (list_eq_dec value_eq_dec)
          (filter (forallb notna) (map (project ixs) (data df))))) ->
  exists row, In row (data df) /\ k = project ixs row.
Proof.
  intros H. apply (Permutation_in _ (isort_perm _ _)) in H.
  apply tally_In in H as [H _]. apply filter_In in H as [H _].
  apply in_map_iff in H as (row & E & Hrow). now exists row.
Qed.

Lemma group_row_cells (kn : list value * nat) :
  List.length (fst kn) = 2 ->
  DF.cell 0 (fst kn ++ [size_cell kn]) = year_key kn
  /\ DF.cell 1 (fst kn ++ [size_cell kn]) = month_key kn
  /\ DF.cell 2 (fst kn ++ [size_cell kn]) = size_cell kn.
Proof.
  destruct kn as [[| y [| m [| x k]]] n]; simpl; try discriminate.
  intros _. repeat split.
Qed.

Lemma entry_keys_NoDup (g : list (list value * nat)) :
  (forall kn, In kn g -> List.length (fst kn) = 2) ->
  NoDup (map fst g) ->
  NoDup (map (fun kn => (month_key kn, year_key kn)) g).
Proof.
  intros Hlen Hn. apply NoDup_map_in; [now apply (NoDup_map_inv fst) |].
  intros x y Hx Hy E. apply (NoDup_map_eq fst g); try assumption.
  pose proof (Hlen x Hx) as Lx. pose proof (Hlen y Hy) as Ly.
  destruct x as [[| a [| b [| c k]]] n]; try discriminate Lx.
  destruct y as [[| a' [| b' [| c' k']]] n']; try discriminate Ly.
  unfold month_key, year_key, DF.cell in E. cbn [fst nth] in E.
  inversion E. reflexivity.
Qed.

(** The pivot of a table of groups by year and month: no pair of labels
    occurs twice, so the reshaping goes through. *)
Lemma pivot_of_groups (g : list (list value * nat)) :
  (forall kn, In kn g -> List.length (fst kn) = 2) ->
  NoDup (map fst g) ->
  DF.pivot (DF.reset_index_groups ["Year"; "Month"] "Observations" g)
    "Month" "Year" "Observations"
  = Ok (DF.mkPivot
          (DF.sorted_labels (map month_key g))
          (DF.sorted_labels (map year_key g))
          (map (fun r =>
                  map (fun c => DF.lookup_entry r c (map entry_of g))
                    (DF.sorted_labels (map year_key g)))
             (DF.sorted_labels (map month_key g)))).
Proof.
  intros Hlen Hn. unfold DF.pivot.
  set (h := DF.reset_index_groups ["Year"; "Month"] "Observations" g).
  rewrite (getitem_col h "Month" 1 eq_refl), (getitem_col h "Year" 0 eq_refl),
    (getitem_col h "Observations" 2 eq_refl).
  unfold rbind. subst h. cbn [data DF.reset_index_groups]. rewrite !map_map.
  assert (Em : map (fun x => DF.cell 1 (fst x ++ [Num (Z.of_nat (snd x))])) g
               = map month_key g).
  { apply map_ext_in. intros kn Hkn.
    now destruct (group_row_cells kn (Hlen kn Hkn)) as (H0 & H1 & H2). }
  assert (Ey : map (fun x => DF.cell 0 (fst x ++ [Num (Z.of_nat (snd x))])) g
               = map year_key g).
  { apply map_ext_in. intros kn Hkn.
    now destruct (group_row_cells kn (Hlen kn Hkn)) as (H0 & H1 & H2). }
  assert (Ev : map (fun x => DF.cell 2 (fst x ++ [Num (Z.of_nat (snd x))])) g
               = map size_cell g).
  { apply map_ext_in. intros kn Hkn.
    now destruct (group_row_cells kn (Hlen kn Hkn)) as (H0 & H1 & H2). }
  rewrite Em, Ey, Ev, !combine_map.
  rewrite has_dup_NoDup by now apply entry_keys_NoDup.
  reflexivity.
Qed.

Lemma find_row_map {A : Type} (F : value -> A) l labels :
  In l labels -> DF.find_row l labels (map F labels) = Some (F l).
Proof.
  induction labels as [| l' labels IH]; simpl; [contradiction |].
  intros H. destruct (value_eqb l l') eqn:E.
  - apply value_eqb_eq in E. now subst.
  - apply IH. destruct H as [-> | H]; [| exact H].
    rewrite value_eqb_refl in E. discriminate.
Qed.

Lemma find_row_notin {A : Type} l labels (rows : list A) :
  ~ In l labels -> DF.find_row l labels rows = None.
Proof.
  revert rows. induction labels as [| l' labels IH]; intros [| row rows] H;
    simpl; try reflexivity.
  destruct (value_eqb l l') eqn:E.
  - apply value_eqb_eq in E. subst. elim H. now left.
  - apply IH. intros Hin. apply H. now right.
Qed.

Lemma find_row_repeat (v : value) c cs :
  In c cs -> DF.find_row c cs (repeat v (List.length cs)) = Some v.
Proof.
  induction cs as [| c' cs IH]; simpl; [contradiction |].
  intros H. destruct (value_eqb c c') eqn:E; [reflexivity |].
  apply IH. destruct H as [-> | H]; [| exact H].
  rewrite value_eqb_refl in E. discriminate.
Qed.

Lemma lookup_entry_In r c v entries :
  NoDup (map fst entries) -> In (r, c, v) entries ->
  DF.lookup_entry r c entries = v.
Proof.
  induction entries as [| [[r' c'] v'] entries IH]; simpl; [contradiction |].
  intros Hn H. inversion Hn as [| ? ? Hx Hn']; subst.
  destruct (value_eqb r r' && value_eqb c c') eqn:E.
  - apply andb_true_iff in E as [Er Ec].
    apply value_eqb_eq in Er, Ec. subst r' c'.
    destruct H as [H | H]; [now inversion H |].
    elim Hx. apply in_map_iff. now exists (r, c, v).
  - destruct H as [H | H]; [| now apply IH].
    inversion H; subst. rewrite !value_eqb_refl in E. discriminate.
Qed.

Lemma lookup_entry_notin r c entries :
  (forall v, ~ In (r, c, v) entries) -> DF.lookup_entry r c entries = NA.
Proof.
  induction entries as [| [[r' c'] v'] entries IH]; simpl; [reflexivity |].
  intros H. destruct (value_eqb r r' && value_eqb c c') eqn:E.
  - apply andb_true_iff in E as [Er Ec].
    apply value_eqb_eq in Er, Ec. subst r' c'. elim (H v'). now left.
  - apply IH. intros v Hv. apply (H v). now right.
Qed.

(** A cell of a reshaped table after the zero fill and the re-indexing, in
    that order: the zero fill reaches the rows the table had, the rows the
    re-indexing adds hold nulls. *)
Lemma reindexed_cell rows cs entries labels l c :
  In l labels -> In c cs ->
  DF.pivot_cell
    (DF.reindex labels
       (DF.fillna0
          (DF.mkPivot rows cs
             (map (fun r => map (fun c => DF.lookup_entry r c entries) cs) rows))))
    l c
  = Some (if in_dec value_eq_dec l rows
          then (if isna (DF.lookup_entry l c entries) then Num 0
                else DF.lookup_entry l c entries)
          else NA).
Proof.
  intros Hl Hc. unfold DF.pivot_cell, DF.reindex, DF.fillna0.
  cbn [DF.p_index DF.p_cells DF.p_columns].
  rewrite (find_row_map _ l labels Hl). rewrite map_map.
  destruct (in_dec value_eq_dec l rows) as [Hin | Hout].
  - rewrite (find_row_map _ l rows Hin). rewrite map_map.
    now rewrite (find_row_map _ c cs Hc).
  - rewrite (find_row_notin _ _ _ Hout). now apply find_row_repeat.
Qed.

Lemma sorted_labels_In s v : In v (DF.sorted_labels s) <-> In v s.
Proof.
  unfold DF.sorted_labels. rewrite <- (uniq_In value_eq_dec s v).
  pose proof (isort_perm DF.value_leb (DF.uniq value_eq_dec s)) as Hp.
  split; intros H.
  - now apply (Permutation_in _ Hp).
  - now apply (Permutation_in _ (Permutation_sym Hp)).
Qed.

Lemma entry_of_pair y m n : entry_of ([y; m], n) = (m, y, Num (Z.of_nat n)).
Proof. reflexivity. Qed.

(** X12. The pivot of the heatmap, on a frame with Year and Month columns,
    never fails on duplicate entries: the groups it reshapes have distinct
    pairs of year and month. It has the rows Jan to Dec and one column per
    year of the groups. Its cell for a month and a year holds the number of
    records of that month and year when there are some, zero when there
    are none but the month occurs under another year, and a null when the
    month occurs under no year at all. *)
Theorem pivot_cells df i j :
  DF.col_index "Year" (columns df) = Some i ->
  DF.col_index "Month" (columns df) = Some j ->
  exists g p,
    heatmap_df df
    = Ok (DF.reset_index_groups ["Year"; "Month"] "Observations" g)
    /\ pivot df = Ok p
    /\ DF.p_index p = map Str month_abbrs
    /\ List.length (DF.p_cells p) = 12
    /\ (forall y, In y (DF.p_columns p) <-> exists m n, In ([y; m], n) g)
    /\ forall m y, In m month_abbrs -> In y (DF.p_columns p) ->
         (forall n, In ([y; Str m], n) g ->
                    DF.pivot_cell p (Str m) y = Some (Num (Z.of_nat n)))
         /\ ((forall n, ~ In ([y; Str m], n) g) ->
             (exists y' n, In ([y'; Str m], n) g) ->
             DF.pivot_cell p (Str m) y = Some (Num 0))
         /\ ((forall y' n, ~ In ([y'; Str m], n) g) ->
             DF.pivot_cell p (Str m) y = Some NA).
Proof.
  intros Hi Hj.
  pose proof (groupby_size_run df ["Year"; "Month"] [i; j]
                (two_columns _ _ _ _ _ Hi Hj)) as Hg.
  set (g := DF.isort (fun a b => DF.key_leb (fst a) (fst b))
              (DF.tally (list_eq_dec value_eq_dec)
                 (filter (forallb notna) (map (project [i; j]) (data df))))) in *.
  destruct (grouping_spec df [i; j]) as (_ & Hn & _ & _). fold g in Hn.
  assert (Hform : forall kn, In kn g -> exists y m, fst kn = [y; m]).
  { intros [k n] Hkn. destruct (grouping_keys df [i; j] k n Hkn) as (row & _ & ->).
    now exists (DF.cell i row), (DF.cell j row). }
  assert (Hlen : forall kn, In kn g -> List.length (fst kn) = 2).
  { intros kn Hkn. destruct (Hform kn Hkn) as (y & m & ->). reflexivity. }
  assert (Hh : heatmap_df df
               = Ok (DF.reset_index_groups ["Year"; "Month"] "Observations" g)).
  { unfold heatmap_df. rewrite Hg. reflexivity. }
  exists g. eexists. split; [exact Hh |].
  split; [unfold pivot; rewrite Hh; unfold rbind;
          rewrite (pivot_of_groups g Hlen Hn); reflexivity |].
  split; [reflexivity |].
  split; [unfold DF.reindex; cbn [DF.p_cells]; now rewrite length_map |].
  assert (Hcols : forall y, In y (DF.sorted_labels (map year_key g))
                            <-> exists m n, In ([y; m], n) g).
  { intros y. rewrite sorted_labels_In, in_map_iff. split.
    - intros ([k n] & E & Hkn). destruct (Hform _ Hkn) as (y' & m & Ek).
      simpl in Ek. subst k. unfold year_key, DF.cell in E. simpl in E. subst y'.
      now exists m, n.
    - intros (m & n & H). now exists ([y; m], n). }
  assert (Hrows : forall m, In m (DF.sorted_labels (map month_key g))
                            <-> exists y n, In ([y; m], n) g).
  { intros m. rewrite sorted_labels_In, in_map_iff. split.
    - intros ([k n] & E & Hkn). destruct (Hform _ Hkn) as (y & m' & Ek).
      simpl in Ek. subst k. unfold month_key, DF.cell in E. simpl in E. subst m'.
      now exists y, n.
    - intros (y & n & H). now exists ([y; m], n). }
  split; [exact Hcols |].
  intros m y Hm Hy.
  assert (Hcell := reindexed_cell (DF.sorted_labels (map month_key g))
                     (DF.sorted_labels (map year_key g)) (map entry_of g)
                     (map Str month_abbrs) (Str m) y (in_map Str _ _ Hm) Hy).
  unfold DF.reindex, DF.fillna0 in *. cbn [DF.p_index DF.p_cells DF.p_columns] in *.
  rewrite Hcell.
  assert (Hkeys : NoDup (map fst (map entry_of g))).
  { rewrite map_map. now apply entry_keys_NoDup. }
  destruct (in_dec value_eq_dec (Str m) (DF.sorted_labels (map month_key g)))
    as [Hin | Hout].
  - split; [| split].
    + intros n H.
      rewrite (lookup_entry_In (Str m) y (Num (Z.of_nat n))); [reflexivity | exact Hkeys |].
      apply in_map_iff. now exists ([y; Str m], n).
    + intros Hnone _. rewrite lookup_entry_notin; [reflexivity |].
      intros v Hv. apply in_map_iff in Hv as ([k n] & E & Hkn).
      destruct (Hform _ Hkn) as (y' & m' & Ek). simpl in Ek. subst k.
      rewrite entry_of_pair in E. inversion E; subst. now apply (Hnone n).
    + intros Hnone. apply Hrows in Hin as (y' & n & H). now elim (Hnone y' n).
  - split; [| split].
    + intros n H. elim Hout. apply Hrows. now exists y, n.
    + intros _ H. elim Hout. now apply Hrows.
    + reflexivity.
Qed.

Lemma pivot_cells_witness :
  exists g p,
    heatmap_df sample_frame
    = Ok (DF.reset_index_groups ["Year"; "Month"] "Observations" g)
    /\ pivot sample_frame = Ok p
    /\ DF.p_index p = map Str month_abbrs
    /\ List.length (DF.p_cells p) = 12.
Proof.
  destruct (pivot_cells sample_frame 14 15) as (g & p & H & P & I & L & _).
  - reflexivity.
  - reflexivity.
  - exists g, p. repeat split; assumption.
Defined.

(** ** The temperature sample, in general *)

Lemma getitems_shape df cs sub :
  DF.getitems df cs = Ok sub ->
  columns sub = cs /\ DF.len sub = DF.len df.
Proof.
  unfold DF.getitems.
  destruct (rmap (DF.col_index_exn (columns df)) cs) as [ixs | e];
    [| discriminate].
  intros E. inversion E. unfold DF.len. cbn [columns data].
  now rewrite length_map.
Qed.

Lemma dropna_len_le df : DF.len (DF.dropna df) <= DF.len df.
Proof. unfold DF.dropna, DF.select, DF.len. cbn [data]. apply pick_length_le. Qed.

Lemma dropna_data df :
  data (DF.dropna df) = filter (forallb notna) (data df).
Proof. unfold DF.dropna, DF.select. cbn [data]. apply pick_map_filter. Qed.

(** X13. The temperature sample succeeds exactly when the rows left after
    dropping nulls are at least [min(1000, len)], the length taken before
    the drop. On a frame of at most 1000 rows that is: exactly when no row
    has a null temperature or species. *)
Theorem temp_df_succeeds_iff draws df sub :
  DF.getitems df ["Temperature"; "Common_Name"] = Ok sub ->
  ((exists out, temp_df draws df = Ok out)
   <-> Nat.min 1000 (DF.len df) <= DF.len (DF.dropna sub))
  /\ (DF.len df <= 1000 ->
      ((exists out, temp_df draws df = Ok out)
       <-> forallb (forallb notna) (data sub) = true))
  /\ (forall out, temp_df draws df = Ok out ->
      columns out = ["Temperature"; "Common_Name"]).
Proof.
  intros Hs. destruct (getitems_shape _ _ _ Hs) as [Hc Hl].
  assert (Hiff : (exists out, temp_df draws df = Ok out)
                 <-> Nat.min 1000 (DF.len df) <= DF.len (DF.dropna sub)).
  { unfold temp_df. rewrite Hs. unfold rbind. split.
    - intros [out E]. unfold DF.sample in E. fold (DF.len (DF.dropna sub)) in E.
      destruct (DF.len (DF.dropna sub) <? Nat.min 1000 (DF.len df)) eqn:C;
        [discriminate |].
      now apply Nat.ltb_ge in C.
    - intros H. now apply sample_fits. }
  split; [exact Hiff |]. split.
  - intros Hsmall. rewrite Hiff, (Nat.min_r _ _ Hsmall), <- Hl.
    unfold DF.len. rewrite dropna_data. split.
    + intros H. apply forallb_forall. intros row Hrow.
      assert (E : filter (forallb notna) (data sub) = data sub).
      { clear - H. induction (data sub) as [| r rows IH]; simpl in *;
          [reflexivity |].
        pose proof (filter_length_le (forallb notna) rows).
        destruct (forallb notna r); simpl in *; [f_equal; apply IH; lia | lia]. }
      rewrite <- E in Hrow. now apply filter_In in Hrow.
    + intros H. rewrite (filter_ext_in _ (fun _ => true)), filter_true; [lia |].
      intros row Hrow. rewrite forallb_forall in H. now apply H.
  - unfold temp_df. rewrite Hs. unfold rbind, DF.sample. intros out.
    destruct (_ <? _); [discriminate |]. intros E. inversion E.
    cbn [columns]. unfold DF.dropna, DF.select. cbn [columns]. exact Hc.
Qed.

Lemma temp_df_succeeds_iff_witness :
  (exists out, temp_df [0] single_january = Ok out)
  <-> Nat.min 1000 (DF.len single_january)
      <= DF.len (DF.dropna (mkDF ["Temperature"; "Common_Name"] [0]
                              [[Num 20; Str "Robin"]])).
Proof.
  destruct (temp_df_succeeds_iff [0] single_january
              (mkDF ["Temperature"; "Common_Name"] [0] [[Num 20; Str "Robin"]]))
    as [H _].
  - vm_compute. reflexivity.
  - exact H.
Defined.

(** ** Sorting a frame by a column *)

Lemma na_last_total asc a b :
  na_last (direction asc) a b = true \/ na_last (direction asc) b a = true.
Proof.
  unfold na_last, direction.
  destruct a, b, asc; auto; apply value_leb_total.
Qed.

Lemma na_last_trans asc a b c :
  na_last (direction asc) a b = true -> na_last (direction asc) b c = true ->
  na_last (direction asc) a c = true.
Proof.
  unfold na_last, direction.
  destruct asc.
  - destruct a, b, c; try congruence; apply value_leb_trans.
  - destruct a, b, c; try congruence; intros H1 H2;
      now apply (value_leb_trans _ _ _ H2 H1).
Qed.

Lemma StronglySorted_map {A B : Type} (R : B -> B -> Prop) (f : A -> B) l :
  StronglySorted (fun a b => R (f a) (f b)) l -> StronglySorted R (map f l).
Proof.
  induction 1 as [| a l Hs IH Ha]; simpl; constructor; [exact IH |].
  rewrite Forall_forall in *. intros b Hb.
  apply in_map_iff in Hb as (x & <- & Hx). now apply Ha.
Qed.

(** Sorting by a column of one kind of cells: the same rows with their
    labels, in the order of the column, nulls last. *)
Lemma sort_values_run c asc df i :
  DF.col_index c (columns df) = Some i ->
  homogeneous (map (DF.cell i) (data df)) = true ->
  exists out,
    sort_values c asc df = Ok out
    /\ columns out = columns df
    /\ List.length (index out) = List.length (data out)
    /\ Permutation (labelled_rows df) (labelled_rows out)
    /\ StronglySorted
         (fun a b => na_last (direction asc) (DF.cell i a) (DF.cell i b) = true)
         (data out).
Proof.
  intros Hi Hh. unfold sort_values, DF.col_index_exn. rewrite Hi.
  unfold rbind. rewrite Hh.
  set (ord := fun a b : nat * list value =>
                na_last (direction asc) (DF.cell i (snd a)) (DF.cell i (snd b))).
  eexists. split; [reflexivity |]. cbn [columns index data].
  split; [reflexivity |]. split; [now rewrite !length_map |].
  split.
  - unfold labelled_rows at 2. cbn [index data]. rewrite combine_fst_snd.
    apply Permutation_sym, isort_perm.
  - apply StronglySorted_map.
    apply (isort_sorted ord).
    + intros a b. apply na_last_total.
    + intros a b d. apply na_last_trans.
Qed.

Lemma homogeneous_nums (l : list value) :
  (forall v, In v l -> exists z, v = Num z) -> homogeneous l = true.
Proof.
  intros H. unfold homogeneous.
  assert (Hf : forall v, In v (filter notna l) -> exists z, v = Num z)
    by (intros v Hv; apply filter_In in Hv as [Hv _]; now apply H).
  destruct (filter notna l) as [| a f]; [reflexivity |].
  destruct (Hf a (or_introl eq_refl)) as [z ->].
  apply forallb_forall. intros v Hv.
  destruct (Hf v (or_intror Hv)) as [z' ->]. reflexivity.
Qed.

Lemma labelled_rows_perm_data df out :
  List.length (index df) = List.length (data df) ->
  List.length (index out) = List.length (data out) ->
  Permutation (labelled_rows df) (labelled_rows out) ->
  Permutation (data df) (data out).
Proof.
  intros H1 H2 Hp.
  rewrite <- (labelled_rows_data df H1), <- (labelled_rows_data out H2).
  now apply Permutation_map.
Qed.

(** ** The bubble table *)

Lemma StronglySorted_impl_in {A : Type} (R R' : A -> A -> Prop) (l : list A) :
  (forall a b, In a l -> In b l -> R a b -> R' a b) ->
  StronglySorted R l -> StronglySorted R' l.
Proof.
  intros Himp Hs. induction Hs as [| a l Hs IH Ha]; constructor.
  - apply IH. intros x y Hx Hy. apply Himp; now right.
  - rewrite Forall_forall in *. intros b Hb.
    apply Himp; [now left | now right | now apply Ha].
Qed.

Lemma group_row_count (kn : list value * nat) :
  List.length (fst kn) = 2 ->
  DF.cell 2 (group_row kn) = Num (Z.of_nat (snd kn))
  /\ count_of (group_row kn) = Z.of_nat (snd kn).
Proof.
  intros H. destruct (group_row_cells kn H) as (_ & _ & H2).
  unfold count_of, group_row, size_cell in *. now rewrite H2.
Qed.

Lemma group_row_inj x y : group_row x = group_row y -> x = y.
Proof.
  destruct x as [k n], y as [k' n']. unfold group_row. simpl.
  intros H. apply app_inj_tail in H as [-> H]. inversion H.
  f_equal. now apply Nat2Z.inj.
Qed.

(** X14. The bubble table, on a frame with the plot and species columns:
    at most 100 rows, as many as there are pairs of plot and species when
    those are fewer; every row a pair that some record has, with the
    number of its records; counts never increasing down the table; no
    pair twice; and no pair left out that counts more than one shown. *)
Theorem bubble_df_top df i j :
  DF.col_index "Plot_Name" (columns df) = Some i ->
  DF.col_index "Common_Name" (columns df) = Some j ->
  exists g b,
    DF.groupby_size df ["Plot_Name"; "Common_Name"] = Ok g
    /\ bubble_df df = Ok b
    /\ columns b = ["Plot_Name"; "Common_Name"; "Count"]
    /\ DF.len b = Nat.min 100 (List.length g)
    /\ (forall row, In row (data b) ->
          exists k n, row = k ++ [Num (Z.of_nat n)]
                      /\ forallb notna k = true
                      /\ n = List.length (rows_with [i; j] k df) /\ 1 <= n)
    /\ StronglySorted (fun a b => (count_of b <= count_of a)%Z) (data b)
    /\ NoDup (data b)
    /\ (forall kn row, In kn g -> ~ In (group_row kn) (data b) ->
          In row (data b) -> (Z.of_nat (snd kn) <= count_of row)%Z).
Proof.
  intros Hi Hj.
  pose proof (groupby_size_run df ["Plot_Name"; "Common_Name"] [i; j]
                (two_columns _ _ _ _ _ Hi Hj)) as Hg.
  set (g := DF.isort (fun a b => DF.key_leb (fst a) (fst b))
              (DF.tally (list_eq_dec value_eq_dec)
                 (filter (forallb notna) (map (project [i; j]) (data df))))) in *.
  destruct (grouping_spec df [i; j]) as (_ & Hn & Hin & _).
  fold g in Hn, Hin.
  assert (Hlen : forall kn, In kn g -> List.length (fst kn) = 2).
  { intros [k n] Hkn. destruct (grouping_keys df [i; j] k n Hkn) as (row & _ & ->).
    reflexivity. }
  set (t := DF.reset_index_groups ["Plot_Name"; "Common_Name"] "Count" g).
  assert (Ht : data t = map group_row g) by reflexivity.
  assert (Hix : List.length (index t) = List.length (data t)).
  { unfold t, DF.reset_index_groups. cbn [index data].
    now rewrite length_seq, length_map. }
  assert (Hhom : homogeneous (map (DF.cell 2) (data t)) = true).
  { apply homogeneous_nums. intros v Hv. rewrite Ht, map_map in Hv.
    apply in_map_iff in Hv as (kn & <- & Hkn).
    destruct (group_row_count kn (Hlen kn Hkn)) as [-> _]. eauto. }
  destruct (sort_values_run "Count" false t 2 eq_refl Hhom)
    as (out & Es & Hc & Hio & Hp & Hs).
  pose proof (labelled_rows_perm_data t out Hix Hio Hp) as Hd.
  rewrite Ht in Hd.
  assert (Hrows : forall row, In row (data out) ->
                              exists kn, In kn g /\ row = group_row kn).
  { intros row Hrow. apply (Permutation_in _ (Permutation_sym Hd)) in Hrow.
    apply in_map_iff in Hrow as (kn & <- & Hkn). now exists kn. }
  assert (Hord : forall a b, In a (data out) -> In b (data out) ->
                   na_last (direction false) (DF.cell 2 a) (DF.cell 2 b) = true ->
                   (count_of b <= count_of a)%Z).
  { intros a b Ha Hb. destruct (Hrows a Ha) as (ka & Hka & ->).
    destruct (Hrows b Hb) as (kb & Hkb & ->).
    destruct (group_row_count ka (Hlen ka Hka)) as [Ca ->].
    destruct (group_row_count kb (Hlen kb Hkb)) as [Cb ->].
    rewrite Ca, Cb. simpl. now rewrite Z.leb_le. }
  exists g, (head 100 out). split; [exact Hg |].
  split; [unfold bubble_df; rewrite Hg; unfold rbind; fold t; now rewrite Es |].
  split; [cbn [head columns]; now rewrite Hc |].
  unfold DF.len. cbn [head data].
  split; [rewrite length_firstn, <- (Permutation_length Hd); now rewrite length_map |].
  split; [| split; [| split]].
  - intros row Hrow. apply In_firstn in Hrow.
    destruct (Hrows row Hrow) as ([k n] & Hkn & ->).
    exists k, n. split; [reflexivity |]. now apply Hin.
  - apply StronglySorted_firstn.
    apply (StronglySorted_impl_in _ _ _ Hord Hs).
  - apply NoDup_firstn. apply (Permutation_NoDup Hd).
    apply NoDup_map_in; [now apply (NoDup_map_inv fst) |].
    intros x y _ _. apply group_row_inj.
  - intros kn row Hkn Hout Hrow.
    assert (Hall : In (group_row kn) (data out))
      by (apply (Permutation_in _ Hd); now apply in_map).
    rewrite <- (firstn_skipn 100 (data out)) in Hall, Hs.
    apply in_app_or in Hall as [Hall | Hall]; [contradiction |].
    pose proof (StronglySorted_app_inv _ _ _ _ _ Hs Hrow Hall) as Hle.
    cbv beta in Hle. apply Hord in Hle.
    + now destruct (group_row_count kn (Hlen kn Hkn)) as [_ <-].
    + now apply In_firstn in Hrow.
    + rewrite <- (firstn_skipn 100 (data out)). apply in_or_app. now right.
Qed.

Lemma bubble_df_top_witness :
  exists g b,
    DF.groupby_size sample_frame ["Plot_Name"; "Common_Name"] = Ok g
    /\ bubble_df sample_frame = Ok b
    /\ columns b = ["Plot_Name"; "Common_Name"; "Count"]
    /\ DF.len b = Nat.min 100 (List.length g).
Proof.
  destruct (bubble_df_top sample_frame 0 3) as (g & b & G & B & C & L & _).
  - reflexivity.
  - reflexivity.
  - exists g, b. repeat split; assumption.
Defined.

(** ** Observations per humidity reading *)

Lemma groupby_count_run df key c i j :
  DF.col_index key (columns df) = Some i ->
  DF.col_index c (columns df) = Some j ->
  groupby_count df key c
  = Ok (map (fun h => (h, List.length (counted_rows i j h df)))
          (DF.isort DF.value_leb (dropna_unique (map (DF.cell i) (data df))))).
Proof.
  intros Hi Hj. unfold groupby_count.
  rewrite (getitem_col _ _ _ Hi), (getitem_col _ _ _ Hj). unfold rbind.
  f_equal. apply map_ext. intros h. f_equal.
  rewrite combine_map. unfold counted_rows.
  now rewrite filter_map_comm, length_map.
Qed.

Lemma numeric_notna v : numeric v = true -> v <> NA -> exists z, v = Num z.
Proof. destruct v; simpl; try discriminate; try congruence; eauto. Qed.

Lemma isort_keys_In (s : series) v :
  In v (DF.isort DF.value_leb (dropna_unique s)) <-> In v s /\ v <> NA.
Proof.
  rewrite <- dropna_unique_In.
  pose proof (isort_perm DF.value_leb (dropna_unique s)) as Hp. split; intros H.
  - now apply (Permutation_in _ Hp).
  - now apply (Permutation_in _ (Permutation_sym Hp)).
Qed.

(** The counts of the groups add up to the rows that have both cells. *)
Lemma counted_rows_total df i j (u : list value) :
  NoDup u ->
  (forall v, In v u <-> In v (map (DF.cell i) (data df)) /\ v <> NA) ->
  total (map (fun h => List.length (counted_rows i j h df)) u)
  = List.length (filter (fun row => notna (DF.cell i row)
                                    && notna (DF.cell j row)) (data df)).
Proof.
  intros Hu Hin.
  set (rows := filter (fun row => notna (DF.cell i row) && notna (DF.cell j row))
                 (data df)).
  rewrite <- (length_map (DF.cell i) rows).
  rewrite <- (total_count_occ value_eq_dec u (map (DF.cell i) rows) Hu).
  - f_equal. apply map_ext_in. intros h Hh.
    rewrite count_occ_map_filter. unfold rows, counted_rows.
    rewrite <- filter_andb. f_equal. apply filter_ext. intros row.
    fold (value_eqb (DF.cell i row) h).
    destruct (value_eqb (DF.cell i row) h) eqn:E; [| now rewrite andb_false_r].
    apply value_eqb_eq in E. apply Hin in Hh as [_ Hna].
    rewrite andb_true_r. rewrite E. unfold notna at 2.
    destruct h; [congruence | | |]; reflexivity.
  - intros v Hv. apply in_map_iff in Hv as (row & <- & Hrow).
    unfold rows in Hrow. apply filter_In in Hrow as [Hrow Hn].
    apply andb_true_iff in Hn as [Hn _]. apply Hin. split; [now apply in_map |].
    intros E. rewrite E in Hn. discriminate.
Qed.

(** X15. The humidity table, on a frame whose humidity readings are
    numbers: one row per distinct reading in ascending order, each with the
    number of its records that name a species. A reading whose records
    all lack a species stays in the table with zero; records without a
    reading are in no row. *)
Theorem humidity_df_counts df i j :
  DF.col_index "Humidity" (columns df) = Some i ->
  DF.col_index "Common_Name" (columns df) = Some j ->
  forallb (fun row => numeric (DF.cell i row)) (data df) = true ->
  exists c out,
    humidity_df df = Ok out
    /\ columns out = ["Humidity"; "Observations"]
    /\ data out = map count_row c
    /\ ascending (map fst c)
    /\ NoDup (map fst c)
    /\ (forall h, In h (map fst c) <->
          h <> NA /\ exists row, In row (data df) /\ DF.cell i row = h)
    /\ (forall h n, In (h, n) c -> n = List.length (counted_rows i j h df))
    /\ total (map snd c)
       = List.length (filter (fun row => notna (DF.cell i row)
                                         && notna (DF.cell j row)) (data df)).
Proof.
  intros Hi Hj Hnum.
  set (keys := DF.isort DF.value_leb (dropna_unique (map (DF.cell i) (data df)))).
  set (c := map (fun h => (h, List.length (counted_rows i j h df))) keys).
  assert (Hfst : map fst c = keys)
    by (unfold c; rewrite map_map; apply map_id).
  assert (Hkin : forall v, In v keys
                           <-> In v (map (DF.cell i) (data df)) /\ v <> NA)
    by (intros v; apply isort_keys_In).
  assert (Hnd : NoDup keys).
  { eapply Permutation_NoDup;
      [apply Permutation_sym, isort_perm | apply dropna_unique_NoDup]. }
  assert (Hasc : ascending keys).
  { apply isort_sorted; [apply value_leb_total | apply value_leb_trans]. }
  assert (Hknum : forall v, In v keys -> exists z, v = Num z).
  { intros v Hv. apply Hkin in Hv as [Hv Hna].
    apply in_map_iff in Hv as (row & <- & Hrow).
    rewrite forallb_forall in Hnum. now apply numeric_notna, Hna; apply Hnum. }
  set (t := DF.reset_index_counts "Humidity" "Observations" c).
  assert (Ht : data t = map count_row c) by reflexivity.
  assert (Hix : List.length (index t) = List.length (data t)).
  { unfold t, DF.reset_index_counts. cbn [index data].
    now rewrite length_seq, length_map. }
  assert (Hcell : forall vn, DF.cell 0 (count_row vn) = fst vn) by reflexivity.
  assert (Hhom : homogeneous (map (DF.cell 0) (data t)) = true).
  { apply homogeneous_nums. intros v Hv. rewrite Ht, map_map in Hv.
    apply in_map_iff in Hv as (vn & <- & Hvn). rewrite Hcell.
    apply Hknum. rewrite <- Hfst. now apply in_map. }
  destruct (sort_values_run "Humidity" true t 0 eq_refl Hhom)
    as (out & Es & Hc & Hio & Hp & Hs).
  pose proof (labelled_rows_perm_data t out Hix Hio Hp) as Hd.
  assert (Hsame : data t = data out).
  { apply (sorted_perm_eq
             (fun a b => na_last (direction true) (DF.cell 0 a) (DF.cell 0 b) = true));
      [| | exact Hs | exact Hd].
    - intros a b Ha Hb Hab Hba. rewrite Ht in Ha, Hb.
      apply in_map_iff in Ha as ([ha na] & <- & Hina).
      apply in_map_iff in Hb as ([hb nb] & <- & Hinb).
      rewrite !Hcell in Hab, Hba. cbn [fst] in Hab, Hba.
      assert (Ka : In ha keys) by (rewrite <- Hfst; now apply (in_map fst _ (ha, na))).
      assert (Kb : In hb keys) by (rewrite <- Hfst; now apply (in_map fst _ (hb, nb))).
      destruct (Hknum ha Ka) as [za ->]. destruct (Hknum hb Kb) as [zb ->].
      simpl in Hab, Hba. apply Z.leb_le in Hab, Hba.
      assert (za = zb) by lia. subst zb.
      unfold c in Hina, Hinb.
      apply in_map_iff in Hina as (x & Ex & _).
      apply in_map_iff in Hinb as (y & Ey & _).
      inversion Ex; inversion Ey; subst. reflexivity.
    - rewrite Ht. apply StronglySorted_map.
      apply (StronglySorted_impl_in
               (fun a b : value * nat => DF.value_leb (fst a) (fst b) = true)).
      + intros a b Ha Hb Hab. rewrite !Hcell.
        assert (Ka : In (fst a) keys) by (rewrite <- Hfst; now apply in_map).
        assert (Kb : In (fst b) keys) by (rewrite <- Hfst; now apply in_map).
        destruct (Hknum _ Ka) as [za Ea]. destruct (Hknum _ Kb) as [zb Eb].
        rewrite Ea, Eb in *. exact Hab.
      + unfold c. clear - Hasc. unfold ascending in Hasc.
        induction Hasc as [| k ks Hs IH Hk]; simpl; constructor; [exact IH |].
        rewrite Forall_forall in *. intros b Hb.
        apply in_map_iff in Hb as (x & <- & Hx). simpl. now apply Hk. }
  exists c, out.
  split; [unfold humidity_df; rewrite (groupby_count_run _ _ _ _ _ Hi Hj);
          unfold rbind; fold keys; fold c; fold t; exact Es |].
  split; [now rewrite Hc |]. split; [now rewrite <- Hsame |].
  rewrite Hfst. split; [exact Hasc |]. split; [exact Hnd |]. split; [| split].
  - intros h. rewrite Hkin, in_map_iff. split.
    + intros [(row & E & Hrow) Hna]. split; [exact Hna | now exists row].
    + intros [Hna (row & Hrow & E)]. split; [now exists row | exact Hna].
  - intros h n H. unfold c in H. apply in_map_iff in H as (x & E & _).
    now inversion E.
  - unfold c. rewrite map_map. cbn [snd].
    now apply counted_rows_total.
Qed.

Lemma humidity_df_counts_witness :
  exists c out,
    humidity_df sample_frame = Ok out
    /\ columns out = ["Humidity"; "Observations"]
    /\ data out = map count_row c
    /\ total (map snd c) = 4.
Proof.
  destruct (humidity_df_counts sample_frame 8 3)
    as (c & out & E & C & D & _ & _ & _ & _ & T).
  - reflexivity.
  - reflexivity.
  - reflexivity.
  - exists c, out. repeat split; assumption.
Defined.

(** ** The trends tab *)

Lemma pick_length_eq {A B : Type} (m : list bool) (l1 : list A) (l2 : list B) :
  List.length l1 = List.length l2 ->
  List.length (DF.pick m l1) = List.length (DF.pick m l2).
Proof.
  revert l1 l2. induction m as [| b m IH]; intros [| a l1] [| c l2] H;
    simpl in *; try lia; try reflexivity.
  destruct b; simpl; rewrite (IH l1 l2) by lia; reflexivity.
Qed.

Lemma homogeneous_datetimes (l : list value) :
  (forall v, In v l -> DF.is_datetime v = true) -> homogeneous l = true.
Proof.
  intros H. unfold homogeneous.
  assert (Hf : forall v, In v (filter notna l) -> exists t, v = Ts t).
  { intros v Hv. apply filter_In in Hv as [Hv Hn]. specialize (H v Hv).
    destruct v; try discriminate; eauto. }
  destruct (filter notna l) as [| a f]; [reflexivity |].
  destruct (Hf a (or_introl eq_refl)) as [t ->].
  apply forallb_forall. intros v Hv.
  destruct (Hf v (or_intror Hv)) as [t' ->]. reflexivity.
Qed.

Lemma isin_select_data df i (sel : list value) :
  data (DF.select df (DF.isin (map (DF.cell i) (data df)) sel))
  = filter (fun row => existsb (value_eqb (DF.cell i row)) sel) (data df).
Proof.
  unfold DF.select, DF.isin. cbn [data]. rewrite map_map.
  apply pick_map_filter.
Qed.

Lemma loaded_row_date row :
  loaded_row row = true -> DF.is_datetime (DF.cell 1 row) = true.
Proof. unfold loaded_row. intros H. now apply andb_true_iff in H as [_ H]. Qed.

Lemma skipn_In {A : Type} n (l : list A) a : In a (skipn n l) -> In a l.
Proof.
  intros H. rewrite <- (firstn_skipn n l). apply in_or_app. now right.
Qed.

Lemma StronglySorted_skipn {A : Type} (R : A -> A -> Prop) n l :
  StronglySorted R l -> StronglySorted R (skipn n l).
Proof.
  revert l. induction n as [| n IH]; intros l H; [exact H |].
  destruct l as [| a l]; [exact H |]. simpl. apply IH.
  now apply StronglySorted_inv in H.
Qed.

(** X16. The trends tab on a loaded frame. With no species selected it
    shows its message and computes nothing. With a selection, the yearly
    table has one row per year and selected species that some record has,
    with the number of those records; records of a selected species
    without a year are in no row. The date-wise table has at most 1000
    rows, each a date and species of some selected record with the number
    of such records, in ascending order of date. *)
Theorem species_trends_charts df sel :
  loaded df ->
  species_trends df [] = Ok (TrendInfo select_species)
  /\ (sel <> [] ->
      let trend_df :=
        DF.select df (DF.isin (map (DF.cell species_pos) (data df)) sel) in
      exists g yearly datewise,
        species_trends df sel = Ok (TrendCharts yearly datewise)
        /\ yearly = DF.reset_index_groups ["Year"; "Common_Name"] "Count" g
        /\ ascending_keys g
        /\ NoDup (map fst g)
        /\ (forall k n, In (k, n) g <->
              forallb notna k = true
              /\ n = List.length (rows_with [14; species_pos] k trend_df)
              /\ 1 <= n)
        /\ total (map snd g)
           = List.length
               (filter (fun row =>
                          existsb (value_eqb (DF.cell species_pos row)) sel
                          && (notna (DF.cell 14 row)
                              && notna (DF.cell species_pos row)))
                  (data df))
        /\ columns datewise = ["Date"; "Common_Name"; "Count"]
        /\ DF.len datewise <= 1000
        /\ StronglySorted
             (fun a b => DF.value_leb (DF.cell 0 a) (DF.cell 0 b) = true)
             (data datewise)
        /\ (forall row, In row (data datewise) ->
              exists k n, row = k ++ [Num (Z.of_nat n)]
                          /\ forallb notna k = true
                          /\ n = List.length
                                   (rows_with [date_pos; species_pos] k trend_df)
                          /\ 1 <= n)).
Proof.
  intros Hl. split; [reflexivity |]. intros Hne trend.
  pose proof (loaded_columns_of _ Hl) as Hcols.
  pose proof (loaded_rows_of _ Hl) as Hrows.
  pose proof (loaded_index_of _ Hl) as Hidx.
  assert (Hsp : DF.col_index "Common_Name" (columns df) = Some species_pos)
    by now rewrite Hcols.
  assert (Htc : columns trend = loaded_columns) by exact Hcols.
  assert (Htd : data trend
                = filter (fun row => existsb (value_eqb (DF.cell species_pos row)) sel)
                    (data df)) by apply isin_select_data.
  assert (Htix : List.length (index trend) = List.length (data trend)).
  { unfold trend, DF.select. cbn [index data]. apply pick_length_eq.
    rewrite Hidx. apply length_seq. }
  assert (Htrow : forall row, In row (data trend) -> loaded_row row = true).
  { intros row Hrow. rewrite Htd in Hrow. apply filter_In in Hrow as [Hrow _].
    rewrite forallb_forall in Hrows. now apply Hrows. }
  (* the yearly table *)
  assert (Hy : rmap (DF.col_index_exn (columns trend)) ["Year"; "Common_Name"]
               = Ok [14; species_pos]) by now rewrite Htc.
  pose proof (groupby_size_run trend _ _ Hy) as Hg.
  destruct (grouping_spec trend [14; species_pos]) as (Gs & Gn & Gin & Gt).
  (* the date-wise table *)
  assert (Hhom : homogeneous (map (DF.cell 1) (data trend)) = true).
  { apply homogeneous_datetimes. intros v Hv.
    apply in_map_iff in Hv as (row & <- & Hrow).
    now apply loaded_row_date, Htrow. }
  assert (Hdate : DF.col_index "Date" (columns trend) = Some 1)
    by now rewrite Htc.
  destruct (sort_values_run "Date" true trend 1 Hdate Hhom)
    as (by_date & Eb & Hbc & Hbio & Hbp & _).
  pose proof (labelled_rows_perm_data trend by_date Htix Hbio Hbp) as Hbd.
  assert (Hd : rmap (DF.col_index_exn (columns trend)) ["Date"; "Common_Name"]
               = Ok [date_pos; species_pos]) by now rewrite Htc.
  pose proof (groupby_size_run trend _ _ Hd) as Hg2.
  rewrite <- (groupby_size_perm by_date trend _ Hbc (Permutation_sym Hbd)) in Hg2.
  destruct (grouping_spec trend [date_pos; species_pos]) as (_ & _ & Din & _).
  set (g2 := DF.isort (fun a b => DF.key_leb (fst a) (fst b))
               (DF.tally (list_eq_dec value_eq_dec)
                  (filter (forallb notna)
                     (map (project [date_pos; species_pos]) (data trend))))) in *.
  assert (Hkey : forall kn, In kn g2 ->
                   exists t sp, fst kn = [Ts t; sp]).
  { intros [k n] Hkn. pose proof (proj1 (Din k n) Hkn) as (Hnn & _).
    destruct (grouping_keys trend _ k n Hkn) as (row & Hrow & ->).
    pose proof (loaded_row_date row (Htrow row Hrow)) as Hdt.
    unfold project in *. cbn [map fst] in *. unfold date_pos in *.
    destruct (DF.cell 1 row); try discriminate; eauto. }
  set (t2 := DF.reset_index_groups ["Date"; "Common_Name"] "Count" g2).
  assert (Ht2 : data t2 = map group_row g2) by reflexivity.
  assert (Ht2ix : List.length (index t2) = List.length (data t2)).
  { unfold t2, DF.reset_index_groups. cbn [index data].
    now rewrite length_seq, length_map. }
  assert (Hcell0 : forall kn, In kn g2 -> exists t, DF.cell 0 (group_row kn) = Ts t).
  { intros kn Hkn. destruct (Hkey kn Hkn) as (t & sp & E).
    exists t. unfold group_row. now rewrite E. }
  assert (Hhom2 : homogeneous (map (DF.cell 0) (data t2)) = true).
  { apply homogeneous_datetimes. intros v Hv. rewrite Ht2, map_map in Hv.
    apply in_map_iff in Hv as (kn & <- & Hkn).
    destruct (Hcell0 kn Hkn) as [t ->]. reflexivity. }
  destruct (sort_values_run "Date" true t2 0 eq_refl Hhom2)
    as (dw & Ed & Hdc & Hdio & Hdp & Hds).
  pose proof (labelled_rows_perm_data t2 dw Ht2ix Hdio Hdp) as Hdd.
  rewrite Ht2 in Hdd.
  assert (Hdrows : forall row, In row (data dw) ->
                               exists kn, In kn g2 /\ row = group_row kn).
  { intros row Hrow. apply (Permutation_in _ (Permutation_sym Hdd)) in Hrow.
    apply in_map_iff in Hrow as (kn & <- & Hkn). now exists kn. }
  eexists. eexists. exists (tail 1000 dw).
  split.
  { unfold species_trends. destruct sel as [| x sel]; [congruence |].
    cbn [truthy]. rewrite (getitem_col _ _ _ Hsp). unfold rbind at 1.
    fold trend. rewrite Hg. unfold rbind at 1. rewrite Eb. unfold rbind at 1.
    rewrite Hg2. unfold rbind at 1. fold t2. rewrite Ed. reflexivity. }
  split; [reflexivity |]. split; [exact Gs |]. split; [exact Gn |].
  split; [exact Gin |]. split.
  { rewrite Gt, Htd, <- filter_andb. f_equal. apply filter_ext. intros row.
    unfold project. cbn [map forallb]. now rewrite andb_true_r. }
  split; [cbn [tail columns]; now rewrite Hdc |].
  unfold DF.len. cbn [tail data]. split; [rewrite length_skipn; lia |].
  split.
  - apply StronglySorted_skipn.
    apply (StronglySorted_impl_in
             (fun a b => na_last (direction true) (DF.cell 0 a) (DF.cell 0 b) = true));
      [| exact Hds].
    intros a b Ha Hb H.
    destruct (Hdrows a Ha) as (ka & Hka & ->).
    destruct (Hdrows b Hb) as (kb & Hkb & ->).
    destruct (Hcell0 ka Hka) as [ta Ea]. destruct (Hcell0 kb Hkb) as [tb Etb].
    rewrite Ea, Etb in *. exact H.
  - intros row Hrow. apply skipn_In in Hrow.
    destruct (Hdrows row Hrow) as ([k n] & Hkn & ->).
    exists k, n. split; [reflexivity |]. now apply Din.
Qed.

Lemma species_trends_charts_witness :
  exists yearly datewise,
    species_trends sample_frame [Str "Robin"] = Ok (TrendCharts yearly datewise)
    /\ columns datewise = ["Date"; "Common_Name"; "Count"]
    /\ DF.len datewise <= 1000.
Proof.
  destruct (species_trends_charts sample_frame [Str "Robin"]) as [_ H].
  - vm_compute. reflexivity.
  - destruct H as (g & yearly & datewise & E & _ & _ & _ & _ & _ & C & L & _).
    + discriminate.
    + exists yearly, datewise. repeat split; assumption.
Defined.

(** ** The watch-list block at its edges *)

Lemma rmap_gt_num_raise (s : series) :
  (exists v, In v s /\ numeric v = false) ->
  rmap (DF.gt_num 0) s = Raise (TypeError "'>' not supported").
Proof.
  induction s as [| x s IH]; intros (v & Hv & Hn); [contradiction |].
  simpl. destruct x; simpl.
  - rewrite IH; [reflexivity |]. exists v. split; [| exact Hn].
    destruct Hv as [<- | Hv]; [discriminate | exact Hv].
  - reflexivity.
  - rewrite IH; [reflexivity |]. exists v. split; [| exact Hn].
    destruct Hv as [<- | Hv]; [discriminate | exact Hv].
  - reflexivity.
Qed.

(** X17. The edges of the watch-list block. Without the status column the
    block is skipped. With the column, one status that is a string makes
    the comparison with zero raise TypeError, whatever the other records
    hold. And when the chart is shown, a record without a status is
    counted in it: a null is not equal to zero. *)
Theorem risk_block_edges df :
  (DF.col_index "PIF_Watchlist_Status" (columns df) = None ->
   risk_block df = Ok RiskNoColumn)
  /\ (forall i row s,
        DF.col_index "PIF_Watchlist_Status" (columns df) = Some i ->
        In row (data df) -> DF.cell i row = Str s ->
        risk_block df = Raise (TypeError "'>' not supported"))
  /\ (forall i j,
        DF.col_index "PIF_Watchlist_Status" (columns df) = Some i ->
        DF.col_index "Common_Name" (columns df) = Some j ->
        forallb (fun row => numeric (DF.cell i row)) (data df) = true ->
        (exists row, In row (data df) /\ positive (DF.cell i row) = true) ->
        exists c,
          risk_block df = Ok (RiskChart (counts_frame c))
          /\ total (map snd c)
             = List.length
                 (filter (fun row => DF.ne_num 0 (DF.cell i row)
                                     && notna (DF.cell j row)) (data df))
          /\ forall row, In row (data df) -> DF.cell i row = NA ->
                         DF.cell j row <> NA ->
                         exists n, In (DF.cell j row, n) c /\ 1 <= n).
Proof.
  split; [| split].
  - intros H. unfold risk_block, DF.has_column. now rewrite H.
  - intros i row s Hi Hrow Hs. unfold risk_block, DF.has_column. rewrite Hi.
    rewrite (getitem_col _ _ _ Hi). unfold rbind at 1.
    rewrite rmap_gt_num_raise; [reflexivity |].
    exists (Str s). split; [| reflexivity].
    rewrite <- Hs. now apply in_map.
  - intros i j Hi Hj Hnum Hpos.
    rewrite (risk_block_run df i j Hi Hj Hnum).
    replace (existsb (fun row => positive (DF.cell i row)) (data df)) with true
      by (symmetry; now apply existsb_exists).
    eexists. split; [reflexivity |]. split.
    + rewrite value_counts_total, filter_map_comm, length_map, <- filter_andb.
      reflexivity.
    + intros row Hrow Hna Hsp. eexists. split.
      * apply value_counts_In. split; [| split; [exact Hsp | reflexivity]].
        apply in_map, filter_In. split; [exact Hrow |]. now rewrite Hna.
      * apply (count_occ_In value_eq_dec).
        apply in_map, filter_In. split; [exact Hrow |]. now rewrite Hna.
Qed.

Lemma risk_block_edges_witness :
  risk_block (mkDF ["Common_Name"; "PIF_Watchlist_Status"] [0]
                [[Str "Robin"; Str "Yes"]])
  = Raise (TypeError "'>' not supported").
Proof.
  destruct (risk_block_edges
              (mkDF ["Common_Name"; "PIF_Watchlist_Status"] [0]
                 [[Str "Robin"; Str "Yes"]])) as (_ & H & _).
  apply (H 1 [Str "Robin"; Str "Yes"] "Yes").
  - reflexivity.
  - now left.
  - reflexivity.
Defined.

(** X18. The species the trends tab offers, on a frame with the species
    column: each species of the filtered frame once, no null among them;
    and whichever of them are selected, every selected one has a record
    in the frame the charts are drawn from. *)
Theorem species_list_choices df j :
  DF.col_index "Common_Name" (columns df) = Some j ->
  exists l,
    species_list df = Ok l
    /\ NoDup l
    /\ (forall v, In v l <->
          v <> NA /\ exists row, In row (data df) /\ DF.cell j row = v)
    /\ (forall sel v, In v sel -> In v l ->
          exists row,
            In row (data (DF.select df (DF.isin (map (DF.cell j) (data df)) sel)))
            /\ DF.cell j row = v).
Proof.
  intros Hj. unfold species_list. rewrite (getitem_col _ _ _ Hj). unfold rbind.
  eexists. split; [reflexivity |]. split; [apply dropna_unique_NoDup |].
  assert (Hin : forall v, In v (dropna_unique (map (DF.cell j) (data df)))
                          <-> v <> NA
                              /\ exists row, In row (data df) /\ DF.cell j row = v).
  { intros v. rewrite dropna_unique_In, in_map_iff. split.
    - intros [(row & E & Hrow) Hna]. split; [exact Hna | now exists row].
    - intros [Hna (row & Hrow & E)]. split; [now exists row | exact Hna]. }
  split; [exact Hin |].
  intros sel v Hsel Hv. apply Hin in Hv as [_ (row & Hrow & E)].
  exists row. split; [| exact E].
  rewrite isin_select_data. apply filter_In. split; [exact Hrow |].
  apply existsb_value_eqb. now rewrite E.
Qed.

Lemma species_list_choices_witness :
  species_list sample_frame = Ok [Str "Robin"; Str "Wren"].
Proof.
  destruct (species_list_choices sample_frame 3) as (l & E & _).
  - reflexivity.
  - rewrite E. f_equal. vm_compute in E. now inversion E.
Defined.

(** ** The CSV export, read back *)

Lemma csv_run_app s1 s2 st :
  csv_run (s1 ++ s2) st = csv_run s2 (csv_run s1 st).
Proof.
  revert st. induction s1 as [| a s1 IH]; intros st; simpl; [reflexivity |].
  apply IH.
Qed.

Lemma text_of_rev s : text_of (rev (list_ascii_of_string s)) = s.
Proof.
  unfold text_of. now rewrite rev_involutive, string_of_list_ascii_of_string.
Qed.

(** A field written without quotes is read as it stands. *)
Lemma run_plain s st :
  DF.string_existsb
    (fun a => Ascii.eqb a DF.comma || Ascii.eqb a DF.dquote
              || Ascii.eqb a DF.newline || Ascii.eqb a DF.carriage_return) s
  = false ->
  mode st = FieldStart \/ mode st = InPlain ->
  exists m,
    m <> InQuoted
    /\ csv_run s st
       = mkCsv (done_records st) (done_fields st)
           (rev (list_ascii_of_string s) ++ pending st) m.
Proof.
  revert st. induction s as [| a s IH]; intros st Hs Hm.
  - exists (mode st). split; [destruct Hm as [-> | ->]; discriminate |].
    now destruct st.
  - simpl in Hs. apply orb_false_iff in Hs as [Ha Hs].
    apply orb_false_iff in Ha as [Ha _]. apply orb_false_iff in Ha as [Ha Hn].
    apply orb_false_iff in Ha as [Hc Hq].
    assert (Hstep : csv_step a st = push a InPlain st).
    { unfold csv_step. destruct Hm as [-> | ->]; now rewrite ?Hq, Hc, Hn. }
    simpl. rewrite Hstep.
    destruct (IH (push a InPlain st) Hs (or_intror eq_refl)) as (m & Hm' & E).
    exists m. split; [exact Hm' |]. rewrite E. cbn [push done_records done_fields pending].
    now rewrite <- app_assoc.
Qed.

(** Inside quotes every character is read as it stands, a doubled quote
    as one quote. *)
Lemma run_quoted s st :
  mode st = InQuoted ->
  csv_run (DF.double_quotes s) st
  = mkCsv (done_records st) (done_fields st)
      (rev (list_ascii_of_string s) ++ pending st) InQuoted.
Proof.
  revert st. induction s as [| a s IH]; intros st Hm.
  - simpl. destruct st. simpl in Hm. now subst.
  - cbn [DF.double_quotes]. destruct (Ascii.eqb a DF.dquote) eqn:Hq.
    + cbn [csv_run]. unfold csv_step at 2. rewrite Hm, Hq.
      unfold csv_step. cbn [enter mode]. rewrite Hq.
      rewrite IH by reflexivity.
      cbn [push enter done_records done_fields pending list_ascii_of_string rev].
      now rewrite <- app_assoc.
    + cbn [csv_run]. unfold csv_step. rewrite Hm, Hq.
      rewrite IH by reflexivity.
      cbn [push done_records done_fields pending list_ascii_of_string rev].
      now rewrite <- app_assoc.
Qed.

(** A field as [csv_quote] writes it, read from the start of a field. *)
Lemma run_field s st :
  mode st = FieldStart -> pending st = [] ->
  exists m,
    m <> InQuoted
    /\ csv_run (DF.csv_quote s) st
       = mkCsv (done_records st) (done_fields st)
           (rev (list_ascii_of_string s)) m.
Proof.
  intros Hm Hp. unfold DF.csv_quote.
  destruct (DF.string_existsb _ s) eqn:Hs.
  - exists AfterQuote. split; [discriminate |].
    cbn [csv_run]. unfold csv_step at 1. rewrite Hm.
    replace (Ascii.eqb DF.dquote DF.dquote) with true by reflexivity.
    rewrite csv_run_app, run_quoted by reflexivity.
    cbn [csv_run]. unfold csv_step. cbn [mode enter done_records done_fields pending].
    replace (Ascii.eqb DF.dquote DF.dquote) with true by reflexivity.
    unfold enter. simpl. rewrite Hp, app_nil_r. reflexivity.
  - destruct (run_plain s st Hs (or_introl Hm)) as (m & Hm' & E).
    exists m. split; [exact Hm' |]. now rewrite E, Hp, app_nil_r.
Qed.

Lemma step_comma st :
  mode st <> InQuoted -> csv_step DF.comma st = end_field st.
Proof. unfold csv_step. destruct (mode st); [| | congruence |]; reflexivity. Qed.

Lemma step_newline st :
  mode st <> InQuoted -> csv_step DF.newline st = end_record st.
Proof. unfold csv_step. destruct (mode st); [| | congruence |]; reflexivity. Qed.

(** The fields of a record joined by commas: all but the last are read,
    the last is pending. *)
Lemma run_joined fs f st :
  mode st = FieldStart -> pending st = [] ->
  exists m init l,
    m <> InQuoted
    /\ f :: fs = init ++ [l]
    /\ csv_run (String.concat (String DF.comma EmptyString)
                  (map DF.csv_quote (f :: fs))) st
       = mkCsv (done_records st) (rev init ++ done_fields st)
           (rev (list_ascii_of_string l)) m.
Proof.
  revert f st. induction fs as [| g fs IH]; intros f st Hm Hp.
  - destruct (run_field f st Hm Hp) as (m & Hm' & E).
    exists m, [], f. split; [exact Hm' |]. split; [reflexivity |]. exact E.
  - change (String.concat (String DF.comma EmptyString)
              (map DF.csv_quote (f :: g :: fs)))
      with (DF.csv_quote f
            ++ String DF.comma
                 (String.concat (String DF.comma EmptyString)
                    (map DF.csv_quote (g :: fs))))%string.
    rewrite csv_run_app.
    destruct (run_field f st Hm Hp) as (m1 & Hm1 & E1). rewrite E1.
    cbn [csv_run]. rewrite step_comma by exact Hm1.
    unfold end_field. cbn [done_records done_fields pending].
    rewrite text_of_rev.
    destruct (IH g (mkCsv (done_records st) (f :: done_fields st) [] FieldStart)
                eq_refl eq_refl) as (m & init & l & Hm' & Hsplit & E).
    exists m, (f :: init), l. split; [exact Hm' |].
    split; [simpl; now rewrite Hsplit |].
    rewrite E. cbn [done_records done_fields rev]. now rewrite <- app_assoc.
Qed.

(** A line of the export read from a clean state: one more record, the
    fields as they were before quoting. *)
Lemma run_line fs st :
  fs <> [] -> mode st = FieldStart -> pending st = [] -> done_fields st = [] ->
  csv_run (DF.csv_line fs) st = mkCsv (fs :: done_records st) [] [] FieldStart.
Proof.
  intros Hne Hm Hp Hf.
  assert (General :
    csv_run (String.concat (String DF.comma EmptyString) (map DF.csv_quote fs)
             ++ String DF.newline EmptyString) st
    = mkCsv (fs :: done_records st) [] [] FieldStart).
  { destruct fs as [| f fs]; [congruence |].
    rewrite csv_run_app.
    destruct (run_joined fs f st Hm Hp) as (m & init & l & Hm' & Hsplit & E).
    rewrite E. cbn [csv_run]. rewrite step_newline by exact Hm'.
    unfold end_record. cbn [done_records done_fields pending].
    rewrite text_of_rev, Hf, app_nil_r. cbn [rev].
    now rewrite rev_involutive, <- Hsplit. }
  destruct fs as [| f fs]; [congruence |].
  destruct f as [| a f]; [destruct fs as [| g fs] |]; try exact General.
  cbn [DF.csv_line csv_run]. unfold csv_step at 3. rewrite Hm.
  replace (Ascii.eqb DF.dquote DF.dquote) with true by reflexivity.
  unfold csv_step at 2. cbn [mode enter].
  replace (Ascii.eqb DF.dquote DF.dquote) with true by reflexivity.
  unfold csv_step. cbn [mode enter].
  replace (Ascii.eqb DF.newline DF.dquote) with false by reflexivity.
  replace (Ascii.eqb DF.newline DF.comma) with false by reflexivity.
  replace (Ascii.eqb DF.newline DF.newline) with true by reflexivity.
  unfold end_record, enter. simpl. rewrite Hp, Hf. reflexivity.
Qed.

Lemma run_lines recs st :
  Forall (fun fs => fs <> []) recs ->
  mode st = FieldStart -> pending st = [] -> done_fields st = [] ->
  csv_run (String.concat "" (map DF.csv_line recs)) st
  = mkCsv (rev recs ++ done_records st) [] [] FieldStart.
Proof.
  revert st. induction recs as [| fs recs IH]; intros st Hall Hm Hp Hf.
  - simpl. destruct st. simpl in *. now subst.
  - inversion Hall as [| ? ? Hfs Hrest]; subst.
    destruct recs as [| gs recs].
    + simpl. now rewrite run_line.
    + change (String.concat "" (map DF.csv_line (fs :: gs :: recs)))
        with (DF.csv_line fs
              ++ String.concat "" (map DF.csv_line (gs :: recs)))%string.
      rewrite csv_run_app, run_line by assumption.
      rewrite IH by (try assumption; reflexivity).
      cbn [done_records]. cbn [rev]. now rewrite <- !app_assoc.
Qed.

(** Reading the export back gives its records: the column labels, then
    the fields of every row, as they were before quoting. *)
Lemma csv_read_to_csv format_cell df :
  columns df <> [] ->
  csv_read (DF.to_csv format_cell df) = DF.csv_records format_cell df.
Proof.
  intros Hc. unfold csv_read, DF.to_csv.
  rewrite run_lines; try reflexivity.
  - cbn [done_fields pending mode done_records].
    now rewrite app_nil_r, rev_involutive.
  - unfold DF.csv_records. constructor; [exact Hc |].
    apply Forall_forall. intros fs Hfs.
    apply in_map_iff in Hfs as (row & <- & _).
    unfold DF.csv_row. intros E. apply Hc.
    apply (f_equal (@List.length string)) in E.
    rewrite length_map, length_combine, length_seq, Nat.min_id in E.
    now destruct (columns df).
Qed.

Lemma setitem_raise h r v c s e :
  nth_error h r = Some v -> DF.setitem v c s = Raise e ->
  setitem r c s h = (Raise e, h).
Proof.
  intros Hr Hs. unfold setitem.
  rewrite (bind_ok _ _ _ _ _ (deref_run _ _ _ Hr)). rewrite Hs. reflexivity.
Qed.

(** A load that succeeds returns a loaded frame, with one row per row of
    the table. *)
Lemma load_data_ok_loaded conv table h df h1 :
  wf_table table = true ->
  load_data conv (Ok table) h = (Ok df, h1) ->
  exists v, nth_error h1 df = Some v /\ loaded v
            /\ DF.len v = List.length table.
Proof.
  intros Hwf E.
  destruct (conv DF.ErrorsCoerce (map (DF.cell 1) table)) as [d | e] eqn:Hconv.
  - destruct (Nat.eq_dec (List.length d) (List.length table)) as [Hlen | Hlen].
    + rewrite (load_data_run conv table h d Hwf Hconv Hlen) in E.
      destruct (forallb DF.is_datetime d) eqn:Hdt; [| discriminate].
      inversion E; subst. eexists. split; [apply nth_error_last |].
      split.
      * rewrite <- (zip_with_length dated_row table d) by (symmetry; exact Hlen).
        apply loaded_intro; [reflexivity | now apply dated_rows_loaded].
      * unfold DF.len. cbn [data]. apply zip_with_length. now symmetry.
    + exfalso. unfold load_data in E.
      rewrite (bind_ok _ _ _ _ _ (read_sql_run table h)) in E.
      set (v0 := mkDF select_columns (seq 0 (List.length table)) table) in E.
      assert (N0 : nth_error (h ++ [v0]) (List.length h) = Some v0)
        by apply nth_error_last.
      rewrite (bind_ok _ _ _ _ _ (getitem_run _ _ _ "Date" _ N0 eq_refl)) in E.
      simpl data in E. rewrite Hconv in E.
      rewrite (bind_ok _ _ _ _ _ (lift_run _ _)) in E.
      assert (S1 : DF.setitem v0 "Date" d
                   = Raise (ValueError "Length of values does not match length of index")).
      { unfold DF.setitem, v0. cbn [data].
        apply Nat.eqb_neq in Hlen. now rewrite Hlen. }
      rewrite (bind_raise _ _ _ _ _ (setitem_raise _ _ _ _ _ _ N0 S1)) in E.
      discriminate E.
  - exfalso. unfold load_data in E.
    rewrite (bind_ok _ _ _ _ _ (read_sql_run table h)) in E.
    set (v0 := mkDF select_columns (seq 0 (List.length table)) table) in E.
    assert (N0 : nth_error (h ++ [v0]) (List.length h) = Some v0)
      by apply nth_error_last.
    rewrite (bind_ok _ _ _ _ _ (getitem_run _ _ _ "Date" _ N0 eq_refl)) in E.
    simpl data in E. rewrite Hconv in E.
    unfold bind at 1, lift in E. discriminate E.
Qed.

(** C6.  Whenever the table has been loaded, the export of the frame
    filtered from it is text that, read back as CSV, holds the header and
    then exactly one record per row of the filtered frame, in the order of
    the rows.  The header names the fourteen columns of the table followed
    by Year and Month, and every record has one field for each of these
    sixteen columns: the text of the row's cell, empty for a null. *)
Theorem C6_csv_rows_and_columns format_cell to_datetime table h df h1
  observers plots species date_range :
  wf_table table = true ->
  load_data to_datetime (Ok table) h = (Ok df, h1) ->
  exists out h2 fv body,
    apply_filters df observers plots species date_range h1 = (Ok out, h2)
    /\ nth_error h2 out = Some fv
    /\ csv_read (csv format_cell fv)
       = (select_columns ++ ["Year"; "Month"]) :: body
    /\ List.length body = DF.len fv
    /\ Forall (fun fields => List.length fields = 16) body
    /\ forall k row, nth_error (data fv) k = Some row ->
         nth_error body k = Some (DF.csv_row format_cell fv row).
Proof.
  intros Hwf Hload.
  destruct (load_data_ok_loaded _ _ _ _ _ Hwf Hload) as (v & Hdf & Hl & _).
  destruct (apply_filters_frame h1 df v observers plots species date_range Hdf Hl)
    as (out & h2 & E & Hout).
  set (fv := mkDF loaded_columns
               (seq 0 (List.length
                         (filter (keeps observers plots species date_range)
                            (data v))))
               (filter (keeps observers plots species date_range) (data v)))
    in *.
  exists out, h2, fv, (map (DF.csv_row format_cell fv) (data fv)).
  split; [exact E |]. split; [exact Hout |].
  split; [unfold csv; rewrite csv_read_to_csv; [reflexivity | discriminate] |].
  split; [apply length_map |]. split.
  - apply Forall_forall. intros fields Hf.
    apply in_map_iff in Hf as (row & <- & _).
    unfold DF.csv_row.
    now rewrite length_map, length_combine, length_seq, Nat.min_id.
  - intros k row Hrow. now apply map_nth_error.
Qed.

Lemma C6_csv_rows_and_columns_witness :
  exists out h2 fv body,
    apply_filters 0 [] [Str "A"] [] (DateValue 0) sample_store = (Ok out, h2)
    /\ nth_error h2 out = Some fv
    /\ csv_read (csv (format_cell_pandas sample_floats) fv)
       = (select_columns ++ ["Year"; "Month"]) :: body
    /\ List.length body = DF.len fv
    /\ Forall (fun fields => List.length fields = 16) body
    /\ forall k row, nth_error (data fv) k = Some row ->
         nth_error body k
         = Some (DF.csv_row (format_cell_pandas sample_floats) fv row).
Proof.
  apply (C6_csv_rows_and_columns (format_cell_pandas sample_floats)
           to_datetime_iso sample_table []).
  - reflexivity.
  - vm_compute. reflexivity.
Defined.

(** The export of the two sample records of plot B, as text: the record
    without a date has empty fields under Date, Temperature, Year and
    Month. *)
Example csv_sample_plot_b :
  csv_read (csv (format_cell_pandas sample_floats) sample_plot_b)
  = [select_columns ++ ["Year"; "Month"];
     ["B"; ""; "Ann"; "Robin"; "Sp. sp."; "<= 50 m"; "Undetermined"; "";
      "70"; "Clear"; "Calm"; "06:00"; "06:10"; "0"; ""; ""];
     ["B"; "2021-01-20"; "Ann"; "Robin"; "Sp. sp."; "<= 50 m"; "Undetermined";
      "19.0"; "70"; "Clear"; "Calm"; "06:00"; "06:10"; "-1"; "2021.0"; "Jan"]].
Proof. vm_compute. reflexivity. Qed.

(** ** The watch-list block *)

(** C10.  On a frame with a numeric watch-list status column and the
    species column, the block shows the chart exactly when some record has
    a status strictly above zero, and the message otherwise.  The chart,
    when shown, is a table of species and counts taken over every record
    whose status is not zero (negative ones and nulls included): each
    species of such a record once, with the number of such records that
    name it, the counts never increasing down the table.  So a frame
    without a positive status but with a negative one gets the message
    although the records with a non-zero status are not empty. *)
Theorem C10_watchlist_gate df i j :
  DF.col_index "PIF_Watchlist_Status" (columns df) = Some i ->
  DF.col_index "Common_Name" (columns df) = Some j ->
  forallb (fun row => numeric (DF.cell i row)) (data df) = true ->
  let flagged := filter (fun row => DF.ne_num 0 (DF.cell i row)) (data df) in
  ((exists summary, risk_block df = Ok (RiskChart summary))
   <-> exists row, In row (data df) /\ positive (DF.cell i row) = true)
  /\ (forall summary, risk_block df = Ok (RiskChart summary) ->
        exists c,
          summary = counts_frame c
          /\ descending c
          /\ NoDup (map fst c)
          /\ (forall v n, In (v, n) c <->
                v <> NA
                /\ n = List.length
                         (filter (fun row => value_eqb (DF.cell j row) v) flagged)
                /\ 1 <= n)
          /\ total (map snd c)
             = List.length (filter (fun row => notna (DF.cell j row)) flagged))
  /\ (risk_block df = Ok (RiskInfo no_at_risk)
      <-> forall row, In row (data df) -> positive (DF.cell i row) = false)
  /\ ((forall row, In row (data df) -> positive (DF.cell i row) = false) ->
      (exists row, In row (data df) /\ negative (DF.cell i row) = true) ->
      risk_block df = Ok (RiskInfo no_at_risk)
      /\ flagged <> []
      /\ DF.empty (DF.select df (map (DF.ne_num 0) (map (DF.cell i) (data df))))
         = false).
Proof.
  intros Hi Hj Hnum flagged.
  pose proof (risk_block_run df i j Hi Hj Hnum) as Hrun.
  fold flagged in Hrun.
  assert (Hcount : forall v,
            count_occ value_eq_dec (map (DF.cell j) flagged) v
            = List.length (filter (fun row => value_eqb (DF.cell j row) v) flagged)).
  { intros v. rewrite count_occ_map_filter. reflexivity. }
  assert (Htable :
    let c := DF.value_counts (map (DF.cell j) flagged) in
    descending c
    /\ NoDup (map fst c)
    /\ (forall v n, In (v, n) c <->
          v <> NA
          /\ n = List.length
                   (filter (fun row => value_eqb (DF.cell j row) v) flagged)
          /\ 1 <= n)
    /\ total (map snd c)
       = List.length (filter (fun row => notna (DF.cell j row)) flagged)).
  { intros c. split; [apply sort_desc_descending |].
    split; [apply value_counts_NoDup |]. split.
    - intros v n. unfold c. rewrite value_counts_In, Hcount. split.
      + intros (Hin & Hna & ->). split; [exact Hna |]. split; [reflexivity |].
        rewrite <- Hcount. apply (count_occ_In value_eq_dec) in Hin. lia.
      + intros (Hna & -> & Hn). split; [| split; [exact Hna | reflexivity]].
        apply (count_occ_In value_eq_dec). rewrite Hcount. lia.
    - unfold c. now rewrite value_counts_total, filter_map_comm, length_map. }
  destruct (existsb (fun row => positive (DF.cell i row)) (data df)) eqn:Hex.
  - apply existsb_exists in Hex.
    assert (Hno : ~ forall row, In row (data df) -> positive (DF.cell i row) = false).
    { intros Hall. destruct Hex as (row & Hin & Hp).
      rewrite (Hall row Hin) in Hp. discriminate. }
    split; [split; [intros _; exact Hex | intros _; eexists; exact Hrun] |].
    split.
    { intros summary E. rewrite Hrun in E. inversion E; subst.
      eexists. split; [reflexivity | exact Htable]. }
    split; [split; [intros E; rewrite Hrun in E; discriminate | intros H; now elim Hno] |].
    intros H. now elim Hno.
  - assert (Hall : forall row, In row (data df) -> positive (DF.cell i row) = false).
    { intros row Hin. destruct (positive (DF.cell i row)) eqn:Hp; [| reflexivity].
      assert (existsb (fun row => positive (DF.cell i row)) (data df) = true)
        by (apply existsb_exists; eauto).
      congruence. }
    split; [split; [intros [summary E]; rewrite Hrun in E; discriminate
                   | intros (row & Hin & Hp); rewrite (Hall row Hin) in Hp;
                     discriminate] |].
    split; [intros summary E; rewrite Hrun in E; discriminate |].
    split; [split; [intros _; exact Hall | intros _; exact Hrun] |].
    intros _ (row & Hin & Hneg). split; [exact Hrun |].
    assert (Hf : In row flagged)
      by (apply filter_In; split; [exact Hin | now apply negative_ne_num]).
    split; [intros E; rewrite E in Hf; contradiction |].
    rewrite map_map, empty_filter. apply negb_false_iff, existsb_exists.
    exists row. split; [exact Hin | now apply negative_ne_num].
Qed.

Lemma C10_watchlist_gate_witness :
  risk_block sample_plot_b = Ok (RiskInfo no_at_risk)
  /\ filter (fun row => DF.ne_num 0 (DF.cell 13 row)) (data sample_plot_b) <> [].
Proof.
  destruct (C10_watchlist_gate sample_plot_b 13 3) as (_ & _ & _ & H).
  - reflexivity.
  - reflexivity.
  - reflexivity.
  - destruct H as (R & F & _).
    + intros row Hin. vm_compute in Hin.
      destruct Hin as [<- | [<- | []]]; reflexivity.
    + exists (nth 1 (data sample_plot_b) []).
      split; [right; left; reflexivity | reflexivity].
    + split; [exact R | exact F].
Defined.

(** On the four sample records (status 0, 1, 0 and -1) the chart is shown,
    and it counts the record with the negative status too: one Wren, of
    status 1, and one Robin, of status -1. *)
Example risk_block_counts_negative :
  exists c,
    risk_block sample_frame = Ok (RiskChart (counts_frame c))
    /\ List.length c = 2
    /\ In (Str "Wren", 1) c /\ In (Str "Robin", 1) c.
Proof.
  exists (DF.value_counts [Str "Wren"; Str "Robin"]).
  split; [vm_compute; reflexivity |].
  split; [reflexivity |]. split; vm_compute; auto.
Qed.
